(** * Request handlers of the image-to-3D workers: a shallow embedding

    The repository holds three serverless handlers (TripoSR, SF3D,
    Hunyuan3D-2).  Each one reads a JSON job, validates a few options,
    decodes an image, drives a third-party inference pipeline and packs the
    exported file into a response dictionary.

    The embedding follows the Python text of the three [handler.py] files:
    - JSON values are the inductive [value]; floats are binary64
      ([PrimFloat]), integers are [Z], dictionaries are association lists;
    - a Python exception is a value of [exn]; a computation is a state
      transformer that returns either a result or a raised exception, and
      keeps the state changes made before the raise (module globals, files);
    - code of the interpreter and of the wrapped libraries (string to number
      parsing, PIL, torch, the pipelines) is not in the repository: it is a
      field of the classes [Interp] and [Platform] and of one [Libs] class
      per handler, a transition on the state of the outside world. *)

From Stdlib Require Import ZArith String Ascii List Lia Bool Floats DecimalString.
From Stdlib.Strings Require Import Byte.
From stdpp Require Import gmap strings.
Import ListNotations.

#[local] Set Warnings "-register-all".
#[local] Open Scope string_scope.
#[local] Open Scope Z_scope.

(** ** Python values and exceptions *)

(** What [json.loads] can produce for a job. *)
Inductive value : Type :=
| VNone
| VBool (b : bool)
| VInt (n : Z)
| VFloat (x : float)
| VStr (s : string)
| VList (l : list value)
| VDict (d : list (string * value)).

(** Classes of exceptions, all below [Exception].  [CudaOutOfMemoryError] is
    [torch.cuda.OutOfMemoryError]; [OtherException] carries the class name of
    anything a library raises. *)
Inductive exc_class : Type :=
| TypeError
| ValueError
| AttributeError
| OverflowError
| IndexError
| FileNotFoundError
| ZeroDivisionError
| ImportError
| CudaOutOfMemoryError
| OtherException (name : string).

(** An exception object: its class and [str(e)]. *)
Record exn : Type := mk_exn { exn_class : exc_class; exn_str : string }.

Inductive outcome (A : Type) : Type :=
| Ok (a : A)
| Raise (e : exn).
Arguments Ok {A} a.
Arguments Raise {A} e.

Definition type_name (v : value) : string :=
  match v with
  | VNone => "NoneType"
  | VBool _ => "bool"
  | VInt _ => "int"
  | VFloat _ => "float"
  | VStr _ => "str"
  | VList _ => "list"
  | VDict _ => "dict"
  end.

(** [bool(v)]: the test behind [not image_b64]. *)
Definition truthy (v : value) : bool :=
  match v with
  | VNone => false
  | VBool b => b
  | VInt n => negb (n =? 0)
  | VFloat x => negb (PrimFloat.eqb x 0%float)
  | VStr s => negb (String.eqb s "")
  | VList l => match l with [] => false | _ => true end
  | VDict d => match d with [] => false | _ => true end
  end.

Fixpoint dict_lookup (d : list (string * value)) (k : string) : option value :=
  match d with
  | [] => None
  | (k', v) :: d' => if String.eqb k' k then Some v else dict_lookup d' k
  end.

(** [d.get(key, default)] for a dict. *)
Definition get_or (d : list (string * value)) (key : string) (default : value) : value :=
  match dict_lookup d key with
  | Some v => v
  | None => default
  end.

(** [obj.get(key, default)]: only a dict has the method. *)
Definition py_get (obj : value) (key : string) (default : value) : outcome value :=
  match obj with
  | VDict d => Ok (get_or d key default)
  | _ => Raise (mk_exn AttributeError
                  ("'" ++ type_name obj ++ "' object has no attribute 'get'"))
  end.

(** ** Builtins of the interpreter *)

(** The parts of CPython the handlers call whose code lies outside the
    repository: the parsers behind [float(str)] and [int(str)] ([None]
    stands for [ValueError]), [repr] of a string, [round(x, 2)] and
    [base64.b64decode]. *)
Class Interp : Type := {
  float_of_str : string -> option float;
  int_of_str : string -> option Z;
  repr : string -> string;
  round2 : float -> float;
  base64_b64decode : value -> outcome (list byte)
}.

(** 0.85 as binary64 (the nearest double, 0x1.b333333333333p-1). *)
Definition f0_85 : float := 0x1.b333333333333p-1%float.
Definition f0_5 : float := 0.5%float.
Definition f1_0 : float := 1%float.

(** [float(n)] for an int: the nearest double, ties to even;
    [OverflowError] beyond the range of a double. *)
Definition float_of_int (n : Z) : outcome float :=
  let x := SF2Prim (binary_normalize prec emax n 0 false) in
  if PrimFloat.eqb (PrimFloat.abs x) infinity
  then Raise (mk_exn OverflowError "int too large to convert to float")
  else Ok x.

(** [n / r] for an int and a float. *)
Definition truediv_int_float (n : Z) (r : float) : outcome float :=
  match float_of_int n with
  | Ok x =>
      if PrimFloat.eqb r 0%float
      then Raise (mk_exn ZeroDivisionError "float division by zero")
      else Ok (PrimFloat.div x r)
  | Raise e => Raise e
  end.

(** [int(x)] for a float: truncation toward zero. *)
Definition int_of_float (x : float) : outcome Z :=
  match Prim2SF x with
  | S754_nan => Raise (mk_exn ValueError "cannot convert float NaN to integer")
  | S754_infinity _ =>
      Raise (mk_exn OverflowError "cannot convert float infinity to integer")
  | S754_zero _ => Ok 0
  | S754_finite s m e =>
      let a := if 0 <=? e then Z.shiftl (Z.pos m) e else Z.shiftr (Z.pos m) (- e) in
      Ok (if s then - a else a)
  end.

Section Builtins.
Context `{Interp}.

(** [float(v)]. *)
Definition py_float (v : value) : outcome float :=
  match v with
  | VFloat x => Ok x
  | VInt n => float_of_int n
  | VBool b => Ok (if b then 1%float else 0%float)
  | VStr s =>
      match float_of_str s with
      | Some x => Ok x
      | None => Raise (mk_exn ValueError
                         ("could not convert string to float: " ++ repr s))
      end
  | _ => Raise (mk_exn TypeError
                  ("float() argument must be a string or a real number, not '"
                     ++ type_name v ++ "'"))
  end.

(** [int(v)]. *)
Definition py_int (v : value) : outcome Z :=
  match v with
  | VInt n => Ok n
  | VBool b => Ok (if b then 1 else 0)
  | VFloat x => int_of_float x
  | VStr s =>
      match int_of_str s with
      | Some n => Ok n
      | None => Raise (mk_exn ValueError
                         ("invalid literal for int() with base 10: " ++ repr s))
      end
  | _ => Raise (mk_exn TypeError
                  ("int() argument must be a string, a bytes-like object or a real number, not '"
                     ++ type_name v ++ "'"))
  end.

End Builtins.

(** [s.lower()] on the ASCII letters, which is all the handlers compare
    against. *)
Definition lower_ascii (c : ascii) : ascii :=
  let n := N_of_ascii c in
  if ((65 <=? n) && (n <=? 90))%N then ascii_of_N (n + 32) else c.

Fixpoint lower (s : string) : string :=
  match s with
  | EmptyString => EmptyString
  | String c s' => String (lower_ascii c) (lower s')
  end.

(** [v.lower()]: only a str has the method. *)
Definition py_lower (v : value) : outcome string :=
  match v with
  | VStr s => Ok (lower s)
  | _ => Raise (mk_exn AttributeError
                  ("'" ++ type_name v ++ "' object has no attribute 'lower'"))
  end.

(** [needle in s] for strings. *)
Fixpoint contains (needle s : string) : bool :=
  String.prefix needle s
  || match s with
     | EmptyString => false
     | String _ s' => contains needle s'
     end.

(** [str(n)] for an int. *)
Definition str_of_int (n : Z) : string := NilZero.string_of_int (Z.to_int n).

(** ** base64, as [base64.b64encode] produces it (RFC 4648, section 4) *)

Definition b64_alphabet : string :=
  "ABCDEFGHIJKLMNOPQRSTUVWXYZabcdefghijklmnopqrstuvwxyz0123456789+/".

Definition b64_pad : ascii := "="%char.

(** The character of a 6-bit group. *)
Definition b64_char (n : N) : ascii :=
  match String.get (N.to_nat n) b64_alphabet with
  | Some c => c
  | None => b64_pad
  end.

(** [base64.b64encode(data).decode('utf-8')]: three bytes give four
    characters; a last group of one or two bytes is padded with [=]. *)
Fixpoint b64encode (data : list byte) : string :=
  match data with
  | [] => EmptyString
  | [a] =>
      let x := Byte.to_N a in
      String (b64_char (x / 4)) (String (b64_char (x mod 4 * 16))
        (String b64_pad (String b64_pad EmptyString)))
  | [a; b] =>
      let x := Byte.to_N a in
      let y := Byte.to_N b in
      String (b64_char (x / 4)) (String (b64_char (x mod 4 * 16 + y / 16))
        (String (b64_char (y mod 16 * 4)) (String b64_pad EmptyString)))
  | a :: b :: c :: rest =>
      let x := Byte.to_N a in
      let y := Byte.to_N b in
      let z := Byte.to_N c in
      String (b64_char (x / 4)) (String (b64_char (x mod 4 * 16 + y / 16))
        (String (b64_char (y mod 16 * 4 + z / 64)) (String (b64_char (z mod 64))
          (b64encode rest))))
  end%N.

(** The 6-bit group of a character of the alphabet. *)
Definition b64_index (c : ascii) : option N :=
  (let n := N_of_ascii c in
   if (65 <=? n) && (n <=? 90) then Some (n - 65)
   else if (97 <=? n) && (n <=? 122) then Some (n - 71)
   else if (48 <=? n) && (n <=? 57) then Some (n + 4)
   else if n =? 43 then Some 62
   else if n =? 47 then Some 63
   else None)%N.

Definition byte_of_N (n : N) : byte :=
  match Byte.of_N n with
  | Some b => b
  | None => x00
  end.

(** The decoder a client applies to [model_base64]: groups of four
    characters of the alphabet, the last one possibly padded; [None] on any
    other text. *)
Fixpoint b64decode (s : string) : option (list byte) :=
  match s with
  | EmptyString => Some []
  | String c1 (String c2 (String c3 (String c4 rest))) =>
      match b64_index c1, b64_index c2 with
      | Some s1, Some s2 =>
          let b1 := byte_of_N (s1 * 4 + s2 / 16) in
          if Ascii.eqb c3 b64_pad && Ascii.eqb c4 b64_pad then
            match rest with
            | EmptyString => Some [b1]
            | _ => None
            end
          else
            match b64_index c3 with
            | Some s3 =>
                let b2 := byte_of_N (s2 mod 16 * 16 + s3 / 4) in
                if Ascii.eqb c4 b64_pad then
                  match rest with
                  | EmptyString => Some [b1; b2]
                  | _ => None
                  end
                else
                  match b64_index c4 with
                  | Some s4 =>
                      let b3 := byte_of_N (s3 mod 4 * 64 + s4) in
                      option_map (fun tl => b1 :: b2 :: b3 :: tl) (b64decode rest)
                  | None => None
                  end
            | None => None
            end
      | _, _ => None
      end
  | _ => None
  end%N.


(** ** [base64.b64decode(s)] of CPython for a [str]

    [binascii.a2b_base64] without [strict_mode]: a character outside the
    alphabet is skipped; the data characters are read in groups of four, a
    byte being written at the second, third and fourth of a group; a pad
    that completes a group of two or three data characters ends the
    decoding, and the rest is not read.  [quad_pos] is the place in the
    group, [leftchar] the bits not written yet, [pads] the pads seen since
    the last data character, [out] the bytes written, last first. *)
Fixpoint a2b_scan (s : string) (quad_pos leftchar pads : N) (out : list byte)
    : N * list byte :=
  match s with
  | EmptyString => (quad_pos, out)
  | String c s' =>
      if Ascii.eqb c b64_pad then
        if (2 <=? quad_pos)%N then
          if (4 <=? quad_pos + (pads + 1))%N then (0%N, out)
          else a2b_scan s' quad_pos leftchar (pads + 1)%N out
        else a2b_scan s' quad_pos leftchar pads out
      else
        match b64_index c with
        | None => a2b_scan s' quad_pos leftchar pads out
        | Some this_ch =>
            match quad_pos with
            | 0%N => a2b_scan s' 1%N this_ch 0%N out
            | 1%N =>
                a2b_scan s' 2%N (this_ch mod 16)%N 0%N
                  (byte_of_N (leftchar * 4 + this_ch / 16)%N :: out)
            | 2%N =>
                a2b_scan s' 3%N (this_ch mod 4)%N 0%N
                  (byte_of_N (leftchar * 16 + this_ch / 4)%N :: out)
            | _ =>
                a2b_scan s' 0%N 0%N 0%N (byte_of_N (leftchar * 64 + this_ch)%N :: out)
            end
        end
  end.

Definition a2b_base64 (s : string) : outcome (list byte) :=
  let (quad_pos, out) := a2b_scan s 0%N 0%N 0%N [] in
  if (quad_pos =? 0)%N then Ok (rev out)
  else if (quad_pos =? 1)%N then
    Raise (mk_exn (OtherException "binascii.Error")
             ("Invalid base64-encoded string: number of data characters ("
                ++ str_of_int (Z.of_nat (length out) / 3 * 4 + 1)
                ++ ") cannot be 1 more than a multiple of 4"))
  else Raise (mk_exn (OtherException "binascii.Error") "Incorrect padding").

(** [base64.b64decode(v)]: a [str] is encoded as ASCII first, and anything
    that is no [str] (and no bytes-like object, which JSON does not have)
    is refused. *)
Definition b64decode_value (v : value) : outcome (list byte) :=
  match v with
  | VStr s =>
      if forallb (fun c => (N_of_ascii c <? 128)%N) (list_ascii_of_string s)
      then a2b_base64 s
      else Raise (mk_exn ValueError
                    "string argument should contain only ASCII characters")
  | _ => Raise (mk_exn TypeError
                  ("argument should be a bytes-like object or ASCII string, not '"
                     ++ type_name v ++ "'"))
  end.

(** ** The worker process *)

(** What a run does that can be seen from outside the handler: a call of a
    function with its option arguments (images, meshes and models are left
    out of [args]), a file written (by whom, where, what) or removed, an
    environment variable set.  The record is ghost state: it changes nothing
    in a run. *)
Inductive action : Type :=
| Call (callee : string) (args : list value)
| Wrote (writer path : string) (data : list byte)
| Removed (path : string)
| SetEnv (name val : string).

(** A call into a library: a transition on the state of the outside world
    (GPU, model hub, clock) that returns or raises. *)
Definition ext (W A : Type) : Type := W -> outcome A * W.

(** What every handler uses of the standard library and PIL.  [obj] is a
    reference to an object of a library (image, mesh, model, session,
    imported function). *)
Class Platform : Type := {
  world : Type;
  obj : Type;
  (** [time.time()] *)
  time_time : world -> float * world;
  (** [tempfile.mkstemp(suffix=...)] followed by [os.close(fd)]: the path *)
  mkstemp : string -> ext world string;
  (** [import torch] *)
  import_torch : ext world unit;
  (** [Image.open(io.BytesIO(data))] *)
  Image_open : list byte -> ext world obj;
  (** [Image.new(mode, size, color)] *)
  Image_new : string -> Z * Z -> list Z -> ext world obj;
  (** [image.mode] and [image.size] *)
  image_mode : obj -> string;
  image_size : obj -> Z * Z;
  (** [image.convert(mode)] *)
  Image_convert : obj -> string -> ext world obj;
  (** [image.split()]: the bands *)
  Image_split : obj -> ext world (list obj);
  (** [alpha.getbbox()]: [None] for an empty band *)
  Image_getbbox : obj -> ext world (option (Z * Z * Z * Z));
  (** [image.crop(bbox)] *)
  Image_crop : obj -> Z * Z * Z * Z -> ext world obj;
  (** [target.paste(image, box)] and [target.paste(image, mask=mask)] *)
  Image_paste : obj -> obj -> option (Z * Z) -> option obj -> ext world unit;
  (** [image.save(path)]: the bytes written *)
  Image_save : obj -> string -> ext world (list byte)
}.

Section Process.
Context `{Platform}.
Context {G : Type}.

(** The state of the worker: the globals of the handler module, the outside
    world, the temporary files, [os.environ], and the actions so far (newest
    first). *)
Record process : Type := mk_process {
  globals : G;
  outside : world;
  files : gmap string (list byte);
  environ : gmap string string;
  actions : list action
}.

(** A computation: it ends with a result or a raised exception, and with a
    state either way. *)
Definition M (A : Type) : Type := process -> outcome A * process.

Definition ret {A} (a : A) : M A := fun p => (Ok a, p).

Definition raise {A} (e : exn) : M A := fun p => (Raise e, p).

Definition bind {A B} (m : M A) (k : A -> M B) : M B :=
  fun p =>
    match m p with
    | (Ok a, p') => k a p'
    | (Raise e, p') => (Raise e, p')
    end.

(** [try: m  except Exception as e: h e] *)
Definition try_except {A} (m : M A) (h : exn -> M A) : M A :=
  fun p =>
    match m p with
    | (Ok a, p') => (Ok a, p')
    | (Raise e, p') => h e p'
    end.

(** The result of a builtin. *)
Definition pure {A} (r : outcome A) : M A := fun p => (r, p).

(** A call into a library. *)
Definition call_ext {A} (f : ext world A) : M A :=
  fun p =>
    let (r, w) := f (outside p) in
    (r, mk_process (globals p) w (files p) (environ p) (actions p)).

Definition emit (a : action) : M unit :=
  fun p => (Ok tt, mk_process (globals p) (outside p) (files p) (environ p)
                     (a :: actions p)).

Definition get_globals : M G := fun p => (Ok (globals p), p).

Definition get_process : M process := fun p => (Ok p, p).

Definition set_globals (f : G -> G) : M unit :=
  fun p => (Ok tt, mk_process (f (globals p)) (outside p) (files p) (environ p)
                     (actions p)).

(** [time.time()] *)
Definition now : M float :=
  fun p =>
    let (t, w) := time_time (outside p) in
    (Ok t, mk_process (globals p) w (files p) (environ p) (actions p)).

(** [writer] writes [data] to [path]. *)
Definition write_file (writer path : string) (data : list byte) : M unit :=
  fun p => (Ok tt, mk_process (globals p) (outside p) (<[path := data]> (files p))
                     (environ p) (Wrote writer path data :: actions p)).

(** [fd, path = tempfile.mkstemp(suffix=suffix); os.close(fd)]: the file
    exists and is empty. *)
Definition make_temp (suffix : string) : M string :=
  bind (call_ext (mkstemp suffix)) (fun path =>
  bind (write_file "mkstemp" path []) (fun _ =>
  ret path)).

(** [with open(path, "rb") as f: f.read()] *)
Definition read_file (path : string) : M (list byte) :=
  fun p =>
    match files p !! path with
    | Some data => (Ok data, p)
    | None => (Raise (mk_exn FileNotFoundError
                        ("[Errno 2] No such file or directory: " ++ path)), p)
    end.

(** [os.remove(path)] *)
Definition os_remove (path : string) : M unit :=
  fun p =>
    match files p !! path with
    | Some _ => (Ok tt, mk_process (globals p) (outside p) (delete path (files p))
                          (environ p) (Removed path :: actions p))
    | None => (Raise (mk_exn FileNotFoundError
                        ("[Errno 2] No such file or directory: " ++ path)), p)
    end.

(** [os.environ[name] = val] *)
Definition setenv (name val : string) : M unit :=
  fun p => (Ok tt, mk_process (globals p) (outside p) (files p)
                     (<[name := val]> (environ p)) (SetEnv name val :: actions p)).

End Process.

Arguments process {_} G.
Arguments M {_} G A.

Declare Scope py_scope.
Delimit Scope py_scope with py.
Notation "x <- m ;; k" := (bind m (fun x => k))
  (at level 100, m at next level, right associativity) : py_scope.
Notation "m ;;; k" := (bind m (fun _ => k))
  (at level 100, right associativity) : py_scope.
#[local] Open Scope py_scope.

(** A call into a library, recorded with its option arguments. *)
Definition call `{Platform} {G A : Type} (callee : string) (args : list value)
    (f : ext world A) : M G A :=
  emit (Call callee args) ;;; call_ext f.

(** Using a global that may hold [None] as a function or an object. *)
Definition not_none `{Platform} {G : Type} (cls : exc_class) (what : string)
    (o : option obj) : M G obj :=
  match o with
  | Some x => ret x
  | None => raise (mk_exn cls ("'NoneType' object " ++ what))
  end.

(** [try: m  except ImportError as e: h e] *)
Definition try_except_ImportError `{Platform} {G A : Type} (m : M G A)
    (h : exn -> M G A) : M G A :=
  try_except m (fun e =>
    match exn_class e with
    | ImportError => h e
    | _ => raise e
    end).

(** The error response of every handler. *)
Definition error_response (msg : string) : value := VDict [("error", VStr msg)].

Definition no_image_msg : string :=
  "No image provided. Include 'image' key with base64 encoded image.".

(** [x in xs] for a list of ints or of strings. *)
Definition int_in (x : Z) (xs : list Z) : bool := existsb (Z.eqb x) xs.
Definition str_in (x : string) (xs : list string) : bool := existsb (String.eqb x) xs.

(** ** runpod-handler/handler.py: TripoSR *)

Module TripoSR.

(** The [tsr] package and the mesh objects it returns. *)
Class Libs `{Platform} : Type := {
  (** [TSR.from_pretrained(name, config_name=..., weight_name=...)] *)
  TSR_from_pretrained : string -> string -> string -> ext world obj;
  (** [model.renderer.set_chunk_size(n)] *)
  set_chunk_size : obj -> Z -> ext world unit;
  (** [model.to(device)] *)
  model_to : obj -> string -> ext world unit;
  (** [tsr.utils.remove_background(image)] *)
  remove_background : obj -> ext world obj;
  (** [tsr.utils.resize_foreground(image, ratio)] *)
  resize_foreground : obj -> float -> ext world obj;
  (** [tsr([image], device=device)] *)
  tsr_call : obj -> obj -> string -> ext world obj;
  (** [tsr.extract_mesh(scene_codes, has_vertex_color, resolution=...)] *)
  extract_mesh : obj -> obj -> bool -> Z -> ext world (list obj);
  (** [len(mesh.vertices)] and [len(mesh.faces)] *)
  len_vertices : obj -> ext world Z;
  len_faces : obj -> ext world Z;
  (** [mesh.export(path, file_type=...)]: the bytes written *)
  mesh_export : obj -> string -> string -> ext world (list byte)
}.

(** The module's global: [model = None] at import. *)
Record globals_t `{Platform} : Type := mk_globals { model : option obj }.
Arguments mk_globals {_} model.

Section Handler.
Context `{Interp} `{Libs}.

#[local] Abbreviation M := (M globals_t).

Definition load_model : M (option obj) :=
  g <- get_globals ;;
  match model g with
  | None =>
      start <- now ;;
      m <- call "TSR.from_pretrained"
             [VStr "stabilityai/TripoSR"; VStr "config.yaml"; VStr "model.ckpt"]
             (TSR_from_pretrained "stabilityai/TripoSR" "config.yaml" "model.ckpt") ;;
      set_globals (fun _ => mk_globals (Some m)) ;;;
      call "model.renderer.set_chunk_size" [VInt 8192] (set_chunk_size m 8192) ;;;
      call "model.to" [VStr "cuda"] (model_to m "cuda") ;;;
      _ <- now ;;
      ret tt
  | Some _ => ret tt
  end ;;;
  g <- get_globals ;;
  ret (model g).

Definition preprocess_image (image : obj) (foreground_ratio : float) : M obj :=
  image <- call "remove_background" [] (remove_background image) ;;
  image <- call "resize_foreground" [VFloat foreground_ratio]
             (resize_foreground image foreground_ratio) ;;
  if String.eqb (image_mode image) "RGBA" then
    background <- call "Image.new" [VStr "RGB"]
                    (Image_new "RGB" (image_size image) [255; 255; 255]) ;;
    bands <- call "image.split" [] (Image_split image) ;;
    match nth_error bands 3 with
    | Some mask =>
        call "background.paste" [] (Image_paste background image None (Some mask)) ;;;
        ret background
    | None => raise (mk_exn IndexError "tuple index out of range")
    end
  else if negb (String.eqb (image_mode image) "RGB") then
    call "image.convert" [VStr "RGB"] (Image_convert image "RGB")
  else ret image.

Definition generate_mesh (image : obj) (mc_resolution : Z) : M obj :=
  tsr <- load_model ;;
  tsr <- not_none TypeError "is not callable" tsr ;;
  scene_codes <- call "tsr" [VStr "cuda"] (tsr_call tsr image "cuda") ;;
  meshes <- call "tsr.extract_mesh" [VBool true; VInt mc_resolution]
              (extract_mesh tsr scene_codes true mc_resolution) ;;
  match meshes with
  | mesh :: _ => ret mesh
  | [] => raise (mk_exn IndexError "list index out of range")
  end.

Definition export_to (mesh : obj) (path file_type : string) : M unit :=
  data <- call "mesh.export" [VStr path; VStr file_type] (mesh_export mesh path file_type) ;;
  write_file "mesh.export" path data.

Definition export_mesh (mesh : obj) (output_format : string)
    (output_path : option string) : M string :=
  output_path <-
    match output_path with
    | None => make_temp (if String.eqb output_format "glb" then ".glb" else ".obj")
    | Some path => ret path
    end ;;
  (if String.eqb output_format "glb"
   then export_to mesh output_path "glb"
   else export_to mesh output_path "obj") ;;;
  ret output_path.

(** The [if]s that validate the options. *)
Definition valid_foreground_ratio (foreground_ratio : float) : float :=
  if PrimFloat.ltb foreground_ratio f0_5 || PrimFloat.ltb f1_0 foreground_ratio
  then f0_85 else foreground_ratio.

Definition valid_mc_resolution (mc_resolution : Z) : Z :=
  if negb (int_in mc_resolution [128; 256; 512]) then 256 else mc_resolution.

Definition valid_output_format (output_format : string) : string :=
  if negb (str_in output_format ["glb"; "obj"]) then "glb" else output_format.

Definition large_file_warning : string :=
  "Large file returned as base64. Consider using S3 for production.".

(** The body of the [try] in [handler]. *)
Definition handler_body (event : value) : M value :=
  start_time <- now ;;
  input_data <- pure (py_get event "input" (VDict [])) ;;
  image_b64 <- pure (py_get input_data "image" VNone) ;;
  fr <- pure (py_get input_data "foreground_ratio" (VFloat f0_85)) ;;
  foreground_ratio <- pure (py_float fr) ;;
  mc <- pure (py_get input_data "mc_resolution" (VInt 256)) ;;
  mc_resolution <- pure (py_int mc) ;;
  fmt <- pure (py_get input_data "output_format" (VStr "glb")) ;;
  output_format <- pure (py_lower fmt) ;;
  if negb (truthy image_b64) then ret (error_response no_image_msg) else
  let foreground_ratio := valid_foreground_ratio foreground_ratio in
  let mc_resolution := valid_mc_resolution mc_resolution in
  let output_format := valid_output_format output_format in
  decoded <- try_except
               (image_data <- pure (base64_b64decode image_b64) ;;
                image <- call "Image.open" [] (Image_open image_data) ;;
                ret (inl image))
               (fun e => ret (inr (error_response
                                     ("Failed to decode image: " ++ exn_str e)))) ;;
  match decoded with
  | inr response => ret response
  | inl image =>
      processed_image <- preprocess_image image foreground_ratio ;;
      mesh <- generate_mesh processed_image mc_resolution ;;
      vertices <- call_ext (len_vertices mesh) ;;
      faces <- call_ext (len_faces mesh) ;;
      output_path <- export_mesh mesh output_format None ;;
      mesh_data <- read_file output_path ;;
      let file_size := Z.of_nat (length mesh_data) in
      os_remove output_path ;;;
      t <- now ;;
      let execution_time := PrimFloat.sub t start_time in
      if file_size <? 5 * 1024 * 1024 then
        let model_b64 := b64encode mesh_data in
        ret (VDict [("model_base64", VStr model_b64);
                    ("file_size", VInt file_size);
                    ("vertices", VInt vertices);
                    ("faces", VInt faces);
                    ("format", VStr output_format);
                    ("execution_time", VFloat (round2 execution_time))])
      else
        let model_b64 := b64encode mesh_data in
        ret (VDict [("model_base64", VStr model_b64);
                    ("file_size", VInt file_size);
                    ("vertices", VInt vertices);
                    ("faces", VInt faces);
                    ("format", VStr output_format);
                    ("execution_time", VFloat (round2 execution_time));
                    ("warning", VStr large_file_warning)])
  end.

Definition oom_msg : string := "GPU out of memory. Try a lower resolution (128 or 256).".

(** [handler(event)]: the [try] with its two [except] clauses. *)
Definition handler (event : value) : M value :=
  try_except (handler_body event) (fun e =>
    match exn_class e with
    | CudaOutOfMemoryError => ret (error_response oom_msg)
    | _ => ret (error_response ("Generation failed: " ++ exn_str e))
    end).

End Handler.
End TripoSR.

(** ** runpod-handler-sf3d/handler.py: SF3D *)

Module SF3D.

(** The [sf3d] and [rembg] packages. *)
Class Libs `{Platform} : Type := {
  (** the listing of [/app/sf3d] that [lazy_import] prints *)
  list_app_dir : ext world unit;
  (** [from sf3d.system import SF3D]; the flag says that [/app/sf3d] was put
      on [sys.path] first *)
  import_SF3D : bool -> ext world obj;
  (** [from rembg import remove, new_session] *)
  import_rembg : ext world (obj * obj);
  (** [SF3D.from_pretrained(name, config_name=..., weight_name=...)] *)
  from_pretrained : obj -> string -> string -> string -> ext world obj;
  (** [model.to(device)] and [model.eval()] *)
  model_to : obj -> string -> ext world unit;
  model_eval : obj -> ext world unit;
  (** [new_session(name)] *)
  call_new_session : obj -> string -> ext world obj;
  (** [remove(image, session=session)] *)
  call_remove : obj -> obj -> option obj -> ext world obj;
  (** [sf3d.run_image(image, bake_resolution=..., remesh=...)]: the mesh of
      the pair it returns *)
  run_image : obj -> obj -> Z -> option string -> ext world obj;
  (** [mesh.export(path, include_normals=True)]: the bytes written *)
  mesh_export : obj -> string -> ext world (list byte)
}.

(** The module's globals, all [None] at import. *)
Record globals_t `{Platform} : Type := mk_globals {
  model : option obj;
  rembg_session : option obj;
  SF3D : option obj;
  remove : option obj;
  new_session : option obj
}.
Arguments mk_globals {_} model rembg_session SF3D remove new_session.

Section Handler.
Context `{Interp} `{Libs}.

#[local] Abbreviation M := (M globals_t).

Definition lazy_import : M unit :=
  g <- get_globals ;;
  match SF3D g with
  | None =>
      call_ext list_app_dir ;;;
      _SF3D <- try_except_ImportError
                 (call "import sf3d.system" [] (import_SF3D false))
                 (fun _ => call "import sf3d.system" [VStr "/app/sf3d"] (import_SF3D true)) ;;
      fns <- call "import rembg" [] import_rembg ;;
      set_globals (fun g => mk_globals (model g) (rembg_session g)
                              (Some _SF3D) (Some (fst fns)) (Some (snd fns)))
  | Some _ => ret tt
  end.

Definition load_model : M (option obj) :=
  lazy_import ;;;
  g <- get_globals ;;
  match model g with
  | None =>
      call_ext import_torch ;;;
      start <- now ;;
      cls <- not_none AttributeError "has no attribute 'from_pretrained'" (SF3D g) ;;
      m <- call "SF3D.from_pretrained"
             [VStr "stabilityai/stable-fast-3d"; VStr "config.yaml"; VStr "model.safetensors"]
             (from_pretrained cls "stabilityai/stable-fast-3d" "config.yaml"
                "model.safetensors") ;;
      set_globals (fun g => mk_globals (Some m) (rembg_session g)
                              (SF3D g) (remove g) (new_session g)) ;;;
      call "model.to" [VStr "cuda"] (model_to m "cuda") ;;;
      call "model.eval" [] (model_eval m) ;;;
      _ <- now ;;
      g <- get_globals ;;
      ns <- not_none TypeError "is not callable" (new_session g) ;;
      s <- call "new_session" [VStr "u2net"] (call_new_session ns "u2net") ;;
      set_globals (fun g => mk_globals (model g) (Some s)
                              (SF3D g) (remove g) (new_session g))
  | Some _ => ret tt
  end ;;;
  g <- get_globals ;;
  ret (model g).

Definition remove_background (image : obj) : M obj :=
  lazy_import ;;;
  g <- get_globals ;;
  match rembg_session g with
  | None =>
      ns <- not_none TypeError "is not callable" (new_session g) ;;
      s <- call "new_session" [VStr "u2net"] (call_new_session ns "u2net") ;;
      set_globals (fun g => mk_globals (model g) (Some s)
                              (SF3D g) (remove g) (new_session g))
  | Some _ => ret tt
  end ;;;
  g <- get_globals ;;
  rm <- not_none TypeError "is not callable" (remove g) ;;
  call "remove" [] (call_remove rm image (rembg_session g)).

Definition resize_foreground (image : obj) (ratio : float) : M obj :=
  emit (Call "resize_foreground" [VFloat ratio]) ;;;
  image <-
    (if String.eqb (image_mode image) "RGBA" then
       bands <- call "image.split" [] (Image_split image) ;;
       match last bands with
       | Some alpha =>
           bbox <- call "alpha.getbbox" [] (Image_getbbox alpha) ;;
           match bbox with
           | Some box => call "image.crop" [] (Image_crop image box)
           | None => ret image
           end
       | None => raise (mk_exn IndexError "tuple index out of range")
       end
     else ret image) ;;
  let old_size := image_size image in
  q <- pure (truediv_int_float (Z.max (fst old_size) (snd old_size)) ratio) ;;
  new_size <- pure (int_of_float q) ;;
  new_image <- call "Image.new" [VStr "RGBA"; VInt new_size]
                 (Image_new "RGBA" (new_size, new_size) [255; 255; 255; 0]) ;;
  let paste_pos := ((new_size - fst old_size) / 2, (new_size - snd old_size) / 2) in
  call "new_image.paste" [] (Image_paste new_image image (Some paste_pos) None) ;;;
  ret new_image.

(** The [if]s and the clamp that validate the options. *)
Definition valid_foreground_ratio (foreground_ratio : float) : float :=
  if PrimFloat.ltb foreground_ratio f0_5 || PrimFloat.ltb f1_0 foreground_ratio
  then f0_85 else foreground_ratio.

Definition valid_texture_resolution (texture_resolution : Z) : Z :=
  Z.max 512 (Z.min 2048 texture_resolution).

Definition valid_remesh_option (remesh_option : string) : string :=
  if negb (str_in remesh_option ["none"; "triangle"; "quad"]) then "none"
  else remesh_option.

(** The body of the [try] in [handler]. *)
Definition handler_body (event : value) : M value :=
  start_time <- now ;;
  input_data <- pure (py_get event "input" (VDict [])) ;;
  image_b64 <- pure (py_get input_data "image" VNone) ;;
  fr <- pure (py_get input_data "foreground_ratio" (VFloat f0_85)) ;;
  foreground_ratio <- pure (py_float fr) ;;
  tr <- pure (py_get input_data "texture_resolution" (VInt 1024)) ;;
  texture_resolution <- pure (py_int tr) ;;
  ro <- pure (py_get input_data "remesh_option" (VStr "none")) ;;
  remesh_option <- pure (py_lower ro) ;;
  if negb (truthy image_b64) then ret (error_response no_image_msg) else
  let foreground_ratio := valid_foreground_ratio foreground_ratio in
  let texture_resolution := valid_texture_resolution texture_resolution in
  let remesh_option := valid_remesh_option remesh_option in
  decoded <- try_except
               (image_data <- pure (base64_b64decode image_b64) ;;
                image <- call "Image.open" [] (Image_open image_data) ;;
                image <- call "image.convert" [VStr "RGBA"] (Image_convert image "RGBA") ;;
                ret (inl image))
               (fun e => ret (inr (error_response
                                     ("Failed to decode image: " ++ exn_str e)))) ;;
  match decoded with
  | inr response => ret response
  | inl image =>
      image <- remove_background image ;;
      image <- resize_foreground image foreground_ratio ;;
      sf3d <- load_model ;;
      call_ext import_torch ;;;
      sf3d <- not_none AttributeError "has no attribute 'run_image'" sf3d ;;
      let remesh := if negb (String.eqb remesh_option "none")
                    then Some remesh_option else None in
      mesh <- call "sf3d.run_image"
                [VInt texture_resolution;
                 match remesh with Some r => VStr r | None => VNone end]
                (run_image sf3d image texture_resolution remesh) ;;
      output_path <- make_temp ".glb" ;;
      data <- call "mesh.export" [VStr output_path] (mesh_export mesh output_path) ;;
      write_file "mesh.export" output_path data ;;;
      mesh_data <- read_file output_path ;;
      let file_size := Z.of_nat (length mesh_data) in
      os_remove output_path ;;;
      t <- now ;;
      let execution_time := PrimFloat.sub t start_time in
      let model_b64 := b64encode mesh_data in
      ret (VDict [("model_base64", VStr model_b64);
                  ("file_size", VInt file_size);
                  ("format", VStr "glb");
                  ("texture_resolution", VInt texture_resolution);
                  ("execution_time", VFloat (round2 execution_time))])
  end.

Definition oom_msg : string :=
  "GPU out of memory. Try a lower texture_resolution (512 or 1024).".

(** [handler(event)]: the [try] with its [except Exception]. *)
Definition handler (event : value) : M value :=
  try_except (handler_body event) (fun e =>
    if contains "out of memory" (lower (exn_str e))
    then ret (error_response oom_msg)
    else ret (error_response ("Generation failed: " ++ exn_str e))).

End Handler.
End SF3D.

(** ** runpod-handler-hunyuan3d/handler.py: Hunyuan3D-2 *)

Module Hunyuan3D.

(** The [hy3dgen] and [rembg] packages. *)
Class Libs `{Platform} : Type := {
  (** [from rembg import remove, new_session] *)
  import_rembg : ext world (obj * obj);
  (** [from hy3dgen.shapegen import Hunyuan3DDiTFlowMatchingPipeline] and
      [from hy3dgen.texgen import Hunyuan3DPaintPipeline] *)
  import_shapegen : ext world obj;
  import_texgen : ext world obj;
  (** [cls.from_pretrained(name, torch_dtype=torch.float16)] *)
  from_pretrained : obj -> string -> ext world obj;
  (** [pipeline.to(device)] *)
  pipeline_to : obj -> string -> ext world unit;
  (** [new_session(name)] and [remove(image, session=session)] *)
  call_new_session : obj -> string -> ext world obj;
  call_remove : obj -> obj -> option obj -> ext world obj;
  (** [shape_pipe(image=path)]: the list of meshes; the pipeline reads the
      file at [path] *)
  call_shape_pipe : obj -> string -> option (list byte) -> ext world (list obj);
  (** [paint_pipe(mesh, image=path)] *)
  call_paint_pipe : obj -> obj -> string -> option (list byte) -> ext world obj;
  (** [mesh.export(path)]: the bytes written *)
  mesh_export : obj -> string -> ext world (list byte)
}.

(** The module's globals.  [remove] and [new_session] are bound by
    [lazy_import] only. *)
Record globals_t `{Platform} : Type := mk_globals {
  shape_pipeline : option obj;
  paint_pipeline : option obj;
  rembg_session : option obj;
  remove : option obj;
  new_session : option obj
}.
Arguments mk_globals {_} shape_pipeline paint_pipeline rembg_session remove new_session.

Section Handler.
Context `{Interp} `{Libs}.

#[local] Abbreviation M := (M globals_t).

Definition lazy_import : M unit :=
  try_except_ImportError
    (fns <- call "import rembg" [] import_rembg ;;
     set_globals (fun g => mk_globals (shape_pipeline g) (paint_pipeline g)
                             (rembg_session g) (Some (fst fns)) (Some (snd fns))))
    (fun _ =>
     set_globals (fun g => mk_globals (shape_pipeline g) (paint_pipeline g)
                             (rembg_session g) None None)).

Definition load_models (generate_texture : value) (profile : Z) : M (option obj * option obj) :=
  g <- get_globals ;;
  match shape_pipeline g with
  | None =>
      call_ext import_torch ;;;
      start <- now ;;
      setenv "HY3D_PROFILE" (str_of_int profile) ;;;
      cls <- call "import hy3dgen.shapegen" [] import_shapegen ;;
      pipe <- call "Hunyuan3DDiTFlowMatchingPipeline.from_pretrained"
                [VStr "tencent/Hunyuan3D-2"] (from_pretrained cls "tencent/Hunyuan3D-2") ;;
      set_globals (fun g => mk_globals (Some pipe) (paint_pipeline g)
                              (rembg_session g) (remove g) (new_session g)) ;;;
      call "shape_pipeline.to" [VStr "cuda"] (pipeline_to pipe "cuda") ;;;
      _ <- now ;;
      ret tt
  | Some _ => ret tt
  end ;;;
  g <- get_globals ;;
  (if truthy generate_texture
      && match paint_pipeline g with None => true | Some _ => false end
   then
     call_ext import_torch ;;;
     start <- now ;;
     cls <- call "import hy3dgen.texgen" [] import_texgen ;;
     pipe <- call "Hunyuan3DPaintPipeline.from_pretrained"
               [VStr "tencent/Hunyuan3D-2"] (from_pretrained cls "tencent/Hunyuan3D-2") ;;
     set_globals (fun g => mk_globals (shape_pipeline g) (Some pipe)
                             (rembg_session g) (remove g) (new_session g)) ;;;
     call "paint_pipeline.to" [VStr "cuda"] (pipeline_to pipe "cuda") ;;;
     _ <- now ;;
     ret tt
   else ret tt) ;;;
  g <- get_globals ;;
  ret (shape_pipeline g, paint_pipeline g).

Definition remove_background (image : obj) : M obj :=
  lazy_import ;;;
  g <- get_globals ;;
  match remove g with
  | None => ret image
  | Some rm =>
      match rembg_session g with
      | None =>
          ns <- not_none TypeError "is not callable" (new_session g) ;;
          s <- call "new_session" [VStr "u2net"] (call_new_session ns "u2net") ;;
          set_globals (fun g => mk_globals (shape_pipeline g) (paint_pipeline g)
                                  (Some s) (remove g) (new_session g))
      | Some _ => ret tt
      end ;;;
      g <- get_globals ;;
      call "remove" [] (call_remove rm image (rembg_session g))
  end.

(** The clamp that validates [profile]. *)
Definition valid_profile (profile : Z) : Z := Z.max 1 (Z.min 5 profile).

(** The body of the [try] in [handler]. *)
Definition handler_body (event : value) : M value :=
  start_time <- now ;;
  input_data <- pure (py_get event "input" (VDict [])) ;;
  image_b64 <- pure (py_get input_data "image" VNone) ;;
  generate_texture <- pure (py_get input_data "generate_texture" (VBool true)) ;;
  do_remove_bg <- pure (py_get input_data "remove_background" (VBool true)) ;;
  pr <- pure (py_get input_data "profile" (VInt 3)) ;;
  profile <- pure (py_int pr) ;;
  if negb (truthy image_b64) then ret (error_response no_image_msg) else
  let profile := valid_profile profile in
  decoded <- try_except
               (image_data <- pure (base64_b64decode image_b64) ;;
                image <- call "Image.open" [] (Image_open image_data) ;;
                image <- call "image.convert" [VStr "RGBA"] (Image_convert image "RGBA") ;;
                ret (inl image))
               (fun e => ret (inr (error_response
                                     ("Failed to decode image: " ++ exn_str e)))) ;;
  match decoded with
  | inr response => ret response
  | inl image =>
      image <- (if truthy do_remove_bg then remove_background image else ret image) ;;
      temp_image_path <- make_temp ".png" ;;
      png <- call "image.save" [VStr temp_image_path] (Image_save image temp_image_path) ;;
      write_file "image.save" temp_image_path png ;;;
      pipes <- load_models generate_texture profile ;;
      let shape_pipe := fst pipes in
      let paint_pipe := snd pipes in
      call_ext import_torch ;;;
      shape_pipe <- not_none TypeError "is not callable" shape_pipe ;;
      p <- get_process ;;
      meshes <- call "shape_pipe" [VStr temp_image_path]
                  (call_shape_pipe shape_pipe temp_image_path
                     (files p !! temp_image_path)) ;;
      mesh <- match meshes with
              | mesh :: _ => ret mesh
              | [] => raise (mk_exn IndexError "list index out of range")
              end ;;
      mesh <- match paint_pipe with
              | Some paint =>
                  if truthy generate_texture then
                    p <- get_process ;;
                    call "paint_pipe" [VStr temp_image_path]
                      (call_paint_pipe paint mesh temp_image_path
                         (files p !! temp_image_path))
                  else ret mesh
              | None => ret mesh
              end ;;
      output_path <- make_temp ".glb" ;;
      data <- call "mesh.export" [VStr output_path] (mesh_export mesh output_path) ;;
      write_file "mesh.export" output_path data ;;;
      mesh_data <- read_file output_path ;;
      let file_size := Z.of_nat (length mesh_data) in
      os_remove temp_image_path ;;;
      os_remove output_path ;;;
      t <- now ;;
      let execution_time := PrimFloat.sub t start_time in
      let model_b64 := b64encode mesh_data in
      ret (VDict [("model_base64", VStr model_b64);
                  ("file_size", VInt file_size);
                  ("format", VStr "glb");
                  ("textured", generate_texture);
                  ("execution_time", VFloat (round2 execution_time))])
  end.

Definition oom_msg : string :=
  "GPU out of memory. Try increasing the memory profile (3-5).".

(** [handler(event)]: the [try] with its [except Exception]. *)
Definition handler (event : value) : M value :=
  try_except (handler_body event) (fun e =>
    if contains "out of memory" (lower (exn_str e))
    then ret (error_response oom_msg)
    else ret (error_response ("Generation failed: " ++ exn_str e))).

End Handler.
End Hunyuan3D.

(** ** A sample interpreter and sample libraries, for concrete runs

    Every general statement below is over all instances of [Interp],
    [Platform] and [Libs].  The runs that illustrate them use the instances
    of this module.  [sample_interp] is CPython on the strings the runs
    convert: ["nan"] is NaN, text that is no number (["abc"], ["out of
    memory"]) is rejected, and [repr] quotes a string that needs no escape.
    The sample libraries always succeed, except [Image.open] on no bytes. *)

Module Sample.

Definition parse_float (s : string) : option float :=
  if String.eqb (lower s) "nan" then Some nan else None.

Definition parse_int (s : string) : option Z :=
  if String.eqb s "300" then Some 300 else None.

Definition quote (s : string) : string := "'" ++ s ++ "'".

Definition decode_arg (v : value) : outcome (list byte) := b64decode_value v.

#[export] Instance sample_interp : Interp := {|
  float_of_str := parse_float;
  int_of_str := parse_int;
  repr := quote;
  round2 := fun x => x;
  base64_b64decode := decode_arg
|}.

(** The outside world is a clock; an object is a number. *)
Definition tick {A} (a : A) : ext nat A := fun w => (Ok a, S w).

Definition open_image (data : list byte) : ext nat nat :=
  fun w =>
    match data with
    | [] => (Raise (mk_exn (OtherException "UnidentifiedImageError")
                      "cannot identify image file"), S w)
    | _ => (Ok 1%nat, S w)
    end.

#[export] Instance sample_platform : Platform := {|
  world := nat;
  obj := nat;
  time_time := fun w => (SF2Prim (binary_normalize prec emax (Z.of_nat w) 0 false), S w);
  mkstemp := fun suffix w => (Ok ("/tmp/tmp" ++ str_of_int (Z.of_nat w) ++ suffix), S w);
  import_torch := tick tt;
  Image_open := open_image;
  Image_new := fun _ _ _ => tick 2%nat;
  image_mode := fun _ => "RGBA";
  image_size := fun _ => (100, 80);
  Image_convert := fun image _ => tick image;
  Image_split := fun _ => tick [10; 11; 12; 13]%nat;
  Image_getbbox := fun _ => tick (Some (10, 10, 90, 70));
  Image_crop := fun _ _ => tick 3%nat;
  Image_paste := fun _ _ _ _ => tick tt;
  Image_save := fun _ _ => tick [x89; x50; x4e; x47]
|}.

(** The first bytes of a GLB file. *)
Definition glb : list byte := [x67; x6c; x54; x46; x02].

#[export] Instance triposr_libs : TripoSR.Libs := {|
  TripoSR.TSR_from_pretrained := fun _ _ _ => tick 100%nat;
  TripoSR.set_chunk_size := fun _ _ => tick tt;
  TripoSR.model_to := fun _ _ => tick tt;
  TripoSR.remove_background := fun image => tick image;
  TripoSR.resize_foreground := fun image _ => tick image;
  TripoSR.tsr_call := fun _ _ _ => tick 150%nat;
  TripoSR.extract_mesh := fun _ _ _ _ => tick [200%nat];
  TripoSR.len_vertices := fun _ => tick 8;
  TripoSR.len_faces := fun _ => tick 12;
  TripoSR.mesh_export := fun _ _ _ => tick glb
|}.

#[export] Instance sf3d_libs : SF3D.Libs := {|
  SF3D.list_app_dir := tick tt;
  SF3D.import_SF3D := fun _ => tick 20%nat;
  SF3D.import_rembg := tick (21, 22)%nat;
  SF3D.from_pretrained := fun _ _ _ _ => tick 100%nat;
  SF3D.model_to := fun _ _ => tick tt;
  SF3D.model_eval := fun _ => tick tt;
  SF3D.call_new_session := fun _ _ => tick 23%nat;
  SF3D.call_remove := fun _ image _ => tick image;
  SF3D.run_image := fun _ _ _ _ => tick 200%nat;
  SF3D.mesh_export := fun _ _ => tick glb
|}.

#[export] Instance hunyuan3d_libs : Hunyuan3D.Libs := {|
  Hunyuan3D.import_rembg := tick (21, 22)%nat;
  Hunyuan3D.import_shapegen := tick 30%nat;
  Hunyuan3D.import_texgen := tick 31%nat;
  Hunyuan3D.from_pretrained := fun cls _ => tick (cls + 100)%nat;
  Hunyuan3D.pipeline_to := fun _ _ => tick tt;
  Hunyuan3D.call_new_session := fun _ _ => tick 23%nat;
  Hunyuan3D.call_remove := fun _ image _ => tick image;
  Hunyuan3D.call_shape_pipe := fun _ _ _ => tick [200%nat];
  Hunyuan3D.call_paint_pipe := fun _ _ _ _ => tick 201%nat;
  Hunyuan3D.mesh_export := fun _ _ => tick glb
|}.

(** A worker that has served no request yet. *)
Definition fresh {G : Type} (g : G) : process G := mk_process g 0%nat ∅ ∅ [].

Definition triposr_start : process TripoSR.globals_t := fresh (TripoSR.mk_globals None).
Definition sf3d_start : process SF3D.globals_t :=
  fresh (SF3D.mk_globals None None None None None).
Definition hunyuan3d_start : process Hunyuan3D.globals_t :=
  fresh (Hunyuan3D.mk_globals None None None None None).

(** The first eight bytes of a PNG file, in base64. *)
Definition png_b64 : string := "iVBORw0KGgo=".

(** [{"input": options}] *)
Definition job (options : list (string * value)) : value :=
  VDict [("input", VDict options)].

(** The handlers and builtins over the sample instances, from a fresh
    worker. *)
Definition triposr (event : value) : outcome value * process TripoSR.globals_t :=
  TripoSR.handler event triposr_start.
Definition sf3d (event : value) : outcome value * process SF3D.globals_t :=
  SF3D.handler event sf3d_start.
Definition hunyuan3d (event : value) : outcome value * process Hunyuan3D.globals_t :=
  Hunyuan3D.handler event hunyuan3d_start.
Definition sf3d_body (event : value) : outcome value * process SF3D.globals_t :=
  SF3D.handler_body event sf3d_start.



(** A worker where [rembg] is not installed. *)
Definition no_rembg {A : Type} : ext nat A :=
  fun w => (Raise (mk_exn ImportError "No module named 'rembg'"), S w).

Definition hunyuan3d_libs_no_rembg : Hunyuan3D.Libs := {|
  Hunyuan3D.import_rembg := no_rembg;
  Hunyuan3D.import_shapegen := tick 30%nat;
  Hunyuan3D.import_texgen := tick 31%nat;
  Hunyuan3D.from_pretrained := fun cls _ => tick (cls + 100)%nat;
  Hunyuan3D.pipeline_to := fun _ _ => tick tt;
  Hunyuan3D.call_new_session := fun _ _ => tick 23%nat;
  Hunyuan3D.call_remove := fun _ image _ => tick image;
  Hunyuan3D.call_shape_pipe := fun _ _ _ => tick [200%nat];
  Hunyuan3D.call_paint_pipe := fun _ _ _ _ => tick 201%nat;
  Hunyuan3D.mesh_export := fun _ _ => tick glb
|}.

Definition hunyuan3d_no_rembg (event : value) :=
  @Hunyuan3D.handler sample_interp _ hunyuan3d_libs_no_rembg event hunyuan3d_start.

Definition to_float (v : value) : outcome float := py_float v.
Definition to_int (v : value) : outcome Z := py_int v.

(** The response of a run ([None] if the handler raised). *)
Definition response {G : Type} (run : outcome value * process G) : value :=
  match fst run with
  | Ok r => r
  | Raise _ => VNone
  end.

(** The jobs of the concrete runs. *)
Definition nan_job : value :=
  job [("image", VStr png_b64); ("foreground_ratio", VStr "nan")].
Definition odd_resolution_job : value :=
  job [("image", VStr png_b64); ("mc_resolution", VInt 300)].
Definition odd_texture_job : value :=
  job [("image", VStr png_b64); ("texture_resolution", VInt 1000)].
Definition high_profile_job : value :=
  job [("image", VStr png_b64); ("profile", VInt 9)].
Definition text_ratio_job : value := job [("foreground_ratio", VStr "abc")].
Definition memory_text_job : value := job [("foreground_ratio", VStr "out of memory")].
Definition plain_job : value := job [("image", VStr png_b64)].

(** The worker after a first request, and a run from there. *)
Definition hunyuan3d_warm : process Hunyuan3D.globals_t := snd (hunyuan3d plain_job).
Definition hunyuan3d_again (event : value)
    : outcome value * process Hunyuan3D.globals_t :=
  Hunyuan3D.handler event hunyuan3d_warm.
Definition upper_obj_job : value :=
  job [("image", VStr png_b64); ("output_format", VStr "OBJ")].
Definition low_ratio_job : value :=
  job [("image", VStr png_b64); ("foreground_ratio", VFloat 0x1p-2%float)].
Definition quad_job : value :=
  job [("image", VStr png_b64); ("remesh_option", VStr "Quad")].
Definition text_texture_job : value :=
  job [("image", VStr png_b64); ("generate_texture", VStr "false")].
Definition no_texture_job : value :=
  job [("image", VStr png_b64); ("generate_texture", VBool false)].
Definition empty_event : value := VDict [].
Definition null_input_event : value := VDict [("input", VNone)].
Definition list_format_job : value :=
  job [("image", VStr png_b64); ("output_format", VList [])].
Definition bad_base64_job : value := job [("image", VStr "ab")].
Definition no_base64_job : value := job [("image", VStr "%%%")].

End Sample.

(** ** Vocabulary of the specifications *)

Section Spec.
Context `{Platform} {G : Type}.

#[local] Abbreviation M := (M G).
#[local] Abbreviation process := (process G).

(** From a state in [P], [m] ends with a result and a state in [Q]. *)
Definition hoare {A} (P : process -> Prop) (m : M A)
    (Q : outcome A -> process -> Prop) : Prop :=
  forall p, P p -> Q (fst (m p)) (snd (m p)).

(** [m] keeps [I], whether it returns or raises. *)
Definition preserves {A} (I : process -> Prop) (m : M A) : Prop :=
  hoare I m (fun _ => I).

(** [m], run from [p], ends with a result and a state in [Q]. *)
Definition wp {A} (m : M A) (Q : outcome A -> process -> Prop) (p : process) : Prop :=
  Q (fst (m p)) (snd (m p)).

(** Whatever [m] returns satisfies [R]. *)
Definition returns {A} (R : A -> Prop) (m : M A) : Prop :=
  forall p a, fst (m p) = Ok a -> R a.

(** [I] looks at nothing but the actions. *)
Definition on_actions (I : process -> Prop) : Prop :=
  forall p q, actions p = actions q -> I p -> I q.

(** [I] looks at nothing but the globals. *)
Definition on_globals (I : process -> Prop) : Prop :=
  forall p q, globals p = globals q -> I p -> I q.

(** [I] looks at nothing but the globals and the actions. *)
Definition framed (I : process -> Prop) : Prop :=
  forall p q, globals p = globals q -> actions p = actions q -> I p -> I q.

(** [I] is kept when [a] is recorded. *)
Definition allows (I : process -> Prop) (a : action) : Prop :=
  forall p q, globals p = globals q -> actions q = a :: actions p -> I p -> I q.

(** [I] is kept when [f] updates the globals. *)
Definition sets (I : process -> Prop) (f : G -> G) : Prop :=
  forall p q, globals q = f (globals p) -> actions p = actions q -> I p -> I q.


(** The actions since [old] all satisfy [Q]. *)
Definition logged (old : list action) (Q : action -> Prop) (p : process) : Prop :=
  exists new, actions p = (new ++ old)%list /\ Forall Q new.

(** Every action of [cs] is in [new]. *)
Fixpoint all_in (cs new : list action) : Prop :=
  match cs with
  | [] => True
  | c :: cs' => In c new /\ all_in cs' new
  end.

(** The record of actions has grown since [old], and holds [cs] among what
    is new. *)
Definition recorded (old cs : list action) (p : process) : Prop :=
  exists new, actions p = (new ++ old)%list /\ all_in cs new.

(** [Q] says something of the calls of [callee] only. *)
Definition calls_with (callee : string) (P : list value -> Prop) (a : action) : Prop :=
  forall args, a = Call callee args -> P args.

(** [Q] says something of the values given to the variable [name] only. *)
Definition env_with (name : string) (P : string -> Prop) (a : action) : Prop :=
  forall val, a = SetEnv name val -> P val.

End Spec.

(** The field [name] of a response. *)
Definition field (response : value) (name : string) : option value :=
  match response with
  | VDict fields => dict_lookup fields name
  | _ => None
  end.

(** What the [try] around the decoding of the image leaves: an image, or an
    error response. *)
Definition decoded_or_error {A} (d : A + value) : Prop :=
  match d with
  | inl _ => True
  | inr response => exists msg, response = error_response msg
  end.

(** [float()] and [int()] raise nothing but [TypeError], [ValueError] and
    [OverflowError]. *)
Definition conversion_error (e : exn) : Prop :=
  exn_class e = TypeError \/ exn_class e = ValueError \/ exn_class e = OverflowError.

Section Requests.
Context `{Interp} `{Platform}.

(** The options of a request convert: the statements before the test of the
    image raise nothing. *)
Definition triposr_options_convert (d : list (string * value)) : Prop :=
  exists x n fmt,
    py_float (get_or d "foreground_ratio" (VFloat f0_85)) = Ok x
    /\ py_int (get_or d "mc_resolution" (VInt 256)) = Ok n
    /\ py_lower (get_or d "output_format" (VStr "glb")) = Ok fmt.

Definition sf3d_options_convert (d : list (string * value)) : Prop :=
  exists x n remesh,
    py_float (get_or d "foreground_ratio" (VFloat f0_85)) = Ok x
    /\ py_int (get_or d "texture_resolution" (VInt 1024)) = Ok n
    /\ py_lower (get_or d "remesh_option" (VStr "none")) = Ok remesh.

Definition hunyuan3d_options_convert (d : list (string * value)) : Prop :=
  exists n, py_int (get_or d "profile" (VInt 3)) = Ok n.

(** The image of a request does not decode to an image that opens: either
    [base64.b64decode] or [Image.open] raises [e], in the world [w]. *)
Definition decode_fails (image_b64 : value) (w : world) (e : exn) : Prop :=
  base64_b64decode image_b64 = Raise e
  \/ exists data, base64_b64decode image_b64 = Ok data
                  /\ fst (Image_open data w) = Raise e.

End Requests.

(** The test of the first [except] clause of the TripoSR handler. *)
Definition is_cuda_oom (e : exn) : bool :=
  match exn_class e with
  | CudaOutOfMemoryError => true
  | _ => false
  end.

(** The test of the [except] clause of the SF3D and Hunyuan3D-2 handlers. *)
Definition says_out_of_memory (e : exn) : bool :=
  contains "out of memory" (lower (exn_str e)).



(** [q] is [p] with time passed: the globals, the files, the environment
    and the record of actions are those of [p]. *)
Definition untouched `{Platform} {G : Type} (p q : process G) : Prop :=
  globals q = globals p /\ files q = files p /\ environ q = environ p
  /\ actions q = actions p.

Section FailingOptions.
Context `{Interp}.

(** The first option of a request that does not convert raises [e], in the
    order in which the handler converts them. *)
Definition triposr_options_fail (d : list (string * value)) (e : exn) : Prop :=
  py_float (get_or d "foreground_ratio" (VFloat f0_85)) = Raise e
  \/ (exists x,
        py_float (get_or d "foreground_ratio" (VFloat f0_85)) = Ok x
        /\ py_int (get_or d "mc_resolution" (VInt 256)) = Raise e)
  \/ (exists x n,
        py_float (get_or d "foreground_ratio" (VFloat f0_85)) = Ok x
        /\ py_int (get_or d "mc_resolution" (VInt 256)) = Ok n
        /\ py_lower (get_or d "output_format" (VStr "glb")) = Raise e).

Definition sf3d_options_fail (d : list (string * value)) (e : exn) : Prop :=
  py_float (get_or d "foreground_ratio" (VFloat f0_85)) = Raise e
  \/ (exists x,
        py_float (get_or d "foreground_ratio" (VFloat f0_85)) = Ok x
        /\ py_int (get_or d "texture_resolution" (VInt 1024)) = Raise e)
  \/ (exists x n,
        py_float (get_or d "foreground_ratio" (VFloat f0_85)) = Ok x
        /\ py_int (get_or d "texture_resolution" (VInt 1024)) = Ok n
        /\ py_lower (get_or d "remesh_option" (VStr "none")) = Raise e).

Definition hunyuan3d_options_fail (d : list (string * value)) (e : exn) : Prop :=
  py_int (get_or d "profile" (VInt 3)) = Raise e.

End FailingOptions.

(** The response of the [except] clause of the SF3D and Hunyuan3D-2
    handlers for [e]. *)
Definition except_response (oom_msg : string) (e : exn) : value :=
  error_response (if says_out_of_memory e then oom_msg
                  else "Generation failed: " ++ exn_str e).

(** The [remesh] argument of [sf3d.run_image] for a lowercased
    [remesh_option]: [remesh_option if remesh_option != "none" else None],
    after the validation. *)
Definition remesh_argument (remesh_option : string) : value :=
  if String.eqb (SF3D.valid_remesh_option remesh_option) "none" then VNone
  else VStr (SF3D.valid_remesh_option remesh_option).

(** The two shapes of a response: an error, which is the dict
    [{"error": msg}] and nothing else, and a model, with its size, its
    format and the time taken, and no ['error'] field. *)
Definition is_error (response : value) : Prop :=
  exists msg, response = error_response msg.

Definition is_model (response : value) : Prop :=
  exists s n ft t,
    field response "model_base64" = Some (VStr s)
    /\ field response "file_size" = Some (VInt n)
    /\ 0 <= n
    /\ field response "format" = Some (VStr ft)
    /\ field response "execution_time" = Some (VFloat t)
    /\ field response "error" = None.

(** [a] is no call of one of [callees]. *)
Definition not_calling (callees : list string) (a : action) : Prop :=
  match a with
  | Call callee _ => str_in callee callees = false
  | _ => True
  end.

(** The calls that load and use the paint pipeline, and those that import
    and use [rembg]. *)
Definition paint_calls : list string :=
  ["import hy3dgen.texgen"; "Hunyuan3DPaintPipeline.from_pretrained";
   "paint_pipeline.to"; "paint_pipe"].

Definition rembg_calls : list string := ["import rembg"; "new_session"; "remove"].

(** [a] sets no environment variable. *)
Definition no_setenv (a : action) : Prop :=
  match a with
  | SetEnv _ _ => False
  | _ => True
  end.

(** The shape pipeline of the Hunyuan3D-2 handler is loaded, with handle
    [s], and no environment variable was set since [old]. *)
Definition hunyuan3d_warm `{Platform} (s : obj) (old : list action)
    (p : process Hunyuan3D.globals_t) : Prop :=
  Hunyuan3D.shape_pipeline (globals p) = Some s /\ logged old no_setenv p.

(** Since [old], [HY3D_PROFILE] was set to [val] if the shape pipeline of
    the Hunyuan3D-2 handler is loaded: what a run keeps when it starts with
    no pipeline loaded. *)
Definition hunyuan3d_profile_set `{Platform} (val : string) (old : list action)
    (p : process Hunyuan3D.globals_t) : Prop :=
  exists new,
    actions p = (new ++ old)%list
    /\ (Hunyuan3D.shape_pipeline (globals p) <> None ->
        In (SetEnv "HY3D_PROFILE" val) new).
(** * Properties

    ** Builtins and base64 *)

Example b64_example :
  b64encode [x4d; x61; x6e] = "TWFu" /\ b64encode [x4d; x61] = "TWE="
  /\ b64encode [x4d] = "TQ==" /\ b64decode "TWE=" = Some [x4d; x61].
Proof. repeat split; vm_compute; reflexivity. Qed.

Example py_int_of_float_truncates :
  int_of_float (-2.75)%float = Ok (-2) /\ int_of_float 117.5%float = Ok 117
  /\ int_of_float nan = Raise (mk_exn ValueError "cannot convert float NaN to integer").
Proof. repeat split; vm_compute; reflexivity. Qed.

Example lower_example : lower "GLB" = "glb" /\ contains "of" "out of memory" = true
  /\ str_of_int 3 = "3" /\ str_of_int (-12) = "-12".
Proof. repeat split; vm_compute; reflexivity. Qed.

Lemma b64_index_char (n : N) : (n < 64)%N -> b64_index (b64_char n) = Some n.
Proof.
  intros Hn.
  assert (Hall : forallb (fun k => match b64_index (b64_char k) with
                                   | Some m => N.eqb m k
                                   | None => false
                                   end)
                         (map N.of_nat (seq 0 64)) = true) by (vm_compute; reflexivity).
  rewrite forallb_forall in Hall.
  specialize (Hall n).
  destruct (b64_index (b64_char n)) as [m|].
  - f_equal. apply N.eqb_eq. apply Hall.
    apply in_map_iff. exists (N.to_nat n). split; [lia|]. apply in_seq. lia.
  - exfalso. enough (false = true) by discriminate. apply Hall.
    apply in_map_iff. exists (N.to_nat n). split; [lia|]. apply in_seq. lia.
Qed.

Lemma b64_char_not_pad (n : N) : (n < 64)%N -> Ascii.eqb (b64_char n) b64_pad = false.
Proof.
  intros Hn.
  assert (Hall : forallb (fun k => negb (Ascii.eqb (b64_char k) b64_pad))
                         (map N.of_nat (seq 0 64)) = true) by (vm_compute; reflexivity).
  rewrite forallb_forall in Hall.
  apply negb_true_iff, Hall.
  apply in_map_iff. exists (N.to_nat n). split; [lia|]. apply in_seq. lia.
Qed.

Lemma byte_of_to_N (b : byte) : byte_of_N (Byte.to_N b) = b.
Proof. unfold byte_of_N. now rewrite Byte.of_to_N. Qed.

(** Lists are consumed three bytes at a time. *)
Lemma list_by_three (P : list byte -> Prop) :
  P [] -> (forall a, P [a]) -> (forall a b, P [a; b]) ->
  (forall a b c rest, P rest -> P (a :: b :: c :: rest)) ->
  forall l, P l.
Proof.
  intros H0 H1 H2 H3 l.
  enough (P l /\ (forall a, P (a :: l)) /\ (forall a b, P (a :: b :: l))) by tauto.
  induction l as [|c l (IH0 & IH1 & IH2)]; [now auto|].
  repeat split; [apply IH1 | intros; apply IH2 | intros; now apply H3].
Qed.

Section Sextets.
Variables x y z : N.
Hypothesis (Hx : (x < 256)%N) (Hy : (y < 256)%N) (Hz : (z < 256)%N).

Lemma sextet1_lt : (x / 4 < 64)%N.
Proof. clear Hy Hz. zify. Z.to_euclidean_division_equations. lia. Qed.

Lemma sextet2_lt : (x mod 4 * 16 + y / 16 < 64)%N.
Proof. clear Hz. zify. Z.to_euclidean_division_equations. lia. Qed.

Lemma sextet3_lt : (y mod 16 * 4 + z / 64 < 64)%N.
Proof. clear Hx. zify. Z.to_euclidean_division_equations. lia. Qed.

Lemma sextet4_lt : (z mod 64 < 64)%N.
Proof. clear Hx Hy. zify. Z.to_euclidean_division_equations. lia. Qed.

Lemma octet1_eq : (x / 4 * 4 + (x mod 4 * 16 + y / 16) / 16 = x)%N.
Proof. clear Hz. zify. Z.to_euclidean_division_equations. lia. Qed.

Lemma octet2_eq : ((x mod 4 * 16 + y / 16) mod 16 * 16 + (y mod 16 * 4 + z / 64) / 4 = y)%N.
Proof. zify. Z.to_euclidean_division_equations. lia. Qed.

Lemma octet3_eq : ((y mod 16 * 4 + z / 64) mod 4 * 64 + z mod 64 = z)%N.
Proof. clear Hx. zify. Z.to_euclidean_division_equations. lia. Qed.

End Sextets.

Lemma byte_lt_256 (b : byte) : (Byte.to_N b < 256)%N.
Proof. pose proof (Byte.to_N_bounded b). lia. Qed.

Ltac sextet_arith :=
  zify; Z.to_euclidean_division_equations; lia.

(** Decoding inverts encoding. *)
Lemma b64decode_b64encode (data : list byte) : b64decode (b64encode data) = Some data.
Proof.
  induction data as [| a | a b | a b c rest IH] using list_by_three.
  - reflexivity.
  - pose proof (byte_lt_256 a) as Ha.
    cbn [b64encode b64decode].
    rewrite !b64_index_char by sextet_arith.
    rewrite Ascii.eqb_refl. cbn [andb].
    replace (Byte.to_N a / 4 * 4 + Byte.to_N a mod 4 * 16 / 16)%N with (Byte.to_N a)
      by sextet_arith.
    now rewrite byte_of_to_N.
  - pose proof (byte_lt_256 a) as Ha. pose proof (byte_lt_256 b) as Hb.
    cbn [b64encode b64decode].
    rewrite !b64_index_char by sextet_arith.
    rewrite (b64_char_not_pad (Byte.to_N b mod 16 * 4)) by sextet_arith.
    rewrite Ascii.eqb_refl. cbn [andb].
    rewrite octet1_eq by assumption.
    replace ((Byte.to_N a mod 4 * 16 + Byte.to_N b / 16) mod 16 * 16
             + Byte.to_N b mod 16 * 4 / 4)%N with (Byte.to_N b) by sextet_arith.
    now rewrite !byte_of_to_N.
  - pose proof (byte_lt_256 a) as Ha. pose proof (byte_lt_256 b) as Hb.
    pose proof (byte_lt_256 c) as Hc.
    cbn [b64encode]. cbn [b64decode]. fold b64decode.
    rewrite !b64_index_char by sextet_arith.
    rewrite (b64_char_not_pad (Byte.to_N b mod 16 * 4 + Byte.to_N c / 64)) by sextet_arith.
    rewrite (b64_char_not_pad (Byte.to_N c mod 64)) by sextet_arith.
    cbn [andb].
    rewrite IH. cbn [option_map].
    rewrite octet1_eq, octet2_eq, octet3_eq by assumption.
    now rewrite !byte_of_to_N.
Qed.

(** [base64.b64decode] of CPython on a few texts: padded and unpadded data,
    characters outside the alphabet, what follows the padding. *)
Example b64decode_value_runs :
  b64decode_value (VStr "Zm9v") = Ok [x66; x6f; x6f]
  /\ b64decode_value (VStr "Zm8=") = Ok [x66; x6f]
  /\ b64decode_value (VStr "Zg==") = Ok [x66]
  /\ b64decode_value (VStr "Zm 9v%") = Ok [x66; x6f; x6f]
  /\ b64decode_value (VStr "Zg==Zm9v") = Ok [x66]
  /\ b64decode_value (VStr "%%%") = Ok []
  /\ b64decode_value (VStr "Zg") = Raise (mk_exn (OtherException "binascii.Error")
                                            "Incorrect padding")
  /\ b64decode_value (VStr "Zm9vZ")
     = Raise (mk_exn (OtherException "binascii.Error")
                "Invalid base64-encoded string: number of data characters (5) cannot be 1 more than a multiple of 4")
  /\ b64decode_value (VInt 5)
     = Raise (mk_exn TypeError
                "argument should be a bytes-like object or ASCII string, not 'int'").
Proof. repeat split; vm_compute; reflexivity. Qed.

(** ** Reasoning about computations *)

Section Hoare.
Context `{Platform} {G : Type}.

#[local] Abbreviation M := (M G).
#[local] Abbreviation process := (process G).
#[local] Abbreviation hoare P m Q := (@hoare _ G _ P m Q).
#[local] Abbreviation preserves I m := (@preserves _ G _ I m).
#[local] Abbreviation wp m Q p := (@wp _ G _ m Q p).
#[local] Abbreviation returns R m := (@returns _ G _ R m).
#[local] Abbreviation on_actions I := (@on_actions _ G I).
#[local] Abbreviation on_globals I := (@on_globals _ G I).
#[local] Abbreviation framed I := (@framed _ G I).
#[local] Abbreviation allows I a := (@allows _ G I a).
#[local] Abbreviation sets I f := (@sets _ G I f).
#[local] Abbreviation logged old Q := (@logged _ G old Q).
#[local] Abbreviation recorded old cs := (@recorded _ G old cs).

Lemma hoare_conseq {A} (P P' : process -> Prop) (Q Q' : outcome A -> process -> Prop)
    (m : M A) :
  hoare P' m Q' -> (forall p, P p -> P' p) -> (forall r p, Q' r p -> Q r p) ->
  hoare P m Q.
Proof. intros Hm HP HQ p Hp. apply HQ, Hm, HP, Hp. Qed.

Lemma hoare_ret {A} (P : process -> Prop) (Q : outcome A -> process -> Prop) (a : A) :
  (forall p, P p -> Q (Ok a) p) -> hoare P (ret a) Q.
Proof. intros HQ p Hp. now apply HQ. Qed.

Lemma hoare_raise {A} (P : process -> Prop) (Q : outcome A -> process -> Prop) (e : exn) :
  (forall p, P p -> Q (Raise e) p) -> hoare P (raise e) Q.
Proof. intros HQ p Hp. now apply HQ. Qed.

Lemma hoare_pure {A} (P : process -> Prop) (Q : outcome A -> process -> Prop)
    (r : outcome A) :
  (forall p, P p -> Q r p) -> hoare P (pure r) Q.
Proof. intros HQ p Hp. now apply HQ. Qed.

Lemma hoare_bind {A B} (P : process -> Prop) (R : outcome A -> process -> Prop)
    (Q : outcome B -> process -> Prop) (m : M A) (k : A -> M B) :
  hoare P m R ->
  (forall a, hoare (R (Ok a)) (k a) Q) ->
  (forall e p, R (Raise e) p -> Q (Raise e) p) ->
  hoare P (bind m k) Q.
Proof.
  intros Hm Hk He p Hp. specialize (Hm p Hp). unfold bind.
  destruct (m p) as [[a|e] p']; cbn in *; [now apply Hk | now apply He].
Qed.

Lemma hoare_try_except {A} (P : process -> Prop) (R Q : outcome A -> process -> Prop)
    (m : M A) (h : exn -> M A) :
  hoare P m R ->
  (forall a p, R (Ok a) p -> Q (Ok a) p) ->
  (forall e, hoare (R (Raise e)) (h e) Q) ->
  hoare P (try_except m h) Q.
Proof.
  intros Hm Hok Hh p Hp. specialize (Hm p Hp). unfold try_except.
  destruct (m p) as [[a|e] p']; cbn in *; [now apply Hok | now apply Hh].
Qed.

(** A builtin's result is known before the rest runs. *)
Lemma hoare_bind_pure {A B} (P : process -> Prop) (Q : outcome B -> process -> Prop)
    (r : outcome A) (k : A -> M B) :
  (forall a, r = Ok a -> hoare P (k a) Q) ->
  (forall e p, r = Raise e -> P p -> Q (Raise e) p) ->
  hoare P (bind (pure r) k) Q.
Proof.
  intros Hk He p Hp. unfold bind, pure.
  destruct r as [a|e]; [now apply Hk | now apply He].
Qed.

(** *** Invariants *)

Lemma preserves_ret {A} (I : process -> Prop) (a : A) : preserves I (ret a).
Proof. now apply hoare_ret. Qed.

Lemma preserves_raise {A} (I : process -> Prop) (e : exn) : preserves I (@raise _ _ A e).
Proof. now apply hoare_raise. Qed.

Lemma preserves_pure {A} (I : process -> Prop) (r : outcome A) : preserves I (pure r).
Proof. now apply hoare_pure. Qed.

Lemma preserves_get_globals (I : process -> Prop) : preserves I get_globals.
Proof. intros p Hp. exact Hp. Qed.

Lemma preserves_get_process (I : process -> Prop) : preserves I get_process.
Proof. intros p Hp. exact Hp. Qed.

Lemma preserves_bind {A B} (I : process -> Prop) (m : M A) (k : A -> M B) :
  preserves I m -> (forall a, preserves I (k a)) -> preserves I (bind m k).
Proof. intros Hm Hk. apply (hoare_bind I (fun _ => I)); auto. Qed.

Lemma preserves_bind_pure {A B} (I : process -> Prop) (r : outcome A) (k : A -> M B) :
  (forall a, r = Ok a -> preserves I (k a)) -> preserves I (bind (pure r) k).
Proof. intros Hk. apply hoare_bind_pure; auto. Qed.

Lemma preserves_try_except {A} (I : process -> Prop) (m : M A) (h : exn -> M A) :
  preserves I m -> (forall e, preserves I (h e)) -> preserves I (try_except m h).
Proof. intros Hm Hh. apply (hoare_try_except I (fun _ => I)); auto. Qed.

Lemma preserves_try_except_ImportError {A} (I : process -> Prop) (m : M A)
    (h : exn -> M A) :
  preserves I m -> (forall e, preserves I (h e)) ->
  preserves I (try_except_ImportError m h).
Proof.
  intros Hm Hh. apply preserves_try_except; [exact Hm|].
  intros e. destruct (exn_class e); first [apply Hh | apply preserves_raise].
Qed.

Lemma preserves_not_none (I : process -> Prop) cls what o :
  preserves I (not_none cls what o).
Proof. destruct o; [apply preserves_ret | apply preserves_raise]. Qed.

(** *** Running a computation from a given state *)

Lemma wp_ret {A} (a : A) Q (p : process) : Q (Ok a) p -> wp (ret a) Q p.
Proof. exact (fun H => H). Qed.

Lemma wp_raise {A} (e : exn) (Q : outcome A -> process -> Prop) (p : process) :
  Q (Raise e) p -> wp (raise e) Q p.
Proof. exact (fun H => H). Qed.

Lemma wp_pure {A} (r : outcome A) Q (p : process) : Q r p -> wp (pure r) Q p.
Proof. exact (fun H => H). Qed.

Lemma wp_bind {A B} (m : M A) (k : A -> M B) Q (p : process) :
  wp m (fun r p' => match r with
                    | Ok a => wp (k a) Q p'
                    | Raise e => Q (Raise e) p'
                    end) p ->
  wp (bind m k) Q p.
Proof. unfold wp, bind. now destruct (m p) as [[a|e] p']. Qed.

Lemma wp_try_except {A} (m : M A) (h : exn -> M A) Q (p : process) :
  wp m (fun r p' => match r with
                    | Ok a => Q (Ok a) p'
                    | Raise e => wp (h e) Q p'
                    end) p ->
  wp (try_except m h) Q p.
Proof. unfold wp, try_except. now destruct (m p) as [[a|e] p']. Qed.

Lemma wp_call_ext {A} (f : ext world A) Q (p : process) :
  (forall r w, Q r (mk_process (globals p) w (files p) (environ p) (actions p))) ->
  wp (call_ext f) Q p.
Proof. intros HQ. unfold wp, call_ext. destruct (f (outside p)) as [r w]. apply HQ. Qed.

Lemma wp_now Q (p : process) :
  (forall t w, Q (Ok t) (mk_process (globals p) w (files p) (environ p) (actions p))) ->
  wp now Q p.
Proof. intros HQ. unfold wp, now. destruct (time_time (outside p)) as [t w]. apply HQ. Qed.

Lemma wp_emit (a : action) Q (p : process) :
  Q (Ok tt) (mk_process (globals p) (outside p) (files p) (environ p) (a :: actions p)) ->
  wp (emit a) Q p.
Proof. exact (fun H => H). Qed.

Lemma wp_get_globals Q (p : process) : Q (Ok (globals p)) p -> wp get_globals Q p.
Proof. exact (fun H => H). Qed.

Lemma wp_get_process Q (p : process) : Q (Ok p) p -> wp get_process Q p.
Proof. exact (fun H => H). Qed.

Lemma wp_set_globals (f : G -> G) Q (p : process) :
  Q (Ok tt) (mk_process (f (globals p)) (outside p) (files p) (environ p) (actions p)) ->
  wp (set_globals f) Q p.
Proof. exact (fun H => H). Qed.

Lemma wp_write_file writer path data Q (p : process) :
  Q (Ok tt) (mk_process (globals p) (outside p) (<[path := data]> (files p)) (environ p)
               (Wrote writer path data :: actions p)) ->
  wp (write_file writer path data) Q p.
Proof. exact (fun H => H). Qed.

Lemma wp_read_file path Q (p : process) :
  (forall data, files p !! path = Some data -> Q (Ok data) p) ->
  (forall e, files p !! path = None -> Q (Raise e) p) ->
  wp (read_file path) Q p.
Proof.
  intros Hs Hn. unfold wp, read_file.
  destruct (files p !! path) eqn:E; [now apply Hs | now apply Hn].
Qed.

Lemma wp_os_remove path Q (p : process) :
  Q (Ok tt) (mk_process (globals p) (outside p) (delete path (files p)) (environ p)
               (Removed path :: actions p)) ->
  (forall e, Q (Raise e) p) ->
  wp (os_remove path) Q p.
Proof.
  intros Hs Hn. unfold wp, os_remove.
  destruct (files p !! path); [exact Hs | apply Hn].
Qed.

Lemma wp_setenv name val Q (p : process) :
  Q (Ok tt) (mk_process (globals p) (outside p) (files p) (<[name := val]> (environ p))
               (SetEnv name val :: actions p)) ->
  wp (setenv name val) Q p.
Proof. exact (fun H => H). Qed.

(** *** Properties of the value returned *)

Lemma returns_ret {A} (R : A -> Prop) (a : A) : R a -> returns R (ret a).
Proof. intros Ha p a' [= <-]. exact Ha. Qed.

Lemma returns_raise {A} (R : A -> Prop) (e : exn) : returns R (raise e).
Proof. intros p a [=]. Qed.

Lemma returns_bind {A B} (R : B -> Prop) (m : M A) (k : A -> M B) :
  (forall a, returns R (k a)) -> returns R (bind m k).
Proof.
  intros Hk p b. unfold bind. destruct (m p) as [[a|e] p']; [apply Hk | intros [=]].
Qed.

Lemma returns_bind_strong {A B} (R1 : A -> Prop) (R : B -> Prop) (m : M A)
    (k : A -> M B) :
  returns R1 m -> (forall a, R1 a -> returns R (k a)) -> returns R (bind m k).
Proof.
  intros Hm Hk p b. unfold bind. specialize (Hm p).
  destruct (m p) as [[a|e] p']; [apply Hk, Hm; reflexivity | intros [=]].
Qed.

Lemma returns_bind_pure {A B} (R : B -> Prop) (r : outcome A) (k : A -> M B) :
  (forall a, r = Ok a -> returns R (k a)) -> returns R (bind (pure r) k).
Proof.
  intros Hk p b. unfold bind, pure. destruct r as [a|e]; [now apply Hk | intros [=]].
Qed.

Lemma returns_try_except {A} (R : A -> Prop) (m : M A) (h : exn -> M A) :
  returns R m -> (forall e, returns R (h e)) -> returns R (try_except m h).
Proof.
  intros Hm Hh p a. unfold try_except. specialize (Hm p).
  destruct (m p) as [[a'|e] p']; [exact (Hm a) | apply Hh].
Qed.

(** *** Invariants on the record of actions *)

Section Framed.
Variable I : process -> Prop.
Hypothesis I_framed : framed I.

Lemma act_call_ext {A} (f : ext world A) : preserves I (call_ext f).
Proof.
  intros p Hp. unfold call_ext. destruct (f (outside p)) as [r w].
  now apply (I_framed p).
Qed.

Lemma act_now : preserves I now.
Proof.
  intros p Hp. unfold now. destruct (time_time (outside p)) as [t w].
  now apply (I_framed p).
Qed.

Lemma act_set_globals (f : G -> G) : sets I f -> preserves I (set_globals f).
Proof. intros Hf p Hp. now apply (Hf p). Qed.

Lemma act_emit (a : action) : allows I a -> preserves I (emit a).
Proof. intros Ha p Hp. now apply (Ha p). Qed.

Lemma act_call {A} callee args (f : ext world A) :
  allows I (Call callee args) -> preserves I (call callee args f).
Proof.
  intros Ha. apply preserves_bind; [now apply act_emit | intros _; apply act_call_ext].
Qed.

Lemma act_write_file writer path data :
  allows I (Wrote writer path data) -> preserves I (write_file writer path data).
Proof. intros Ha p Hp. now apply (Ha p). Qed.

Lemma act_read_file path : preserves I (read_file path).
Proof. intros p Hp. unfold read_file. now destruct (files p !! path). Qed.

Lemma act_os_remove path : allows I (Removed path) -> preserves I (os_remove path).
Proof.
  intros Ha p Hp. unfold os_remove.
  destruct (files p !! path); [now apply (Ha p) | exact Hp].
Qed.

Lemma act_setenv name val : allows I (SetEnv name val) -> preserves I (setenv name val).
Proof. intros Ha p Hp. now apply (Ha p). Qed.

Lemma act_make_temp suffix :
  (forall path, allows I (Wrote "mkstemp" path [])) -> preserves I (make_temp suffix).
Proof.
  intros Ha. apply preserves_bind; [apply act_call_ext|].
  intros path. apply preserves_bind; [now apply act_write_file | intros _; apply preserves_ret].
Qed.

End Framed.

Lemma on_actions_framed I : on_actions I -> framed I.
Proof. intros HI p q _ Ha. now apply HI. Qed.

Lemma on_actions_sets I (f : G -> G) : on_actions I -> sets I f.
Proof. intros HI p q _ Ha. now apply HI. Qed.

Lemma on_globals_framed I : on_globals I -> framed I.
Proof. intros HI p q Hg _. now apply HI. Qed.

Lemma on_globals_allows I a : on_globals I -> allows I a.
Proof. intros HI p q Hg _. now apply HI. Qed.


Lemma logged_start (Q : action -> Prop) (p : process) : logged (actions p) Q p.
Proof. exists []. split; [reflexivity | constructor]. Qed.

Lemma logged_on_actions old Q : on_actions (logged old Q).
Proof. intros p q Heq (new & Hnew & HQ). exists new. split; [congruence | exact HQ]. Qed.

Lemma logged_allows old (Q : action -> Prop) a : Q a -> allows (logged old Q) a.
Proof.
  intros Ha p q _ Heq (new & Hnew & HQ). exists (a :: new).
  split; [rewrite Heq, Hnew; reflexivity | now constructor].
Qed.

Lemma all_in_cons cs a new : all_in cs new -> all_in cs (a :: new).
Proof. induction cs as [|c cs IH]; cbn; [trivial | intros [Hc Hcs]; auto]. Qed.

Lemma recorded_start (p : process) : recorded (actions p) [] p.
Proof. now exists []. Qed.

Lemma recorded_on_actions old cs : on_actions (recorded old cs).
Proof. intros p q Heq (new & Hnew & Hcs). exists new. split; [congruence | exact Hcs]. Qed.

Lemma recorded_allows old cs a : allows (recorded old cs) a.
Proof.
  intros p q _ Heq (new & Hnew & Hcs). exists (a :: new).
  split; [rewrite Heq, Hnew; reflexivity | now apply all_in_cons].
Qed.

Lemma recorded_forget old cs (p : process) : recorded old cs p -> recorded old [] p.
Proof. intros (new & Hnew & _). now exists new. Qed.

Lemma recorded_call {A} old cs callee args (f : ext world A) :
  hoare (recorded old cs) (call callee args f)
    (fun _ => recorded old (Call callee args :: cs)).
Proof.
  intros p (new & Hp & Hcs). unfold call, bind, emit, call_ext. cbn.
  destruct (f (outside p)) as [r w]. cbn.
  exists (Call callee args :: new). split; [rewrite Hp; reflexivity|].
  cbn. split; [now left | now apply all_in_cons].
Qed.

Lemma recorded_write old cs (writer path : string) (data : list byte) :
  hoare (recorded old cs) (write_file writer path data)
    (fun _ => recorded old (Wrote writer path data :: cs)).
Proof.
  intros p (new & Hp & Hcs). unfold write_file. cbn.
  exists (Wrote writer path data :: new). split; [rewrite Hp; reflexivity|].
  cbn. split; [now left | now apply all_in_cons].
Qed.

(** A call that is given what it reads of the state. *)
Lemma recorded_call_reading {A} old cs callee args (f : process -> ext world A) :
  hoare (recorded old cs) (bind get_process (fun p => call callee args (f p)))
    (fun _ => recorded old (Call callee args :: cs)).
Proof.
  intros p Hp. unfold bind at 1, get_process. cbn.
  exact (recorded_call old cs callee args (f p) p Hp).
Qed.

(** *** An invariant up to a point, a run from there *)

Lemma hoare_bind_inv {A B} (I : process -> Prop) (Q : outcome B -> process -> Prop)
    (m : M A) (k : A -> M B) :
  preserves I m -> (forall a, hoare I (k a) Q) ->
  (forall e p, I p -> Q (Raise e) p) ->
  hoare I (bind m k) Q.
Proof. intros Hm Hk He. now apply (hoare_bind I (fun _ => I)). Qed.

Lemma hoare_bind_inv_strong {A B} (I : process -> Prop) (R1 : A -> Prop)
    (Q : outcome B -> process -> Prop) (m : M A) (k : A -> M B) :
  preserves I m -> returns R1 m -> (forall a, R1 a -> hoare I (k a) Q) ->
  (forall e p, I p -> Q (Raise e) p) ->
  hoare I (bind m k) Q.
Proof.
  intros Hm Hr Hk He p Hp. unfold bind.
  specialize (Hm p Hp). specialize (Hr p).
  destruct (m p) as [[a|e] p']; cbn in *; [apply Hk; auto | now apply He].
Qed.

Lemma hoare_try_except_inv {A} (I : process -> Prop) (Q : outcome A -> process -> Prop)
    (m : M A) (h : exn -> M A) :
  hoare I m (fun r p => match r with Ok a => Q (Ok a) p | Raise _ => I p end) ->
  (forall e, hoare I (h e) Q) ->
  hoare I (try_except m h) Q.
Proof.
  intros Hm Hh.
  apply (hoare_try_except I
           (fun r p => match r with Ok a => Q (Ok a) p | Raise _ => I p end));
    [exact Hm | now intros | exact Hh].
Qed.

Lemma hoare_wp {A} (P : process -> Prop) (Q : outcome A -> process -> Prop) (m : M A) :
  (forall p, P p -> wp m Q p) -> hoare P m Q.
Proof. exact (fun H => H). Qed.

End Hoare.

(** Unfolds the function a computation calls. *)
Ltac head_of t :=
  lazymatch t with
  | ?f _ => head_of f
  | _ => t
  end.

Ltac unfold_call m :=
  let h := head_of m in
  lazymatch h with
  | @bind => fail
  | @try_except => fail
  | _ => progress unfold h
  end.

Ltac same_result :=
  repeat match goal with
         | H1 : ?t = Ok ?x, H2 : ?t = Ok ?y |- _ =>
             assert (y = x) by congruence; subst y; clear H2
         end.

(** Steps through a computation, keeping an invariant on the actions;
    [known] closes the calls of functions already dealt with, [side] the
    conditions on what is recorded. *)
Ltac walk_framed HF known side setside :=
  repeat (cbv beta zeta;
    first
    [ known
    | lazymatch goal with
      | |- preserves _ (ret _) => apply preserves_ret
      | |- preserves _ (raise _) => apply preserves_raise
      | |- preserves _ (pure _) => apply preserves_pure
      | |- preserves _ get_globals => apply preserves_get_globals
      | |- preserves _ get_process => apply preserves_get_process
      | |- preserves _ (not_none _ _ _) => apply preserves_not_none
      | |- preserves _ (call_ext _) => apply (act_call_ext _ HF)
      | |- preserves _ now => apply (act_now _ HF)
      | |- preserves _ (set_globals _) => apply act_set_globals; setside
      | |- preserves _ (read_file _) => apply act_read_file
      | |- preserves _ (emit _) => apply act_emit; side
      | |- preserves _ (call _ _ _) => apply (act_call _ HF); side
      | |- preserves _ (write_file _ _ _) => apply act_write_file; side
      | |- preserves _ (os_remove _) => apply act_os_remove; side
      | |- preserves _ (setenv _ _) => apply act_setenv; side
      | |- preserves _ (make_temp _) => apply (act_make_temp _ HF); intros ?; side
      | |- preserves _ (bind (pure _) _) =>
          apply preserves_bind_pure; intros ? ?; same_result
      | |- preserves _ (try_except_ImportError _ _) =>
          apply preserves_try_except_ImportError; [ | intros ? ]
      | |- preserves _ (try_except _ _) => apply preserves_try_except; [ | intros ? ]
      | |- preserves _ (bind _ _) => apply preserves_bind; [ | intros ? ]
      | |- preserves _ (if ?b then _ else _) => destruct b eqn:?
      | |- preserves _ (match ?x with _ => _ end) => destruct x eqn:?
      | |- preserves _ ?m => unfold_call m
      end ]).

(** The same for an invariant on the actions only. *)
Ltac walk HI known side :=
  walk_framed (on_actions_framed _ HI) known side ltac:(apply (on_actions_sets _ _ HI)).

(** The same for an invariant on the globals only; [setside] proves it kept
    by an update of the globals. *)
Ltac walk_globals HG known setside :=
  walk_framed (on_globals_framed _ HG) known ltac:(apply (on_globals_allows _ _ HG)) setside.

(** Steps to every [return] of a computation; [leaf] proves the property of
    the value returned there. *)
Ltac to_returns leaf :=
  repeat (cbv beta zeta;
    lazymatch goal with
    | |- returns _ (raise _) => apply returns_raise
    | |- returns _ (ret _) =>
        apply returns_ret; first [ exact I | eexists; reflexivity | leaf ]
    | |- returns _ (bind (try_except _ _) _) =>
        apply (returns_bind_strong decoded_or_error);
        [ | intros [?|?] Hd; [ | destruct Hd as [? ->] ] ]
    | |- returns _ (bind (pure _) _) =>
        apply returns_bind_pure; intros ? ?; same_result
    | |- returns _ (try_except _ _) => apply returns_try_except; [ | intros ? ]
    | |- returns _ (bind _ _) => apply returns_bind; intros ?
    | |- returns _ (if ?b then _ else _) => destruct b eqn:?
    | |- returns _ (match ?x with _ => _ end) => destruct x eqn:?
    | |- returns _ ?m => unfold_call m
    end).

(** Runs a computation step by step from a state; [leaf] proves the
    postcondition where the run ends. *)
Ltac symex_reduce :=
  cbv beta iota zeta;
  cbn [globals outside files environ actions fst snd
       TripoSR.model SF3D.model SF3D.rembg_session SF3D.SF3D SF3D.remove
       SF3D.new_session Hunyuan3D.shape_pipeline Hunyuan3D.paint_pipeline
       Hunyuan3D.rembg_session Hunyuan3D.remove Hunyuan3D.new_session].

Ltac symex_end leaf :=
  symex_reduce;
  lazymatch goal with
  | |- wp _ _ _ => idtac
  | _ => first [ solve [leaf] | idtac ]
  end.

Ltac symex leaf :=
  repeat (symex_reduce;
    lazymatch goal with
    | |- wp (bind _ _) _ _ => apply wp_bind
    | |- wp (ret _) _ _ => apply wp_ret; symex_end leaf
    | |- wp (raise _) _ _ => apply wp_raise; symex_end leaf
    | |- wp (pure ?r) _ _ =>
        apply wp_pure; destruct r eqn:?; same_result; symex_end leaf
    | |- wp (try_except _ _) _ _ => apply wp_try_except
    | |- wp (call_ext _) _ _ => apply wp_call_ext; intros [?|?] ?; symex_end leaf
    | |- wp now _ _ => apply wp_now; intros ? ?
    | |- wp (emit _) _ _ => apply wp_emit
    | |- wp get_globals _ _ => apply wp_get_globals
    | |- wp get_process _ _ => apply wp_get_process
    | |- wp (set_globals _) _ _ => apply wp_set_globals
    | |- wp (write_file _ _ _) _ _ => apply wp_write_file
    | |- wp (read_file _) _ _ =>
        apply wp_read_file; [ intros ? ? | intros ? ?; symex_end leaf ]
    | |- wp (os_remove _) _ _ =>
        apply wp_os_remove; [ | intros ?; symex_end leaf ]
    | |- wp (setenv _ _) _ _ => apply wp_setenv
    | |- wp (if ?b then _ else _) _ _ => destruct b eqn:?
    | |- wp (match ?x with _ => _ end) _ _ => destruct x eqn:?
    | |- wp ?m _ _ => unfold_call m
    end).

(** The file read back is the file written. *)
Ltac read_back :=
  repeat match goal with
         | H : _ !! _ = Some _ |- _ =>
             cbn [files] in H; rewrite lookup_insert_eq in H; injection H as <-
         end.

(** Splits the conjunctions that are written in the goal, and decides a
    closed goal by evaluation. *)
Ltac split_all := repeat match goal with |- _ /\ _ => split end.

Ltac evaluate :=
  vm_compute; first [ reflexivity | repeat first [ left; reflexivity | right ] ].

Ltac find_action :=
  cbn [In]; repeat first [ left; reflexivity | eassumption | right ].

(** From [recorded old cs p], what is new in [p], and that [cs] is there. *)
Ltac open_recorded :=
  match goal with
  | Hp : recorded _ _ _ |- _ =>
      let new := fresh "new" in
      let Hcs := fresh "Hcs" in
      destruct Hp as (new & Hp & Hcs); cbn [all_in] in Hcs;
      repeat match type of Hcs with
             | _ /\ _ => let Hc := fresh "Hc" in destruct Hcs as [Hc Hcs]
             end;
      try unfold recorded; cbn [actions]; rewrite Hp, ?app_comm_cons
  end.

(** The end of a run that started in [recorded old cs]. *)
Ltac recorded_end :=
  open_recorded; eexists; split; [ reflexivity | ];
  cbn [all_in]; repeat split;
  first [ solve [find_action] | solve [repeat apply all_in_cons; assumption] ].

Ltac forget :=
  first
    [ assumption
    | match goal with
      | H : _ |- recorded _ [] _ =>
          cbv beta iota in H; eapply recorded_forget; exact H
      end ].

(** Steps through a handler with an invariant [recorded old cs], up to the
    export of the mesh.  [switch] deals with the calls that add to [cs];
    [leaf] with the responses returned on the way. *)
Ltac advance switch leaf :=
  repeat (cbv beta iota zeta;
    first
    [ switch
    | lazymatch goal with
      | |- hoare _ (bind (make_temp ".glb") _) _ => fail
      | |- hoare _ (bind (TripoSR.export_mesh _ _ _) _) _ => fail
      | |- hoare _ (bind (pure _) _) _ =>
          apply hoare_bind_pure;
          [ intros ? ?; same_result
          | intros ? ? ? ?; cbv beta iota; first [ forget | leaf ] ]
      | |- @hoare ?P ?G _ (@recorded _ _ ?old ?cs) (bind (try_except _ _) _) _ =>
          apply (hoare_bind_inv_strong _ decoded_or_error);
          [ walk (@recorded_on_actions P G old cs) fail ltac:(apply recorded_allows)
          | to_returns fail
          | intros [?|?] Hd; [ | destruct Hd as [? ->] ]
          | intros ? ? ?; cbv beta iota; first [ forget | leaf ] ]
      | |- @hoare ?P ?G _ (@recorded _ _ ?old ?cs) (bind _ _) _ =>
          apply hoare_bind_inv;
          [ walk (@recorded_on_actions P G old cs) fail ltac:(apply recorded_allows)
          | intros ?
          | intros ? ? ?; cbv beta iota; first [ forget | leaf ] ]
      | |- hoare _ (try_except _ _) _ => apply hoare_try_except_inv; [ | intros ? ]
      | |- hoare _ (ret _) _ =>
          apply hoare_ret; intros ? ?; cbv beta iota; first [ forget | leaf ]
      | |- hoare _ (raise _) _ =>
          apply hoare_raise; intros ? ?; cbv beta iota; first [ forget | leaf ]
      | |- hoare _ (if ?b then _ else _) _ => destruct b eqn:?
      | |- hoare _ (match ?x with _ => _ end) _ => destruct x eqn:?
      | |- hoare _ ?m _ => unfold_call m
      end ]).

(** The same with any invariant: [walker] proves it kept by the steps,
    [leaf] proves the postcondition where the run ends on the way. *)
Ltac advance_by walker switch leaf :=
  repeat (cbv beta iota zeta;
    first
    [ switch
    | lazymatch goal with
      | |- hoare _ (bind (make_temp ".glb") _) _ => fail
      | |- hoare _ (bind (pure _) _) _ =>
          apply hoare_bind_pure;
          [ intros ? ?; same_result
          | intros ? ? ? ?; cbv beta iota; leaf ]
      | |- hoare _ (bind (try_except _ _) _) _ =>
          apply (hoare_bind_inv_strong _ decoded_or_error);
          [ walker
          | to_returns fail
          | intros [?|?] Hd; [ | destruct Hd as [? ->] ]
          | intros ? ? ?; cbv beta iota; leaf ]
      | |- hoare _ (bind _ _) _ =>
          apply hoare_bind_inv;
          [ walker
          | intros ?
          | intros ? ? ?; cbv beta iota; leaf ]
      | |- hoare _ (try_except _ _) _ => apply hoare_try_except_inv; [ | intros ? ]
      | |- hoare _ (ret _) _ =>
          apply hoare_ret; intros ? ?; cbv beta iota; leaf
      | |- hoare _ (raise _) _ =>
          apply hoare_raise; intros ? ?; cbv beta iota; leaf
      | |- hoare _ (if ?b then _ else _) _ => destruct b eqn:?
      | |- hoare _ (match ?x with _ => _ end) _ => destruct x eqn:?
      | |- hoare _ ?m _ => unfold_call m
      end ]).

(** A call adds itself to what is recorded. *)
Ltac add_call :=
  eapply hoare_bind;
  [ apply recorded_call
  | intros ?; cbv beta
  | intros ? ? ?; cbv beta iota; forget ].

(** ** The comparisons of binary64 *)

Lemma SFcompare_swap (x y : spec_float) :
  SFcompare y x = option_map CompOpp (SFcompare x y).
Proof.
  destruct x as [sx| sx| |sx mx ex], y as [sy| sy| |sy my ey]; cbn;
    try reflexivity;
    try (destruct sx; reflexivity); try (destruct sy; reflexivity);
    try (destruct sx, sy; reflexivity).
  destruct sx, sy; cbn; try reflexivity;
    rewrite (Z.compare_antisym ex ey);
    destruct (ex ?= ey) eqn:E; cbn; try reflexivity;
    rewrite (Pos.compare_cont_antisym mx my Eq); reflexivity.
Qed.

(** On two numbers, [x <= y] is the negation of [y < x]. *)
Lemma leb_not_ltb (x y : float) :
  Prim2SF x <> S754_nan -> Prim2SF y <> S754_nan ->
  PrimFloat.leb x y = negb (PrimFloat.ltb y x).
Proof.
  intros Hx Hy. rewrite leb_spec, ltb_spec. unfold SFleb, SFltb.
  rewrite (SFcompare_swap (Prim2SF x) (Prim2SF y)).
  destruct (SFcompare (Prim2SF x) (Prim2SF y)) as [[]|] eqn:E; try reflexivity.
  exfalso. destruct (Prim2SF x), (Prim2SF y); cbn in E; congruence.
Qed.

(** NaN compares false with everything. *)
Lemma nan_ltb (x y : float) :
  Prim2SF x = S754_nan \/ Prim2SF y = S754_nan -> PrimFloat.ltb x y = false.
Proof.
  intros Hnan. rewrite ltb_spec. unfold SFltb.
  destruct Hnan as [-> | ->]; [reflexivity|].
  now destruct (Prim2SF x).
Qed.

(** A zero is below 0.5. *)
Lemma zero_ltb_half (r : float) :
  PrimFloat.eqb r 0%float = true -> PrimFloat.ltb r f0_5 = true.
Proof.
  rewrite FloatAxioms.eqb_spec, FloatAxioms.ltb_spec.
  replace (Prim2SF 0%float) with (S754_zero false) by (vm_compute; reflexivity).
  replace (Prim2SF f0_5) with (S754_finite false 4503599627370496 (-53))
    by (vm_compute; reflexivity).
  destruct (Prim2SF r) as [s | s | | s m e]; unfold SFeqb, SFltb, SFcompare;
    try destruct s; intros Hz; first [ discriminate Hz | reflexivity ].
Qed.

(** ** TripoSR *)

Section TripoSRFacts.
Context `{Interp} `{TripoSR.Libs}.
Import TripoSR.

(** Whenever a run resizes the foreground, it does so with the validated
    ratio. *)
Lemma triposr_resizes_with (event input_data fr : value) (x : float) (old : list action) :
  py_get event "input" (VDict []) = Ok input_data ->
  py_get input_data "foreground_ratio" (VFloat f0_85) = Ok fr ->
  py_float fr = Ok x ->
  preserves
    (logged old (calls_with "resize_foreground" (eq [VFloat (valid_foreground_ratio x)])))
    (handler event).
Proof.
  intros Hin Hfr Hx.
  walk (logged_on_actions (G:=globals_t) old
          (calls_with "resize_foreground" (eq [VFloat (valid_foreground_ratio x)])))
       fail
       ltac:(apply logged_allows; intros ? [=]; subst; reflexivity).
Qed.

(** Whenever a run extracts a mesh, it does so at the validated resolution. *)
Lemma triposr_extracts_at (event input_data mc : value) (n : Z) (old : list action) :
  py_get event "input" (VDict []) = Ok input_data ->
  py_get input_data "mc_resolution" (VInt 256) = Ok mc ->
  py_int mc = Ok n ->
  preserves
    (logged old (calls_with "tsr.extract_mesh"
                   (eq [VBool true; VInt (valid_mc_resolution n)])))
    (handler event).
Proof.
  intros Hin Hmc Hn.
  walk (logged_on_actions (G:=globals_t) old
          (calls_with "tsr.extract_mesh" (eq [VBool true; VInt (valid_mc_resolution n)])))
       fail
       ltac:(apply logged_allows; intros ? [=]; subst; reflexivity).
Qed.

(** [preprocess_image] resizes the foreground with the ratio it is given. *)
Lemma triposr_preprocess_recorded (image : obj) (ratio : float) old cs :
  hoare (recorded old cs) (preprocess_image image ratio)
    (fun r => match r with
              | Ok _ => recorded old (Call "resize_foreground" [VFloat ratio] :: cs)
              | Raise _ => recorded old cs
              end).
Proof. apply hoare_wp. intros p Hp. symex ltac:(recorded_end). Qed.

(** [generate_mesh] extracts the mesh at the resolution it is given. *)
Lemma triposr_generate_recorded (image : obj) (resolution : Z) old cs :
  hoare (recorded old cs) (generate_mesh image resolution)
    (fun r => match r with
              | Ok _ => recorded old
                          (Call "tsr.extract_mesh" [VBool true; VInt resolution] :: cs)
              | Raise _ => recorded old cs
              end).
Proof. apply hoare_wp. intros p Hp. symex ltac:(recorded_end). Qed.

Ltac triposr_switch :=
  idtac;
  lazymatch goal with
  | |- hoare _ (bind (preprocess_image _ _) _) _ =>
      eapply hoare_bind;
      [ apply triposr_preprocess_recorded
      | intros ?; cbv beta iota
      | intros ? ? ?; cbv beta iota; forget ]
  | |- hoare _ (bind (generate_mesh _ _) _) _ =>
      eapply hoare_bind;
      [ apply triposr_generate_recorded
      | intros ?; cbv beta iota
      | intros ? ? ?; cbv beta iota; forget ]
  end.

Ltac no_model := idtac; intros ? ? [= <-] Hs; cbn in Hs; discriminate Hs.

Ltac triposr_success_end :=
  intros ? ? [= <-] Hs; cbn in Hs;
  first
    [ discriminate Hs
    | injection Hs as <-; read_back; open_recorded;
      do 8 eexists; split; [ reflexivity | ];
      repeat split; try eassumption; try reflexivity; find_action ].

(** A response that carries a model: the options converted, the foreground
    was resized and the mesh extracted with the validated values, and the
    model is the base64 text of the bytes that [mesh.export] wrote. *)
Lemma triposr_success (event : value) (old : list action) :
  hoare (recorded old []) (handler event)
     (fun r p' =>
        forall response s,
          r = Ok response -> field response "model_base64" = Some (VStr s) ->
          exists new input_data fr x mc n path data,
            actions p' = (new ++ old)%list
            /\ py_get event "input" (VDict []) = Ok input_data
            /\ py_get input_data "foreground_ratio" (VFloat f0_85) = Ok fr
            /\ py_float fr = Ok x
            /\ py_get input_data "mc_resolution" (VInt 256) = Ok mc
            /\ py_int mc = Ok n
            /\ In (Call "resize_foreground" [VFloat (valid_foreground_ratio x)]) new
            /\ In (Call "tsr.extract_mesh" [VBool true; VInt (valid_mc_resolution n)]) new
            /\ In (Wrote "mesh.export" path data) new
            /\ s = b64encode data
            /\ field response "file_size" = Some (VInt (Z.of_nat (length data)))).
Proof.
  unfold handler, handler_body.
  advance triposr_switch no_model.
  all: apply hoare_wp; intros ? ?;
    symex ltac:(first [ recorded_end | triposr_success_end ]).
Qed.

(** No response has a [model_url]; one with a [warning] is a model of 5 MiB
    or more, still sent as base64. *)
Lemma triposr_response_fields (event : value) :
  returns
    (fun response =>
       field response "model_url" = None
       /\ (forall w, field response "warning" = Some w ->
           exists data,
             5 * 1024 * 1024 <= Z.of_nat (length data)
             /\ field response "file_size" = Some (VInt (Z.of_nat (length data)))
             /\ field response "model_base64" = Some (VStr (b64encode data)))
       /\ (forall n, field response "file_size" = Some (VInt n) ->
           5 * 1024 * 1024 <= n ->
           exists s, field response "model_base64" = Some (VStr s)
                     /\ field response "warning" = Some (VStr large_file_warning)))
    (handler event).
Proof.
  unfold handler, handler_body.
  to_returns ltac:(
    repeat split; try reflexivity;
    [ intros w Hw; cbn in Hw; first [ discriminate Hw | eexists; repeat split; lia ]
    | intros m Hm; cbn in Hm; first [ discriminate Hm | injection Hm as <- ];
      intros Hle; first [ lia | eexists; split; reflexivity ] ]).
Qed.

(** What the [if] on [output_format] leaves is ['glb'] or ['obj']. *)
Lemma valid_output_format_cases (fmt : string) :
  valid_output_format fmt = "glb" \/ valid_output_format fmt = "obj".
Proof.
  unfold valid_output_format, str_in. cbn.
  destruct (String.eqb_spec fmt "glb") as [-> | _]; cbn; [now left|].
  destruct (String.eqb_spec fmt "obj") as [-> | _]; cbn; [now right | now left].
Qed.

Ltac export_side fmt :=
  apply logged_allows; intros ? [=]; subst; eexists;
  match goal with
  | H : String.eqb (valid_output_format fmt) _ = true |- _ =>
      apply String.eqb_eq in H; rewrite H; reflexivity
  | H : String.eqb (valid_output_format fmt) _ = false |- _ =>
      apply String.eqb_neq in H;
      destruct (valid_output_format_cases fmt) as [E | E];
      [ contradiction | rewrite E; reflexivity ]
  end.

(** Whenever a run exports a mesh, it does so in the validated format. *)
Lemma triposr_exports_as (event input_data fmt_v : value) (fmt : string)
    (old : list action) :
  py_get event "input" (VDict []) = Ok input_data ->
  py_get input_data "output_format" (VStr "glb") = Ok fmt_v ->
  py_lower fmt_v = Ok fmt ->
  preserves
    (logged old (calls_with "mesh.export"
                   (fun args => exists path,
                        args = [VStr path; VStr (valid_output_format fmt)])))
    (handler event).
Proof.
  intros Hin Hv Hfmt.
  walk (logged_on_actions (G:=globals_t) old
          (calls_with "mesh.export"
             (fun args => exists path,
                  args = [VStr path; VStr (valid_output_format fmt)])))
       fail
       ltac:(export_side fmt).
Qed.

(** The format a response names is the validated one. *)
Lemma triposr_format_echo (event input_data fmt_v : value) (fmt : string) :
  py_get event "input" (VDict []) = Ok input_data ->
  py_get input_data "output_format" (VStr "glb") = Ok fmt_v ->
  py_lower fmt_v = Ok fmt ->
  returns
    (fun response =>
       forall v, field response "format" = Some v ->
                 v = VStr (valid_output_format fmt))
    (handler event).
Proof.
  intros Hin Hv Hfmt. unfold handler, handler_body.
  to_returns ltac:(intros v Hv'; cbn in Hv'; first [ discriminate Hv' | congruence ]).
Qed.

Ltac triposr_files_end :=
  try match goal with
      | H : String.eqb (valid_output_format ?f) _ = true |- _ =>
          apply String.eqb_eq in H; rewrite H
      | H : String.eqb (valid_output_format ?f) _ = false |- _ =>
          apply String.eqb_neq in H;
          destruct (valid_output_format_cases f) as [E | E];
          [ contradiction | rewrite E ]
      end;
  intros ? ? [= <-] Hs; cbn in Hs;
  first
    [ discriminate Hs
    | injection Hs as <-; read_back; open_recorded;
      do 4 eexists; split; [ reflexivity | ];
      split_all;
      first [ solve [find_action]
            | cbn [files]; apply lookup_delete_eq
            | reflexivity ] ].

(** A response that carries a model: the mesh was exported to a file, in
    the format the response names, and that file was removed. *)
Lemma triposr_success_files (event : value) (old : list action) :
  hoare (recorded old []) (handler event)
     (fun r p' =>
        forall response s,
          r = Ok response -> field response "model_base64" = Some (VStr s) ->
          exists new path data ft,
            actions p' = (new ++ old)%list
            /\ In (Call "mesh.export" [VStr path; VStr ft]) new
            /\ In (Wrote "mesh.export" path data) new
            /\ In (Removed path) new
            /\ files p' !! path = None
            /\ field response "format" = Some (VStr ft)).
Proof.
  unfold handler, handler_body.
  advance triposr_switch no_model.
  all: apply hoare_wp; intros ? ?;
    symex ltac:(first [ recorded_end | triposr_files_end ]).
Qed.

(** A response is an error or a model. *)
Lemma triposr_response_shape (event : value) :
  returns (fun response => is_error response \/ is_model response) (handler event).
Proof.
  unfold handler, handler_body, is_error, is_model.
  to_returns ltac:(
    first [ left; eexists; reflexivity
          | right; do 4 eexists; split_all; first [ reflexivity | lia ] ]).
Qed.

End TripoSRFacts.

(** ** SF3D *)

Section SF3DFacts.
Context `{Interp} `{SF3D.Libs}.
Import SF3D.

(** Whenever a run resizes the foreground, it does so with the validated
    ratio. *)
Lemma sf3d_resizes_with (event input_data fr : value) (x : float) (old : list action) :
  py_get event "input" (VDict []) = Ok input_data ->
  py_get input_data "foreground_ratio" (VFloat f0_85) = Ok fr ->
  py_float fr = Ok x ->
  preserves
    (logged old (calls_with "resize_foreground" (eq [VFloat (valid_foreground_ratio x)])))
    (handler event).
Proof.
  intros Hin Hfr Hx.
  walk (logged_on_actions (G:=globals_t) old
          (calls_with "resize_foreground" (eq [VFloat (valid_foreground_ratio x)])))
       fail
       ltac:(apply logged_allows; intros ? [=]; subst; reflexivity).
Qed.

(** Whenever a run bakes a texture, it does so at the validated resolution. *)
Lemma sf3d_bakes_at (event input_data tr : value) (n : Z) (old : list action) :
  py_get event "input" (VDict []) = Ok input_data ->
  py_get input_data "texture_resolution" (VInt 1024) = Ok tr ->
  py_int tr = Ok n ->
  preserves
    (logged old (calls_with "sf3d.run_image"
                   (fun args => exists remesh,
                        args = [VInt (valid_texture_resolution n); remesh])))
    (handler event).
Proof.
  intros Hin Htr Hn.
  walk (logged_on_actions (G:=globals_t) old
          (calls_with "sf3d.run_image"
             (fun args => exists remesh,
                  args = [VInt (valid_texture_resolution n); remesh])))
       fail
       ltac:(apply logged_allows; intros ? [=]; subst; eexists; reflexivity).
Qed.

(** [resize_foreground] records the ratio it is given. *)
Lemma sf3d_resize_recorded (image : obj) (ratio : float) old cs :
  hoare (recorded old cs) (resize_foreground image ratio)
    (fun r => match r with
              | Ok _ => recorded old (Call "resize_foreground" [VFloat ratio] :: cs)
              | Raise _ => recorded old cs
              end).
Proof. apply hoare_wp. intros p Hp. symex ltac:(recorded_end). Qed.

Ltac sf3d_switch :=
  idtac;
  lazymatch goal with
  | |- hoare _ (bind (resize_foreground _ _) _) _ =>
      eapply hoare_bind;
      [ apply sf3d_resize_recorded
      | intros ?; cbv beta iota
      | intros ? ? ?; cbv beta iota; forget ]
  | |- hoare _ (bind (call "sf3d.run_image" _ _) _) _ => add_call
  end.

Ltac no_model := idtac; intros ? ? [= <-] Hs; cbn in Hs; discriminate Hs.

Ltac sf3d_success_end :=
  intros ? ? [= <-] Hs; cbn in Hs;
  first
    [ discriminate Hs
    | injection Hs as <-; read_back; open_recorded;
      do 9 eexists; split; [ reflexivity | ];
      repeat split; try eassumption; try reflexivity; find_action ].

(** A response that carries a model: the options converted, the foreground
    was resized and the texture baked with the validated values, the
    resolution echoed is the one baked, and the model is the base64 text of
    the bytes that [mesh.export] wrote. *)
Lemma sf3d_success (event : value) (old : list action) :
  hoare (recorded old []) (handler event)
    (fun r p' =>
       forall response s,
         r = Ok response -> field response "model_base64" = Some (VStr s) ->
         exists new input_data fr x tr n remesh path data,
           actions p' = (new ++ old)%list
           /\ py_get event "input" (VDict []) = Ok input_data
           /\ py_get input_data "foreground_ratio" (VFloat f0_85) = Ok fr
           /\ py_float fr = Ok x
           /\ py_get input_data "texture_resolution" (VInt 1024) = Ok tr
           /\ py_int tr = Ok n
           /\ In (Call "resize_foreground" [VFloat (valid_foreground_ratio x)]) new
           /\ In (Call "sf3d.run_image" [VInt (valid_texture_resolution n); remesh]) new
           /\ In (Wrote "mesh.export" path data) new
           /\ s = b64encode data
           /\ field response "file_size" = Some (VInt (Z.of_nat (length data)))
           /\ field response "texture_resolution"
              = Some (VInt (valid_texture_resolution n))).
Proof.
  unfold handler, handler_body.
  advance sf3d_switch no_model.
  all: apply hoare_wp; intros ? ?;
    symex ltac:(first [ recorded_end | sf3d_success_end ]).
Qed.

(** The resolution a response echoes is the validated one. *)
Lemma sf3d_echoes (event input_data tr : value) (n : Z) :
  py_get event "input" (VDict []) = Ok input_data ->
  py_get input_data "texture_resolution" (VInt 1024) = Ok tr ->
  py_int tr = Ok n ->
  returns
    (fun response =>
       forall v, field response "texture_resolution" = Some v ->
                 v = VInt (valid_texture_resolution n))
    (handler event).
Proof.
  intros Hin Htr Hn. unfold handler, handler_body.
  to_returns ltac:(intros v Hv; cbn in Hv; first [ discriminate Hv | congruence ]).
Qed.

(** Whenever a run calls the model, it does so with the validated
    [remesh]. *)
Lemma sf3d_remeshes_with (event input_data ro_v : value) (ro : string)
    (old : list action) :
  py_get event "input" (VDict []) = Ok input_data ->
  py_get input_data "remesh_option" (VStr "none") = Ok ro_v ->
  py_lower ro_v = Ok ro ->
  preserves
    (logged old (calls_with "sf3d.run_image"
                   (fun args => exists tr, args = [VInt tr; remesh_argument ro])))
    (handler event).
Proof.
  intros Hin Hv Hro.
  walk (logged_on_actions (G:=globals_t) old
          (calls_with "sf3d.run_image"
             (fun args => exists tr, args = [VInt tr; remesh_argument ro])))
       fail
       ltac:(apply logged_allows; intros ? [=]; subst; eexists;
             unfold remesh_argument; destruct (String.eqb _ _); reflexivity).
Qed.

Lemma remesh_argument_cases (ro : string) :
  (ro = "triangle" \/ ro = "quad" -> remesh_argument ro = VStr ro)
  /\ (ro <> "triangle" -> ro <> "quad" -> remesh_argument ro = VNone).
Proof.
  unfold remesh_argument, valid_remesh_option, str_in. cbn. split.
  - intros [-> | ->]; reflexivity.
  - intros Ht Hq.
    destruct (String.eqb_spec ro "none") as [-> | _]; [reflexivity|].
    destruct (String.eqb_spec ro "triangle"); [contradiction|].
    destruct (String.eqb_spec ro "quad"); [contradiction|]. reflexivity.
Qed.

(** A response is an error or a model. *)
Lemma sf3d_response_shape (event : value) :
  returns (fun response => is_error response \/ is_model response) (handler event).
Proof.
  unfold handler, handler_body, is_error, is_model.
  to_returns ltac:(
    first [ left; eexists; reflexivity
          | right; do 4 eexists; split_all; first [ reflexivity | lia ] ]).
Qed.

Ltac sf3d_files_end :=
  intros ? ? [= <-] Hs; cbn in Hs;
  first
    [ discriminate Hs
    | injection Hs as <-; read_back; open_recorded;
      do 3 eexists; split; [ reflexivity | ];
      split_all;
      first [ solve [find_action]
            | cbn [files]; apply lookup_delete_eq
            | reflexivity ] ].

(** A response that carries a model: the mesh was exported to a file, and
    that file was removed. *)
Lemma sf3d_success_files (event : value) (old : list action) :
  hoare (recorded old []) (handler event)
     (fun r p' =>
        forall response s,
          r = Ok response -> field response "model_base64" = Some (VStr s) ->
          exists new path data,
            actions p' = (new ++ old)%list
            /\ In (Wrote "mesh.export" path data) new
            /\ In (Removed path) new
            /\ files p' !! path = None).
Proof.
  unfold handler, handler_body.
  advance sf3d_switch no_model.
  all: apply hoare_wp; intros ? ?;
    symex ltac:(first [ recorded_end | sf3d_files_end ]).
Qed.

End SF3DFacts.

(** ** Hunyuan3D-2 *)

Section Hunyuan3DFacts.
Context `{Interp} `{Hunyuan3D.Libs}.
Import Hunyuan3D.

(** Whenever a run sets [HY3D_PROFILE], it sets it to the validated
    profile. *)
Lemma hunyuan3d_sets_profile (event input_data pr : value) (n : Z) (old : list action) :
  py_get event "input" (VDict []) = Ok input_data ->
  py_get input_data "profile" (VInt 3) = Ok pr ->
  py_int pr = Ok n ->
  preserves
    (logged old (env_with "HY3D_PROFILE" (eq (str_of_int (valid_profile n)))))
    (handler event).
Proof.
  intros Hin Hpr Hn.
  walk (logged_on_actions (G:=globals_t) old
          (env_with "HY3D_PROFILE" (eq (str_of_int (valid_profile n)))))
       fail
       ltac:(apply logged_allows; intros ? [=]; subst; reflexivity).
Qed.

Ltac no_model := idtac; intros ? ? [= <-] Hs; cbn in Hs; discriminate Hs.

Ltac hunyuan3d_success_end :=
  intros ? ? [= <-] Hs; cbn in Hs;
  first
    [ discriminate Hs
    | injection Hs as <-; read_back; open_recorded;
      do 3 eexists; split; [ reflexivity | ];
      repeat split; try reflexivity; find_action ].

(** A response that carries a model carries the base64 text of the bytes
    that [mesh.export] wrote, and their number. *)
Lemma hunyuan3d_success (event : value) (old : list action) :
  hoare (recorded old []) (handler event)
    (fun r p' =>
       forall response s,
         r = Ok response -> field response "model_base64" = Some (VStr s) ->
         exists new path data,
           actions p' = (new ++ old)%list
           /\ In (Wrote "mesh.export" path data) new
           /\ s = b64encode data
           /\ field response "file_size" = Some (VInt (Z.of_nat (length data)))).
Proof.
  unfold handler, handler_body.
  advance fail no_model.
  all: apply hoare_wp; intros ? ?;
    symex ltac:(first [ recorded_end | hunyuan3d_success_end ]).
Qed.

(** A response is an error or a model. *)
Lemma hunyuan3d_response_shape (event : value) :
  returns (fun response => is_error response \/ is_model response) (handler event).
Proof.
  unfold handler, handler_body, is_error, is_model.
  to_returns ltac:(
    first [ left; eexists; reflexivity
          | right; do 4 eexists; split_all; first [ reflexivity | lia ] ]).
Qed.

(** What [load_models] returns: the shape pipeline, loaded, and the paint
    pipeline, loaded when textures are asked for. *)
Lemma hunyuan3d_load_models_loaded (generate_texture : value) (n : Z)
    (p : process globals_t) :
  wp (load_models generate_texture n)
     (fun r p' =>
        forall pipes, r = Ok pipes ->
          pipes = (shape_pipeline (globals p'), paint_pipeline (globals p'))
          /\ (exists s, fst pipes = Some s)
          /\ (truthy generate_texture = true -> exists t, snd pipes = Some t))
     p.
Proof.
  symex ltac:(
    intros ? Hr;
    first
      [ discriminate Hr
      | injection Hr as <-; cbn [fst snd]; split_all;
        [ reflexivity
        | eexists; first [ reflexivity | eassumption ]
        | intros Ht;
          first
            [ eexists; reflexivity
            | match goal with
              | Hb : truthy _ && _ = false |- _ =>
                  rewrite Ht in Hb; cbn in Hb;
                  destruct (paint_pipeline (globals p));
                  [ eexists; reflexivity | discriminate Hb ]
              end ] ] ]).
Qed.

Lemma hunyuan3d_load_models_returns (generate_texture : value) (n : Z) :
  returns
    (fun pipes =>
       (exists s, fst pipes = Some s)
       /\ (truthy generate_texture = true -> exists t, snd pipes = Some t))
    (load_models generate_texture n).
Proof.
  intros p pipes Hp.
  pose proof (hunyuan3d_load_models_loaded generate_texture n p) as Hw.
  unfold wp in Hw. destruct (Hw pipes Hp) as (_ & Hs & Ht). auto.
Qed.

(** Two files removed one after the other are both gone. *)
Lemma removed_both (m : gmap string (list byte)) (a b : string) :
  delete b (delete a m) !! a = None /\ delete b (delete a m) !! b = None.
Proof.
  split; [|apply lookup_delete_eq].
  destruct (decide (b = a)) as [-> | Hne]; [apply lookup_delete_eq|].
  rewrite lookup_delete_ne by exact Hne. apply lookup_delete_eq.
Qed.

Ltac hunyuan3d_switch :=
  idtac;
  lazymatch goal with
  | |- hoare _ (bind (write_file "image.save" _ _) _) _ =>
      eapply hoare_bind;
      [ apply recorded_write
      | intros ?; cbv beta iota
      | intros ? ? ?; cbv beta iota; forget ]
  | |- @hoare ?P ?G _ (@recorded _ _ ?old ?cs) (bind (load_models ?gt ?n) _) _ =>
      apply (hoare_bind_inv_strong _
               (fun pipes =>
                  (exists s, fst pipes = Some s)
                  /\ (truthy gt = true -> exists t, snd pipes = Some t)));
      [ walk (@recorded_on_actions P G old cs) fail ltac:(apply recorded_allows)
      | apply hunyuan3d_load_models_returns
      | intros ? ?
      | intros ? ? ?; cbv beta iota; forget ]
  | |- hoare _ (bind (match snd ?x with _ => _ end) _) _ => destruct (snd x) eqn:?
  | |- hoare _ (bind (if truthy ?g then _ else _) _) _ => destruct (truthy g) eqn:?
  | |- hoare _ (bind (bind get_process _) _) _ =>
      eapply hoare_bind;
      [ apply recorded_call_reading
      | intros ?; cbv beta iota
      | intros ? ? ?; cbv beta iota; forget ]
  end.

Ltac textured_end :=
  intros Ht;
  first
    [ solve [find_action]
    | congruence
    | match goal with
      | Hp : _ /\ (truthy _ = true -> _) |- _ =>
          destruct Hp as [_ Hp]; destruct (Hp Ht) as [? ?]; congruence
      end ].

Ltac hunyuan3d_files_end :=
  intros ? ? [= <-] Hs; cbn in Hs;
  first
    [ discriminate Hs
    | injection Hs as <-; read_back; open_recorded;
      do 7 eexists; split; [ reflexivity | ];
      split_all;
      first [ eassumption
            | solve [find_action]
            | cbn [files]; apply removed_both
            | reflexivity
            | solve [textured_end] ] ].

(** A response that carries a model: the image was saved to a file and the
    mesh exported to another, both were removed, the response echoes
    [generate_texture], and the paint pipeline was called when that is
    truthy. *)
Lemma hunyuan3d_success_files (event : value) (old : list action) :
  hoare (recorded old []) (handler event)
    (fun r p' =>
       forall response s,
         r = Ok response -> field response "model_base64" = Some (VStr s) ->
         exists new input_data gt png_path png path data,
           actions p' = (new ++ old)%list
           /\ py_get event "input" (VDict []) = Ok input_data
           /\ py_get input_data "generate_texture" (VBool true) = Ok gt
           /\ In (Wrote "image.save" png_path png) new
           /\ In (Wrote "mesh.export" path data) new
           /\ In (Removed png_path) new
           /\ In (Removed path) new
           /\ files p' !! png_path = None
           /\ files p' !! path = None
           /\ field response "textured" = Some gt
           /\ (truthy gt = true -> In (Call "paint_pipe" [VStr png_path]) new)).
Proof.
  unfold handler, handler_body.
  advance hunyuan3d_switch no_model.
  all: apply hoare_wp; intros ? ?;
    symex ltac:(first [ recorded_end | hunyuan3d_files_end ]).
Qed.

Ltac switched_off Hf :=
  apply logged_allows;
  first
    [ reflexivity
    | exfalso;
      first
        [ congruence
        | match goal with
          | Hb : truthy _ && _ = true |- _ => rewrite Hf in Hb; discriminate Hb
          end ] ].

(** With a falsy [generate_texture] the paint pipeline is neither loaded
    nor called. *)
Lemma hunyuan3d_no_texture (event input_data gt : value) (old : list action) :
  py_get event "input" (VDict []) = Ok input_data ->
  py_get input_data "generate_texture" (VBool true) = Ok gt ->
  truthy gt = false ->
  preserves (logged old (not_calling paint_calls)) (handler event).
Proof.
  intros Hin Hgt Hf.
  walk (logged_on_actions (G:=globals_t) old (not_calling paint_calls))
       fail
       ltac:(switched_off Hf).
Qed.

(** With a falsy [remove_background], [rembg] is neither imported nor
    called. *)
Lemma hunyuan3d_no_rembg (event input_data rb : value) (old : list action) :
  py_get event "input" (VDict []) = Ok input_data ->
  py_get input_data "remove_background" (VBool true) = Ok rb ->
  truthy rb = false ->
  preserves (logged old (not_calling rembg_calls)) (handler event).
Proof.
  intros Hin Hrb Hf.
  walk (logged_on_actions (G:=globals_t) old (not_calling rembg_calls))
       fail
       ltac:(switched_off Hf).
Qed.

(** A run adds to the record of actions, and takes nothing from it. *)
Lemma hunyuan3d_actions_grow (event : value) (old : list action) :
  preserves (logged old (fun _ => True)) (handler event).
Proof.
  walk (logged_on_actions (G:=globals_t) old (fun _ => True))
       fail
       ltac:(apply logged_allows; exact I).
Qed.


End Hunyuan3DFacts.

(** ** The model singleton *)

Section TripoSRSingleton.
Context `{Interp} `{TripoSR.Libs}.
Import TripoSR.








End TripoSRSingleton.

Section SF3DSingleton.
Context `{Interp} `{SF3D.Libs}.
Import SF3D.




(** A loaded model stays through [load_model]. *)
Lemma sf3d_load_model_keeps (h : obj) :
  preserves (fun p => model (globals p) = Some h) load_model.
Proof.
  apply hoare_wp. intros p Hp.
  symex ltac:(first [ assumption | congruence ]).
Qed.

(** A loaded model stays through [handler]: nothing unloads it. *)
Lemma sf3d_handler_keeps (event : value) (h : obj) :
  preserves (fun p => model (globals p) = Some h) (handler event).
Proof.
  assert (HG : on_globals (G:=globals_t) (fun p => model (globals p) = Some h))
    by (intros p q Heq Hp; now rewrite <- Heq).
  walk_globals HG ltac:(apply sf3d_load_model_keeps)
    ltac:(intros p q Hq _ Hp; rewrite Hq; exact Hp).
Qed.





End SF3DSingleton.

Section Hunyuan3DSingleton.
Context `{Interp} `{Hunyuan3D.Libs}.
Import Hunyuan3D.

(** With the shape pipeline loaded, and the paint pipeline loaded or not
    asked for, [load_models] returns the two globals and nothing else
    happens. *)
Lemma hunyuan3d_load_models_cached (generate_texture : value) (n : Z)
    (p : process globals_t) (s : obj) :
  shape_pipeline (globals p) = Some s ->
  truthy generate_texture = false \/ (exists t, paint_pipeline (globals p) = Some t) ->
  load_models generate_texture n p = (Ok (Some s, paint_pipeline (globals p)), p).
Proof.
  intros Hs Hp. unfold load_models, bind, get_globals, ret. cbn.
  rewrite Hs. cbn.
  destruct Hp as [Hf | [t Ht]].
  - rewrite Hf. cbn. now rewrite Hs.
  - rewrite Ht, andb_false_r. cbn. now rewrite Hs, Ht.
Qed.

Lemma hunyuan3d_warm_framed (s : obj) old : framed (G:=globals_t) (hunyuan3d_warm s old).
Proof.
  intros p q Hg Ha [Hs Hl]. split; [now rewrite <- Hg|].
  exact (logged_on_actions old no_setenv p q Ha Hl).
Qed.

Lemma hunyuan3d_warm_allows (s : obj) old (a : action) :
  no_setenv a -> allows (G:=globals_t) (hunyuan3d_warm s old) a.
Proof.
  intros Ha p q Hg Hq [Hs Hl]. split; [now rewrite <- Hg|].
  exact (logged_allows old no_setenv a Ha p q Hg Hq Hl).
Qed.

Lemma hunyuan3d_warm_sets (s : obj) old (f : globals_t -> globals_t) :
  (forall g, shape_pipeline (f g) = shape_pipeline g) ->
  sets (G:=globals_t) (hunyuan3d_warm s old) f.
Proof.
  intros Hf p q Hg Ha [Hs Hl]. split; [now rewrite Hg, Hf|].
  exact (logged_on_actions old no_setenv p q Ha Hl).
Qed.

Ltac warm_end :=
  match goal with
  | Hl : logged _ _ _ |- _ =>
      let new := fresh "new" in
      let Hnew := fresh "Hnew" in
      let HQ := fresh "HQ" in
      destruct Hl as (new & Hnew & HQ);
      split;
      [ cbn [globals shape_pipeline]; congruence
      | unfold logged; cbn [actions]; rewrite Hnew, ?app_comm_cons;
        eexists; split; [ reflexivity | ];
        repeat (apply List.Forall_cons; [ exact I | ]); exact HQ ]
  end.

(** With the shape pipeline loaded, [load_models] keeps it and sets no
    environment variable: the profile it is given is not used. *)
Lemma hunyuan3d_load_models_warm (generate_texture : value) (n : Z) (s : obj) old :
  preserves (hunyuan3d_warm s old) (load_models generate_texture n).
Proof.
  apply hoare_wp. intros p [Hs Hl].
  symex ltac:(first [ congruence | warm_end ]).
Qed.

(** The same through a run of the handler. *)
Lemma hunyuan3d_handler_warm (event : value) (s : obj) old :
  preserves (hunyuan3d_warm s old) (handler event).
Proof.
  walk_framed (hunyuan3d_warm_framed s old)
    ltac:(apply hunyuan3d_load_models_warm)
    ltac:(apply hunyuan3d_warm_allows; exact I)
    ltac:(apply hunyuan3d_warm_sets; intros ?; reflexivity).
Qed.

(** *** A run that starts with no pipeline loaded *)

Lemma hunyuan3d_profile_set_start (val : string) (p : process globals_t) :
  shape_pipeline (globals p) = None -> hunyuan3d_profile_set val (actions p) p.
Proof. intros Hc. exists []. split; [reflexivity | congruence]. Qed.

Lemma hunyuan3d_profile_set_framed (val : string) old :
  framed (G:=globals_t) (hunyuan3d_profile_set val old).
Proof.
  intros p q Hg Ha (new & Hnew & Hset). exists new.
  split; [congruence | now rewrite <- Hg].
Qed.

Lemma hunyuan3d_profile_set_allows (val : string) old (a : action) :
  allows (G:=globals_t) (hunyuan3d_profile_set val old) a.
Proof.
  intros p q Hg Hq (new & Hnew & Hset). exists (a :: new).
  split; [rewrite Hq, Hnew; reflexivity|].
  rewrite <- Hg. intros Hne. right. exact (Hset Hne).
Qed.

Lemma hunyuan3d_profile_set_sets (val : string) old (f : globals_t -> globals_t) :
  (forall g, shape_pipeline (f g) = shape_pipeline g) ->
  sets (G:=globals_t) (hunyuan3d_profile_set val old) f.
Proof.
  intros Hf p q Hg Ha (new & Hnew & Hset). exists new.
  split; [congruence | now rewrite Hg, Hf].
Qed.

Lemma hunyuan3d_profile_recorded (val : string) old (p : process globals_t) :
  recorded old [SetEnv "HY3D_PROFILE" val] p -> hunyuan3d_profile_set val old p.
Proof. intros (new & Hnew & Hin & _). exists new. auto. Qed.

Ltac profile_end :=
  idtac;
  match goal with
  | Hnew : actions _ = (_ ++ _)%list, Hset : _ -> In _ _ |- _ =>
      unfold hunyuan3d_profile_set, recorded;
      cbn [actions globals shape_pipeline all_in];
      rewrite Hnew, ?app_comm_cons;
      eexists; split; [ reflexivity | ];
      first [ split; [ | exact I ] | intros ? ];
      cbn [In]; repeat first [ left; reflexivity | right ];
      first [ apply Hset; congruence | exfalso; congruence ]
  end.

(** [load_models], from a state that is cold or has the profile set,
    returns with the profile set. *)
Lemma hunyuan3d_load_models_sets_profile (generate_texture : value) (n : Z) old :
  hoare (hunyuan3d_profile_set (str_of_int n) old) (load_models generate_texture n)
    (fun r => match r with
              | Ok _ => recorded old [SetEnv "HY3D_PROFILE" (str_of_int n)]
              | Raise _ => hunyuan3d_profile_set (str_of_int n) old
              end).
Proof.
  apply hoare_wp. intros p (new & Hnew & Hset).
  symex ltac:(profile_end).
Qed.

Ltac profile_walker :=
  idtac;
  lazymatch goal with
  | |- @preserves ?P ?G _ (@recorded _ _ ?old ?cs) _ =>
      walk (@recorded_on_actions P G old cs) fail ltac:(apply recorded_allows)
  | |- preserves (hunyuan3d_profile_set ?v ?old) _ =>
      walk_framed (hunyuan3d_profile_set_framed v old) fail
        ltac:(apply hunyuan3d_profile_set_allows)
        ltac:(apply hunyuan3d_profile_set_sets; intros ?; reflexivity)
  end.

Ltac profile_leaf :=
  idtac;
  first
    [ assumption
    | apply hunyuan3d_profile_recorded; assumption
    | intros ? ? [= <-] Hs; cbn in Hs; discriminate Hs ].

Ltac profile_switch :=
  idtac;
  lazymatch goal with
  | |- hoare _ (bind (load_models _ _) _) _ =>
      eapply hoare_bind;
      [ apply hunyuan3d_load_models_sets_profile
      | intros ?; cbv beta iota
      | intros ? ? ?; cbv beta iota; profile_leaf ]
  end.

Ltac profile_tail_end :=
  idtac;
  first
    [ apply hunyuan3d_profile_recorded; recorded_end
    | intros ? ? [= <-] Hs; cbn in Hs;
      first
        [ discriminate Hs
        | open_recorded; eexists; split; [ reflexivity | find_action ] ] ].

(** A response that carries a model, from a run that started with no
    pipeline loaded, comes after [HY3D_PROFILE] was set to the validated
    profile. *)
Lemma hunyuan3d_cold_success (event input_data pr : value) (n : Z) old :
  py_get event "input" (VDict []) = Ok input_data ->
  py_get input_data "profile" (VInt 3) = Ok pr ->
  py_int pr = Ok n ->
  hoare (hunyuan3d_profile_set (str_of_int (valid_profile n)) old) (handler event)
    (fun r p' =>
       forall response s,
         r = Ok response -> field response "model_base64" = Some (VStr s) ->
         exists new,
           actions p' = (new ++ old)%list
           /\ In (SetEnv "HY3D_PROFILE" (str_of_int (valid_profile n))) new).
Proof.
  intros Hin Hpr Hn. unfold handler, handler_body.
  advance_by profile_walker profile_switch profile_leaf.
  all: apply hoare_wp; intros ? ?; symex ltac:(profile_tail_end).
Qed.

End Hunyuan3DSingleton.

(** ** The errors of the validation and of the decoding *)

Section BuiltinErrors.
Context `{Interp}.

Lemma py_float_raises (v : value) (e : exn) : py_float v = Raise e -> conversion_error e.
Proof.
  unfold conversion_error. destruct v; cbn; try (intros [= <-]; cbn; tauto).
  - unfold float_of_int. destruct (PrimFloat.eqb _ _); intros [= <-]; cbn; tauto.
  - destruct (float_of_str s); intros [= <-]; cbn; tauto.
Qed.

Lemma py_int_raises (v : value) (e : exn) : py_int v = Raise e -> conversion_error e.
Proof.
  unfold conversion_error. destruct v; cbn; try (intros [= <-]; cbn; tauto).
  - unfold int_of_float. destruct (Prim2SF x); intros [= <-]; cbn; tauto.
  - destruct (int_of_str s); intros [= <-]; cbn; tauto.
Qed.

End BuiltinErrors.

Ltac run_prefix :=
  repeat (cbv beta iota zeta;
          cbn [py_get fst snd globals outside files environ actions negb];
          match goal with
          | H : ?t = _ |- context [?t] => rewrite H
          end);
  cbv beta iota zeta.

Section TripoSRErrors.
Context `{Interp} `{TripoSR.Libs}.
Import TripoSR.

Ltac start p :=
  unfold handler, handler_body, call;
  unfold try_except, bind, pure, now, ret, emit, call_ext;
  destruct (time_time (outside p)) as [? ?]; cbn [snd] in *; run_prefix.

Ltac any_conversion_error Hc :=
  destruct Hc as [Hc | [Hc | Hc]]; rewrite Hc; reflexivity.

Lemma triposr_bad_foreground_ratio (event : value) d (e : exn) (p : process globals_t) :
  py_get event "input" (VDict []) = Ok (VDict d) ->
  py_float (get_or d "foreground_ratio" (VFloat f0_85)) = Raise e ->
  fst (handler event p) = Ok (error_response ("Generation failed: " ++ exn_str e)).
Proof.
  intros Hin He. pose proof (py_float_raises _ _ He) as Hc.
  start p. any_conversion_error Hc.
Qed.

Lemma triposr_bad_mc_resolution (event : value) d (x : float) (e : exn)
    (p : process globals_t) :
  py_get event "input" (VDict []) = Ok (VDict d) ->
  py_float (get_or d "foreground_ratio" (VFloat f0_85)) = Ok x ->
  py_int (get_or d "mc_resolution" (VInt 256)) = Raise e ->
  fst (handler event p) = Ok (error_response ("Generation failed: " ++ exn_str e)).
Proof.
  intros Hin Hx He. pose proof (py_int_raises _ _ He) as Hc.
  start p. any_conversion_error Hc.
Qed.

(** The handler returns: its [except] clauses catch what the body raises. *)
Lemma triposr_handler_total (event : value) (p : process globals_t) :
  exists response, fst (handler event p) = Ok response.
Proof.
  unfold handler, try_except.
  destruct (handler_body event p) as [[r | e] q]; [eexists; reflexivity|].
  destruct (exn_class e); eexists; reflexivity.
Qed.

Lemma triposr_bad_foreground_ratio_quiet (event : value) d (e : exn)
    (p : process globals_t) :
  py_get event "input" (VDict []) = Ok (VDict d) ->
  py_float (get_or d "foreground_ratio" (VFloat f0_85)) = Raise e ->
  actions (snd (handler event p)) = actions p.
Proof.
  intros Hin He. pose proof (py_float_raises _ _ He) as Hc.
  start p. any_conversion_error Hc.
Qed.

Lemma triposr_bad_mc_resolution_quiet (event : value) d (x : float) (e : exn)
    (p : process globals_t) :
  py_get event "input" (VDict []) = Ok (VDict d) ->
  py_float (get_or d "foreground_ratio" (VFloat f0_85)) = Ok x ->
  py_int (get_or d "mc_resolution" (VInt 256)) = Raise e ->
  actions (snd (handler event p)) = actions p.
Proof.
  intros Hin Hx He. pose proof (py_int_raises _ _ He) as Hc.
  start p. any_conversion_error Hc.
Qed.

Lemma triposr_no_image (event : value) d (x : float) (n : Z) (fmt : string)
    (p : process globals_t) :
  py_get event "input" (VDict []) = Ok (VDict d) ->
  py_float (get_or d "foreground_ratio" (VFloat f0_85)) = Ok x ->
  py_int (get_or d "mc_resolution" (VInt 256)) = Ok n ->
  py_lower (get_or d "output_format" (VStr "glb")) = Ok fmt ->
  truthy (get_or d "image" VNone) = false ->
  fst (handler event p) = Ok (error_response no_image_msg).
Proof. intros Hin Hx Hn Hfmt Himg. start p. reflexivity. Qed.



End TripoSRErrors.

Section SF3DErrors.
Context `{Interp} `{SF3D.Libs}.
Import SF3D.

Ltac start p :=
  unfold handler, handler_body, call;
  unfold try_except, bind, pure, now, ret, emit, call_ext;
  destruct (time_time (outside p)) as [? ?]; cbn [snd] in *; run_prefix.

Lemma sf3d_no_image (event : value) d (x : float) (n : Z) (remesh : string)
    (p : process globals_t) :
  py_get event "input" (VDict []) = Ok (VDict d) ->
  py_float (get_or d "foreground_ratio" (VFloat f0_85)) = Ok x ->
  py_int (get_or d "texture_resolution" (VInt 1024)) = Ok n ->
  py_lower (get_or d "remesh_option" (VStr "none")) = Ok remesh ->
  truthy (get_or d "image" VNone) = false ->
  fst (handler event p) = Ok (error_response no_image_msg).
Proof. intros Hin Hx Hn Hre Himg. start p. reflexivity. Qed.



(** The handler returns: its [except] clause catches what the body raises. *)
Lemma sf3d_handler_total (event : value) (p : process globals_t) :
  exists response, fst (handler event p) = Ok response.
Proof.
  unfold handler, try_except.
  destruct (handler_body event p) as [[r | e] q]; [eexists; reflexivity|].
  destruct (contains _ _); eexists; reflexivity.
Qed.

End SF3DErrors.

Section Hunyuan3DErrors.
Context `{Interp} `{Hunyuan3D.Libs}.
Import Hunyuan3D.

Ltac start p :=
  unfold handler, handler_body, call;
  unfold try_except, bind, pure, now, ret, emit, call_ext;
  destruct (time_time (outside p)) as [? ?]; cbn [snd] in *; run_prefix.

Lemma hunyuan3d_no_image (event : value) d (n : Z) (p : process globals_t) :
  py_get event "input" (VDict []) = Ok (VDict d) ->
  py_int (get_or d "profile" (VInt 3)) = Ok n ->
  truthy (get_or d "image" VNone) = false ->
  fst (handler event p) = Ok (error_response no_image_msg).
Proof. intros Hin Hn Himg. start p. reflexivity. Qed.



(** The handler returns: its [except] clause catches what the body raises. *)
Lemma hunyuan3d_handler_total (event : value) (p : process globals_t) :
  exists response, fst (handler event p) = Ok response.
Proof.
  unfold handler, try_except.
  destruct (handler_body event p) as [[r | e] q]; [eexists; reflexivity|].
  destruct (contains _ _); eexists; reflexivity.
Qed.

End Hunyuan3DErrors.

(** ** Requests that are turned down *)

Section BuiltinErrorClasses.
Context `{Interp}.

Lemma py_lower_raises (v : value) (e : exn) :
  py_lower v = Raise e -> exn_class e = AttributeError.
Proof. destruct v; cbn; intros [= <-]; reflexivity. Qed.

End BuiltinErrorClasses.

Section TripoSRRequests.
Context `{Interp} `{TripoSR.Libs}.
Import TripoSR.

Ltac start p :=
  unfold untouched, handler, handler_body, call;
  unfold try_except, bind, pure, now, ret, emit, call_ext;
  destruct (time_time (outside p)) as [? ?]; cbn [snd] in *; run_prefix.

(** An option that does not convert ends the run at once, with the generic
    error. *)
Lemma triposr_options_fail_run (event : value) d (e : exn) (p : process globals_t) :
  py_get event "input" (VDict []) = Ok (VDict d) ->
  triposr_options_fail d e ->
  fst (handler event p) = Ok (error_response ("Generation failed: " ++ exn_str e))
  /\ untouched p (snd (handler event p)).
Proof.
  intros Hin [He | [(x & Hx & He) | (x & n & Hx & Hn & He)]].
  - pose proof (py_float_raises _ _ He) as Hc. start p.
    destruct Hc as [Hc | [Hc | Hc]]; rewrite Hc; cbn; auto.
  - pose proof (py_int_raises _ _ He) as Hc. start p.
    destruct Hc as [Hc | [Hc | Hc]]; rewrite Hc; cbn; auto.
  - pose proof (py_lower_raises _ _ He) as Hc. start p. cbn; auto.
Qed.

(** A request with no image changes nothing. *)
Lemma triposr_no_image_untouched (event : value) d (p : process globals_t) :
  py_get event "input" (VDict []) = Ok (VDict d) ->
  triposr_options_convert d ->
  truthy (get_or d "image" VNone) = false ->
  untouched p (snd (handler event p)).
Proof.
  intros Hin (x & n & fmt & Hx & Hn & Hfmt) Himg. start p. cbn; auto.
Qed.

(** An image that does not decode ends the run before any other call. *)
Lemma triposr_bad_image_state (event : value) d (e : exn) (p : process globals_t) :
  py_get event "input" (VDict []) = Ok (VDict d) ->
  triposr_options_convert d ->
  truthy (get_or d "image" VNone) = true ->
  decode_fails (get_or d "image" VNone) (snd (time_time (outside p))) e ->
  let q := snd (handler event p) in
  globals q = globals p /\ files q = files p /\ environ q = environ p
  /\ (actions q = actions p \/ actions q = Call "Image.open" [] :: actions p).
Proof.
  intros Hin (x & n & fmt & Hx & Hn & Hfmt) Himg [He | (data & Hdata & He)]; cbv zeta.
  - start p. cbn; auto.
  - start p.
    match goal with
    | |- context [Image_open data ?w] => destruct (Image_open data w) as [r w']
    end.
    cbn [fst] in He. subst r. cbn; auto.
Qed.

(** An ['input'] that is no dict ends the run at the first [.get]. *)
Lemma triposr_input_not_dict (event input_data : value) (e : exn)
    (p : process globals_t) :
  py_get event "input" (VDict []) = Ok input_data ->
  py_get input_data "image" VNone = Raise e ->
  exn_class e = AttributeError ->
  fst (handler event p) = Ok (error_response ("Generation failed: " ++ exn_str e))
  /\ untouched p (snd (handler event p)).
Proof. intros Hin He Hc. start p. cbn; auto. Qed.

End TripoSRRequests.

Section SF3DRequests.
Context `{Interp} `{SF3D.Libs}.
Import SF3D.

Ltac start p :=
  unfold untouched, except_response, says_out_of_memory, handler, handler_body, call;
  unfold try_except, bind, pure, now, ret, emit, call_ext;
  destruct (time_time (outside p)) as [? ?]; cbn [snd] in *; run_prefix.

Lemma sf3d_options_fail_run (event : value) d (e : exn) (p : process globals_t) :
  py_get event "input" (VDict []) = Ok (VDict d) ->
  sf3d_options_fail d e ->
  fst (handler event p) = Ok (except_response oom_msg e)
  /\ untouched p (snd (handler event p)).
Proof.
  intros Hin [He | [(x & Hx & He) | (x & n & Hx & Hn & He)]];
    start p; destruct (contains _ _); cbn; auto.
Qed.

Lemma sf3d_no_image_untouched (event : value) d (p : process globals_t) :
  py_get event "input" (VDict []) = Ok (VDict d) ->
  sf3d_options_convert d ->
  truthy (get_or d "image" VNone) = false ->
  untouched p (snd (handler event p)).
Proof.
  intros Hin (x & n & fmt & Hx & Hn & Hfmt) Himg. start p. cbn; auto.
Qed.

(** An image that does not decode ends the run before any other call. *)
Lemma sf3d_bad_image_state (event : value) d (e : exn) (p : process globals_t) :
  py_get event "input" (VDict []) = Ok (VDict d) ->
  sf3d_options_convert d ->
  truthy (get_or d "image" VNone) = true ->
  decode_fails (get_or d "image" VNone) (snd (time_time (outside p))) e ->
  let q := snd (handler event p) in
  globals q = globals p /\ files q = files p /\ environ q = environ p
  /\ (actions q = actions p \/ actions q = Call "Image.open" [] :: actions p).
Proof.
  intros Hin (x & n & fmt & Hx & Hn & Hfmt) Himg [He | (data & Hdata & He)]; cbv zeta.
  - start p. cbn; auto.
  - start p.
    match goal with
    | |- context [Image_open data ?w] => destruct (Image_open data w) as [r w']
    end.
    cbn [fst] in He. subst r. cbn; auto.
Qed.

Lemma sf3d_input_not_dict (event input_data : value) (e : exn)
    (p : process globals_t) :
  py_get event "input" (VDict []) = Ok input_data ->
  py_get input_data "image" VNone = Raise e ->
  fst (handler event p) = Ok (except_response oom_msg e)
  /\ untouched p (snd (handler event p)).
Proof. intros Hin He. start p. destruct (contains _ _); cbn; auto. Qed.

End SF3DRequests.

Section Hunyuan3DRequests.
Context `{Interp} `{Hunyuan3D.Libs}.
Import Hunyuan3D.

Ltac start p :=
  unfold untouched, except_response, says_out_of_memory, handler, handler_body, call;
  unfold try_except, bind, pure, now, ret, emit, call_ext;
  destruct (time_time (outside p)) as [? ?]; cbn [snd] in *; run_prefix.

Lemma hunyuan3d_options_fail_run (event : value) d (e : exn) (p : process globals_t) :
  py_get event "input" (VDict []) = Ok (VDict d) ->
  hunyuan3d_options_fail d e ->
  fst (handler event p) = Ok (except_response oom_msg e)
  /\ untouched p (snd (handler event p)).
Proof.
  intros Hin He; unfold hunyuan3d_options_fail in He;
    start p; destruct (contains _ _); cbn; auto.
Qed.

Lemma hunyuan3d_no_image_untouched (event : value) d (p : process globals_t) :
  py_get event "input" (VDict []) = Ok (VDict d) ->
  hunyuan3d_options_convert d ->
  truthy (get_or d "image" VNone) = false ->
  untouched p (snd (handler event p)).
Proof.
  intros Hin (n & Hn) Himg. start p. cbn; auto.
Qed.

(** An image that does not decode ends the run before any other call. *)
Lemma hunyuan3d_bad_image_state (event : value) d (e : exn) (p : process globals_t) :
  py_get event "input" (VDict []) = Ok (VDict d) ->
  hunyuan3d_options_convert d ->
  truthy (get_or d "image" VNone) = true ->
  decode_fails (get_or d "image" VNone) (snd (time_time (outside p))) e ->
  let q := snd (handler event p) in
  globals q = globals p /\ files q = files p /\ environ q = environ p
  /\ (actions q = actions p \/ actions q = Call "Image.open" [] :: actions p).
Proof.
  intros Hin (n & Hn) Himg [He | (data & Hdata & He)]; cbv zeta.
  - start p. cbn; auto.
  - start p.
    match goal with
    | |- context [Image_open data ?w] => destruct (Image_open data w) as [r w']
    end.
    cbn [fst] in He. subst r. cbn; auto.
Qed.

Lemma hunyuan3d_input_not_dict (event input_data : value) (e : exn)
    (p : process globals_t) :
  py_get event "input" (VDict []) = Ok input_data ->
  py_get input_data "image" VNone = Raise e ->
  fst (handler event p) = Ok (except_response oom_msg e)
  /\ untouched p (snd (handler event p)).
Proof. intros Hin He. start p. destruct (contains _ _); cbn; auto. Qed.

End Hunyuan3DRequests.

(** ** The validated options *)

(** What the [if] on [foreground_ratio] leaves is never below 0.5, never
    above 1.0 and never zero, whatever the float it is given. *)
Lemma triposr_valid_ratio_bounds (x : float) :
  PrimFloat.ltb (TripoSR.valid_foreground_ratio x) f0_5 = false
  /\ PrimFloat.ltb f1_0 (TripoSR.valid_foreground_ratio x) = false
  /\ PrimFloat.eqb (TripoSR.valid_foreground_ratio x) 0%float = false.
Proof.
  assert (Hb : PrimFloat.ltb (TripoSR.valid_foreground_ratio x) f0_5 = false
               /\ PrimFloat.ltb f1_0 (TripoSR.valid_foreground_ratio x) = false).
  { unfold TripoSR.valid_foreground_ratio.
    destruct (PrimFloat.ltb x f0_5) eqn:E1; [split; vm_compute; reflexivity|].
    destruct (PrimFloat.ltb f1_0 x) eqn:E2; [split; vm_compute; reflexivity|].
    cbn. auto. }
  destruct Hb as [H1 H2]. split_all; auto.
  destruct (PrimFloat.eqb _ _) eqn:E; [|reflexivity].
  apply zero_ltb_half in E. congruence.
Qed.

Lemma sf3d_valid_ratio_bounds (x : float) :
  PrimFloat.ltb (SF3D.valid_foreground_ratio x) f0_5 = false
  /\ PrimFloat.ltb f1_0 (SF3D.valid_foreground_ratio x) = false
  /\ PrimFloat.eqb (SF3D.valid_foreground_ratio x) 0%float = false.
Proof. exact (triposr_valid_ratio_bounds x). Qed.

(** * The claims *)

(** ** Validation of the options *)

(** The [if] on [foreground_ratio], on every float that is a number: a ratio
    in [0.5, 1.0] is kept, any other one becomes 0.85. *)
Lemma foreground_ratio_reset_unless_nan (x : float) :
  Prim2SF x <> S754_nan ->
  (PrimFloat.leb f0_5 x && PrimFloat.leb x f1_0 = true ->
   TripoSR.valid_foreground_ratio x = x /\ SF3D.valid_foreground_ratio x = x)
  /\ (PrimFloat.leb f0_5 x && PrimFloat.leb x f1_0 = false ->
      TripoSR.valid_foreground_ratio x = f0_85 /\ SF3D.valid_foreground_ratio x = f0_85).
Proof.
  intros Hx.
  assert (H5 : Prim2SF f0_5 <> S754_nan) by (vm_compute; discriminate).
  assert (H1 : Prim2SF f1_0 <> S754_nan) by (vm_compute; discriminate).
  unfold TripoSR.valid_foreground_ratio, SF3D.valid_foreground_ratio.
  rewrite (leb_not_ltb f0_5 x H5 Hx), (leb_not_ltb x f1_0 Hx H1).
  destruct (PrimFloat.ltb x f0_5), (PrimFloat.ltb f1_0 x); cbn; split; intros; try discriminate; auto.
Qed.

(** Every call of [resize_foreground] in a run of the TripoSR or of the SF3D
    handler gets the ratio that the [if] leaves. *)
Lemma foreground_ratio_passed_on `{Interp} `{Platform} {T : TripoSR.Libs} {S : SF3D.Libs}
    (event : value) d (x : float) :
  py_get event "input" (VDict []) = Ok (VDict d) ->
  py_float (get_or d "foreground_ratio" (VFloat f0_85)) = Ok x ->
  (forall p, exists new,
      actions (snd (TripoSR.handler event p)) = (new ++ actions p)%list
      /\ forall args, In (Call "resize_foreground" args) new ->
                      args = [VFloat (TripoSR.valid_foreground_ratio x)])
  /\ (forall p, exists new,
      actions (snd (SF3D.handler event p)) = (new ++ actions p)%list
      /\ forall args, In (Call "resize_foreground" args) new ->
                      args = [VFloat (SF3D.valid_foreground_ratio x)]).
Proof.
  intros Hin Hx. split; intros p.
  - destruct (triposr_resizes_with event (VDict d) _ x (actions p) Hin eq_refl Hx p
                (logged_start _ p)) as (new & Hnew & HQ).
    exists new. split; [exact Hnew|]. intros args Hargs.
    rewrite List.Forall_forall in HQ. symmetry. exact (HQ _ Hargs args eq_refl).
  - destruct (sf3d_resizes_with event (VDict d) _ x (actions p) Hin eq_refl Hx p
                (logged_start _ p)) as (new & Hnew & HQ).
    exists new. split; [exact Hnew|]. intros args Hargs.
    rewrite List.Forall_forall in HQ. symmetry. exact (HQ _ Hargs args eq_refl).
Qed.

(** C1 (the code departs from the claim at NaN).  [float("nan")] is a
    float outside [0.5, 1.0], and both comparisons of the [if] are false on
    it: the TripoSR and SF3D handlers resize the foreground with NaN, not
    with 0.85, and the SF3D run ends in the generic error when
    [resize_foreground] converts [max(old_size) / NaN] to an int. *)
Theorem foreground_ratio_nan_is_used :
  Sample.to_float (VStr "nan") = Ok nan
  /\ PrimFloat.leb f0_5 nan && PrimFloat.leb nan f1_0 = false
  /\ TripoSR.valid_foreground_ratio nan = nan
  /\ SF3D.valid_foreground_ratio nan = nan
  /\ Prim2SF nan = S754_nan
  /\ Prim2SF f0_85 = S754_finite false 7656119366529843 (-53)
  /\ In (Call "resize_foreground" [VFloat nan])
        (actions (snd (Sample.triposr Sample.nan_job)))
  /\ In (Call "resize_foreground" [VFloat nan])
        (actions (snd (Sample.sf3d Sample.nan_job)))
  /\ fst (Sample.sf3d Sample.nan_job)
     = Ok (error_response "Generation failed: cannot convert float NaN to integer").
Proof.
  split_all; evaluate.
Qed.

(** C2.  For a request whose [mc_resolution] converts to the int [n], the
    TripoSR handler extracts the mesh at [r], which is [n] when [n] is 128,
    256 or 512 and 256 otherwise: the handler returns a response, every
    call of [tsr.extract_mesh] in the run has [resolution = r], and the
    response is an error, or it is a model and the mesh was extracted at
    [r]. *)
Theorem mc_resolution_validated `{Interp} `{TripoSR.Libs} (event : value) d (n : Z)
    (p : process TripoSR.globals_t) :
  py_get event "input" (VDict []) = Ok (VDict d) ->
  py_int (get_or d "mc_resolution" (VInt 256)) = Ok n ->
  exists new r response,
    actions (snd (TripoSR.handler event p)) = (new ++ actions p)%list
    /\ fst (TripoSR.handler event p) = Ok response
    /\ r = TripoSR.valid_mc_resolution n
    /\ (n = 128 \/ n = 256 \/ n = 512 -> r = n)
    /\ (n <> 128 -> n <> 256 -> n <> 512 -> r = 256)
    /\ (forall args, In (Call "tsr.extract_mesh" args) new -> args = [VBool true; VInt r])
    /\ (is_error response
        \/ is_model response /\ In (Call "tsr.extract_mesh" [VBool true; VInt r]) new).
Proof.
  intros Hin Hn.
  destruct (triposr_extracts_at event (VDict d) _ n (actions p) Hin eq_refl Hn p
              (logged_start _ p)) as (new & Hnew & HQ).
  destruct (triposr_handler_total event p) as [response Hr].
  exists new, (TripoSR.valid_mc_resolution n), response.
  split; [exact Hnew|]. split; [exact Hr|]. split; [reflexivity|].
  split; [|split; [|split]].
  - unfold TripoSR.valid_mc_resolution. intros [-> | [-> | ->]]; reflexivity.
  - intros H128 H256 H512. unfold TripoSR.valid_mc_resolution, int_in. cbn.
    destruct (Z.eqb_spec n 128); [congruence|].
    destruct (Z.eqb_spec n 256); [congruence|].
    destruct (Z.eqb_spec n 512); [congruence|]. reflexivity.
  - intros args Hargs. rewrite List.Forall_forall in HQ. symmetry.
    exact (HQ _ Hargs args eq_refl).
  - destruct (triposr_response_shape event p response Hr) as [Herr | Hmodel];
      [left; exact Herr | right].
    split; [exact Hmodel|].
    destruct Hmodel as (s & _ & _ & _ & Hs & _).
    destruct (triposr_success event (actions p) p (recorded_start p) response s Hr Hs)
      as (new' & input' & fr' & x' & mc' & n' & path & data & Hnew' & Hin' & _ & _
          & Hmc' & Hn' & _ & Hcall & _).
    rewrite Hin in Hin'. injection Hin' as <-. cbn in Hmc'. injection Hmc' as <-.
    rewrite Hn in Hn'. injection Hn' as <-.
    rewrite Hnew in Hnew'. apply app_inv_tail in Hnew'. subst new'. exact Hcall.
Qed.

Lemma mc_resolution_validated_witness :
  exists new,
    actions (snd (Sample.triposr Sample.odd_resolution_job))
    = (new ++ actions Sample.triposr_start)%list
    /\ (forall args, In (Call "tsr.extract_mesh" args) new ->
        args = [VBool true; VInt 256])
    /\ In (Call "tsr.extract_mesh" [VBool true; VInt 256]) new.
Proof.
  destruct (@mc_resolution_validated Sample.sample_interp Sample.sample_platform
              Sample.triposr_libs Sample.odd_resolution_job
              [("image", VStr Sample.png_b64); ("mc_resolution", VInt 300)] 300
              Sample.triposr_start eq_refl eq_refl)
    as (new & r & response & Hnew & Hr & Hv & _ & _ & Hargs & Hlive).
  assert (E : r = 256) by (rewrite Hv; reflexivity).
  rewrite E in Hargs, Hlive.
  exists new. split; [exact Hnew|]. split; [exact Hargs|].
  destruct Hlive as [[msg Herr] | [_ Hcall]]; [|exact Hcall].
  exfalso. rewrite Herr in Hr. vm_compute in Hr. discriminate Hr.
Defined.

(** The run of the witness: the mesh is extracted at 256. *)
Example mc_resolution_300_run :
  In (Call "tsr.extract_mesh" [VBool true; VInt 256])
     (actions (snd (Sample.triposr Sample.odd_resolution_job)))
  /\ exists s, field (Sample.response (Sample.triposr Sample.odd_resolution_job))
                  "model_base64" = Some (VStr s).
Proof.
  split; [evaluate|]. eexists. vm_compute. reflexivity.
Qed.

(** ** Errors *)




(** Two runs of the second case: [base64.b64decode] raises on two data
    characters with no padding, and text with no character of the alphabet
    decodes to no byte, which [Image.open] refuses. *)
Example image_errors_bad_base64_run :
  fst (Sample.triposr Sample.bad_base64_job)
  = Ok (error_response "Failed to decode image: Incorrect padding")
  /\ fst (Sample.triposr Sample.no_base64_job)
     = Ok (error_response "Failed to decode image: cannot identify image file").
Proof. split; vm_compute; reflexivity. Qed.

(** C4, as the claim states it, fails: in the SF3D handler a [ValueError]
    of [float()], which is no out-of-memory failure, gets the special-cased
    message when its text holds "out of memory", and the error field does
    not contain [str(e)]. *)
Lemma oom_message_for_value_error :
  fst (Sample.sf3d_body Sample.memory_text_job)
  = Raise (mk_exn ValueError "could not convert string to float: 'out of memory'")
  /\ fst (Sample.sf3d Sample.memory_text_job) = Ok (error_response SF3D.oom_msg)
  /\ contains "could not convert string to float: 'out of memory'" SF3D.oom_msg = false.
Proof. split_all; evaluate. Qed.

(** C4, amended.  Each of the three handlers returns for every event and
    every state: the result of the body when the body returns, and otherwise
    a dict whose ['error'] field is a string.  For an exception [e] of the
    body that string is the special-cased message exactly when, in the
    TripoSR handler, [e] is a [torch.cuda.OutOfMemoryError], and in the SF3D
    and Hunyuan3D-2 handlers, [str(e).lower()] contains "out of memory"; it
    is ["Generation failed: " + str(e)] otherwise. *)
Theorem exceptions_become_errors `{Interp} `{Platform} {T : TripoSR.Libs}
    {S : SF3D.Libs} {Y : Hunyuan3D.Libs} (event : value) :
  (forall p : process TripoSR.globals_t, exists response,
     fst (TripoSR.handler event p) = Ok response
     /\ match fst (TripoSR.handler_body event p) with
        | Ok r => response = r
        | Raise e =>
            response = error_response
              (if is_cuda_oom e then TripoSR.oom_msg
               else "Generation failed: " ++ exn_str e)
            /\ exists msg, field response "error" = Some (VStr msg)
        end)
  /\ (forall p : process SF3D.globals_t, exists response,
     fst (SF3D.handler event p) = Ok response
     /\ match fst (SF3D.handler_body event p) with
        | Ok r => response = r
        | Raise e =>
            response = error_response
              (if says_out_of_memory e then SF3D.oom_msg
               else "Generation failed: " ++ exn_str e)
            /\ exists msg, field response "error" = Some (VStr msg)
        end)
  /\ (forall p : process Hunyuan3D.globals_t, exists response,
     fst (Hunyuan3D.handler event p) = Ok response
     /\ match fst (Hunyuan3D.handler_body event p) with
        | Ok r => response = r
        | Raise e =>
            response = error_response
              (if says_out_of_memory e then Hunyuan3D.oom_msg
               else "Generation failed: " ++ exn_str e)
            /\ exists msg, field response "error" = Some (VStr msg)
        end).
Proof.
  split_all; intros p.
  - unfold TripoSR.handler, try_except, is_cuda_oom.
    destruct (TripoSR.handler_body event p) as [[r | e] q]; cbn [fst].
    + eauto.
    + destruct (exn_class e); cbn [ret fst]; eexists; (split; [reflexivity |]);
        (split; [reflexivity | eexists; reflexivity]).
  - unfold SF3D.handler, try_except, says_out_of_memory.
    destruct (SF3D.handler_body event p) as [[r | e] q]; cbn [fst].
    + eauto.
    + destruct (contains _ _); cbn [ret fst]; eexists; (split; [reflexivity |]);
        (split; [reflexivity | eexists; reflexivity]).
  - unfold Hunyuan3D.handler, try_except, says_out_of_memory.
    destruct (Hunyuan3D.handler_body event p) as [[r | e] q]; cbn [fst].
    + eauto.
    + destruct (contains _ _); cbn [ret fst]; eexists; (split; [reflexivity |]);
        (split; [reflexivity | eexists; reflexivity]).
Qed.

(** C10.  In the TripoSR handler the conversion of the numeric options
    precedes the test of the image: when [float()] raises [e] on
    [foreground_ratio], or [foreground_ratio] converts and [int()] raises
    [e] on [mc_resolution], the handler returns the generic error
    ["Generation failed: " + str(e)] whatever the image is, also when it is
    missing; that error is not the error for a missing image, and nothing
    is run: no default is applied and no library is called. *)
Theorem conversion_precedes_image_check `{Interp} `{Platform} {T : TripoSR.Libs}
    (event : value) d (e : exn) (p : process TripoSR.globals_t) :
  py_get event "input" (VDict []) = Ok (VDict d) ->
  py_float (get_or d "foreground_ratio" (VFloat f0_85)) = Raise e
  \/ (exists x, py_float (get_or d "foreground_ratio" (VFloat f0_85)) = Ok x)
     /\ py_int (get_or d "mc_resolution" (VInt 256)) = Raise e ->
  fst (TripoSR.handler event p)
  = Ok (error_response ("Generation failed: " ++ exn_str e))
  /\ String.eqb ("Generation failed: " ++ exn_str e) no_image_msg = false
  /\ actions (snd (TripoSR.handler event p)) = actions p.
Proof.
  intros Hin Hbad. split_all.
  - destruct Hbad as [He | [[x Hx] He]].
    + exact (triposr_bad_foreground_ratio event d e p Hin He).
    + exact (triposr_bad_mc_resolution event d x e p Hin Hx He).
  - reflexivity.
  - destruct Hbad as [He | [[x Hx] He]].
    + exact (triposr_bad_foreground_ratio_quiet event d e p Hin He).
    + exact (triposr_bad_mc_resolution_quiet event d x e p Hin Hx He).
Qed.

Lemma conversion_precedes_image_check_witness :
  truthy (get_or [("foreground_ratio", VStr "abc")] "image" VNone) = false
  /\ fst (Sample.triposr Sample.text_ratio_job)
     = Ok (error_response "Generation failed: could not convert string to float: 'abc'").
Proof.
  split; [reflexivity |].
  apply (@conversion_precedes_image_check Sample.sample_interp Sample.sample_platform
           Sample.triposr_libs Sample.text_ratio_job
           [("foreground_ratio", VStr "abc")]
           (mk_exn ValueError "could not convert string to float: 'abc'")
           Sample.triposr_start).
  - reflexivity.
  - left. reflexivity.
Defined.

(** ** Options of the SF3D and Hunyuan3D-2 handlers *)

(** C7.  For a request to the Hunyuan3D-2 handler whose [profile] converts
    to the int [n], the profile the models are loaded with is
    [r = max(1, min(5, n))]: it lies in [1, 5], is 1 for [n] below 1, 5 for
    [n] above 5 and [n] itself in between (3, the default, stays 3).  The
    handler returns a response; every value the run gives to
    [HY3D_PROFILE] is [str(r)]; from a state with no shape pipeline loaded
    the response is an error, or it is a model and the run has set
    [HY3D_PROFILE] to [str(r)] before loading; and with the shape pipeline
    already loaded nothing is loaded anew and the variable is not set. *)
Theorem profile_clamped `{Interp} `{Hunyuan3D.Libs} (event : value) d (n : Z)
    (p : process Hunyuan3D.globals_t) :
  py_get event "input" (VDict []) = Ok (VDict d) ->
  py_int (get_or d "profile" (VInt 3)) = Ok n ->
  exists new r response,
    actions (snd (Hunyuan3D.handler event p)) = (new ++ actions p)%list
    /\ fst (Hunyuan3D.handler event p) = Ok response
    /\ r = Hunyuan3D.valid_profile n
    /\ 1 <= r <= 5
    /\ (n < 1 -> r = 1)
    /\ (5 < n -> r = 5)
    /\ (1 <= n <= 5 -> r = n)
    /\ Hunyuan3D.valid_profile 3 = 3
    /\ (forall val, In (SetEnv "HY3D_PROFILE" val) new -> val = str_of_int r)
    /\ (Hunyuan3D.shape_pipeline (globals p) = None ->
        is_error response
        \/ is_model response /\ In (SetEnv "HY3D_PROFILE" (str_of_int r)) new)
    /\ (forall s, Hunyuan3D.shape_pipeline (globals p) = Some s ->
        Forall no_setenv new).
Proof.
  intros Hin Hn.
  destruct (hunyuan3d_sets_profile event (VDict d) _ n (actions p) Hin eq_refl Hn p
              (logged_start _ p)) as (new & Hnew & HQ).
  destruct (hunyuan3d_handler_total event p) as [response Hr].
  exists new, (Hunyuan3D.valid_profile n), response.
  split; [exact Hnew|]. split; [exact Hr|]. split; [reflexivity|].
  split_all; try (unfold Hunyuan3D.valid_profile; lia).
  - intros val Hval. rewrite List.Forall_forall in HQ. symmetry.
    exact (HQ _ Hval val eq_refl).
  - intros Hcold.
    destruct (hunyuan3d_response_shape event p response Hr) as [Herr | Hmodel];
      [left; exact Herr | right].
    split; [exact Hmodel|].
    destruct Hmodel as (s & _ & _ & _ & Hs & _).
    destruct (hunyuan3d_cold_success event (VDict d) _ n (actions p) Hin eq_refl Hn p
                (hunyuan3d_profile_set_start _ p Hcold) response s Hr Hs)
      as (new' & Hnew' & Hset).
    rewrite Hnew in Hnew'. apply app_inv_tail in Hnew'. subst new'. exact Hset.
  - intros s Hwarm.
    destruct (hunyuan3d_handler_warm event s (actions p) p
                (conj Hwarm (logged_start _ p))) as (_ & new' & Hnew' & Hno).
    rewrite Hnew in Hnew'. apply app_inv_tail in Hnew'. subst new'. exact Hno.
Qed.

Lemma profile_clamped_witness :
  exists new,
    actions (snd (Sample.hunyuan3d Sample.high_profile_job))
    = (new ++ actions Sample.hunyuan3d_start)%list
    /\ (forall val, In (SetEnv "HY3D_PROFILE" val) new -> val = "5")
    /\ In (SetEnv "HY3D_PROFILE" "5") new.
Proof.
  destruct (@profile_clamped Sample.sample_interp Sample.sample_platform
              Sample.hunyuan3d_libs Sample.high_profile_job
              [("image", VStr Sample.png_b64); ("profile", VInt 9)] 9
              Sample.hunyuan3d_start eq_refl eq_refl)
    as (new & r & response & Hnew & Hr & Hv & _ & _ & _ & _ & _ & Hvals & Hcold & _).
  assert (E : str_of_int r = "5") by (rewrite Hv; vm_compute; reflexivity).
  rewrite E in Hvals, Hcold.
  exists new. split; [exact Hnew|]. split; [exact Hvals|].
  destruct (Hcold eq_refl) as [[msg Herr] | [_ Hset]]; [|exact Hset].
  exfalso. rewrite Herr in Hr. vm_compute in Hr. discriminate Hr.
Defined.

(** The run of the witness: the models are loaded with profile 5. *)
Example profile_9_run :
  In (SetEnv "HY3D_PROFILE" "5") (actions (snd (Sample.hunyuan3d Sample.high_profile_job))).
Proof. evaluate. Qed.

(** C6, as the claim states it, fails: with [texture_resolution] 1000 the
    SF3D handler bakes the texture at 1000 and echoes 1000, which is none of
    512, 1024 and 2048. *)
Lemma texture_resolution_1000_is_used :
  Sample.to_int (VInt 1000) = Ok 1000
  /\ (exists remesh,
        In (Call "sf3d.run_image" [VInt 1000; remesh])
           (actions (snd (Sample.sf3d Sample.odd_texture_job))))
  /\ field (Sample.response (Sample.sf3d Sample.odd_texture_job)) "texture_resolution"
     = Some (VInt 1000)
  /\ int_in 1000 [512; 1024; 2048] = false.
Proof.
  split_all; try evaluate.
  exists VNone. evaluate.
Qed.

(** C6, amended.  For a request to the SF3D handler whose
    [texture_resolution] converts to the int [n], the value the texture is
    baked at and the response echoes is [r = max(512, min(2048, n))]: it
    lies in [512, 2048], is 512 for [n] below 512, 2048 for [n] above 2048
    and [n] itself in between (1024, the default, stays 1024).  Every call
    of the model has [bake_resolution = r], a ['texture_resolution'] field of
    a response holds [r], and a response that carries a model comes after a
    call of the model at [r] and echoes [r]. *)
Theorem texture_resolution_clamped `{Interp} `{SF3D.Libs} (event : value) d (n : Z)
    (p : process SF3D.globals_t) :
  py_get event "input" (VDict []) = Ok (VDict d) ->
  py_int (get_or d "texture_resolution" (VInt 1024)) = Ok n ->
  exists new r,
    actions (snd (SF3D.handler event p)) = (new ++ actions p)%list
    /\ r = SF3D.valid_texture_resolution n
    /\ 512 <= r <= 2048
    /\ (n < 512 -> r = 512)
    /\ (2048 < n -> r = 2048)
    /\ (512 <= n <= 2048 -> r = n)
    /\ SF3D.valid_texture_resolution 1024 = 1024
    /\ (forall args, In (Call "sf3d.run_image" args) new ->
        exists remesh, args = [VInt r; remesh])
    /\ (forall response v,
          fst (SF3D.handler event p) = Ok response ->
          field response "texture_resolution" = Some v -> v = VInt r)
    /\ (forall response s,
          fst (SF3D.handler event p) = Ok response ->
          field response "model_base64" = Some (VStr s) ->
          (exists remesh, In (Call "sf3d.run_image" [VInt r; remesh]) new)
          /\ field response "texture_resolution" = Some (VInt r)).
Proof.
  intros Hin Hn.
  destruct (sf3d_bakes_at event (VDict d) _ n (actions p) Hin eq_refl Hn p
              (logged_start _ p)) as (new & Hnew & HQ).
  exists new, (SF3D.valid_texture_resolution n).
  split; [exact Hnew|]. split; [reflexivity|].
  split_all; try (unfold SF3D.valid_texture_resolution; lia).
  - intros args Hargs. rewrite List.Forall_forall in HQ.
    exact (HQ _ Hargs args eq_refl).
  - intros response v Hr Hv.
    exact (sf3d_echoes event (VDict d) _ n Hin eq_refl Hn p response Hr v Hv).
  - intros response s Hr Hs.
    destruct (sf3d_success event (actions p) p (recorded_start p) response s Hr Hs)
      as (new' & input' & fr' & x' & tr' & n' & remesh & path & data & Hnew' & Hin'
          & _ & _ & Htr' & Hn' & _ & Hcall & _ & _ & _ & Hecho).
    rewrite Hin in Hin'. injection Hin' as <-. cbn in Htr'. injection Htr' as <-.
    rewrite Hn in Hn'. injection Hn' as <-.
    rewrite Hnew in Hnew'. apply app_inv_tail in Hnew'. subst new'.
    split; [exists remesh; exact Hcall | exact Hecho].
Qed.

Lemma texture_resolution_clamped_witness :
  exists new r,
    actions (snd (Sample.sf3d Sample.odd_texture_job))
    = (new ++ actions Sample.sf3d_start)%list
    /\ r = SF3D.valid_texture_resolution 1000
    /\ 512 <= r <= 2048
    /\ (1000 < 512 -> r = 512)
    /\ (2048 < 1000 -> r = 2048)
    /\ (512 <= 1000 <= 2048 -> r = 1000)
    /\ SF3D.valid_texture_resolution 1024 = 1024
    /\ (forall args, In (Call "sf3d.run_image" args) new ->
        exists remesh, args = [VInt r; remesh])
    /\ (forall response v,
          fst (Sample.sf3d Sample.odd_texture_job) = Ok response ->
          field response "texture_resolution" = Some v -> v = VInt r)
    /\ (forall response s,
          fst (Sample.sf3d Sample.odd_texture_job) = Ok response ->
          field response "model_base64" = Some (VStr s) ->
          (exists remesh, In (Call "sf3d.run_image" [VInt r; remesh]) new)
          /\ field response "texture_resolution" = Some (VInt r)).
Proof.
  apply (@texture_resolution_clamped Sample.sample_interp Sample.sample_platform
           Sample.sf3d_libs Sample.odd_texture_job
           [("image", VStr Sample.png_b64); ("texture_resolution", VInt 1000)] 1000
           Sample.sf3d_start); reflexivity.
Defined.

(** ** The response of a success *)

(** C9.  For every response of one of the three handlers that carries a
    ['model_base64'] field [s]: the run has exported a file with bytes
    [data], base64-decoding [s] gives exactly [data], and the ['file_size']
    field is the length of [data] in bytes. *)
Theorem model_base64_decodes `{Interp} `{Platform} {T : TripoSR.Libs} {S : SF3D.Libs}
    {Y : Hunyuan3D.Libs} (event : value) :
  (forall (p : process TripoSR.globals_t) response s,
     fst (TripoSR.handler event p) = Ok response ->
     field response "model_base64" = Some (VStr s) ->
     exists new path data,
       actions (snd (TripoSR.handler event p)) = (new ++ actions p)%list
       /\ In (Wrote "mesh.export" path data) new
       /\ b64decode s = Some data
       /\ field response "file_size" = Some (VInt (Z.of_nat (length data))))
  /\ (forall (p : process SF3D.globals_t) response s,
     fst (SF3D.handler event p) = Ok response ->
     field response "model_base64" = Some (VStr s) ->
     exists new path data,
       actions (snd (SF3D.handler event p)) = (new ++ actions p)%list
       /\ In (Wrote "mesh.export" path data) new
       /\ b64decode s = Some data
       /\ field response "file_size" = Some (VInt (Z.of_nat (length data))))
  /\ (forall (p : process Hunyuan3D.globals_t) response s,
     fst (Hunyuan3D.handler event p) = Ok response ->
     field response "model_base64" = Some (VStr s) ->
     exists new path data,
       actions (snd (Hunyuan3D.handler event p)) = (new ++ actions p)%list
       /\ In (Wrote "mesh.export" path data) new
       /\ b64decode s = Some data
       /\ field response "file_size" = Some (VInt (Z.of_nat (length data)))).
Proof.
  split_all; intros p response s Hr Hs.
  - destruct (triposr_success event (actions p) p (recorded_start p) response s Hr Hs)
      as (new & _ & _ & _ & _ & _ & path & data & Hnew & _ & _ & _ & _ & _ & _ & _
          & Hw & -> & Hsize).
    exists new, path, data. split_all; auto using b64decode_b64encode.
  - destruct (sf3d_success event (actions p) p (recorded_start p) response s Hr Hs)
      as (new & _ & _ & _ & _ & _ & _ & path & data & Hnew & _ & _ & _ & _ & _ & _ & _
          & Hw & -> & Hsize & _).
    exists new, path, data. split_all; auto using b64decode_b64encode.
  - destruct (hunyuan3d_success event (actions p) p (recorded_start p) response s Hr Hs)
      as (new & path & data & Hnew & Hw & -> & Hsize).
    exists new, path, data. split_all; auto using b64decode_b64encode.
Qed.

Lemma model_base64_decodes_witness :
  exists new path data,
    actions (snd (Sample.triposr Sample.plain_job))
    = (new ++ actions Sample.triposr_start)%list
    /\ In (Wrote "mesh.export" path data) new
    /\ b64decode "Z2xURgI=" = Some data
    /\ field (Sample.response (Sample.triposr Sample.plain_job)) "file_size"
       = Some (VInt (Z.of_nat (length data))).
Proof.
  apply (proj1 (@model_base64_decodes Sample.sample_interp Sample.sample_platform
                  Sample.triposr_libs Sample.sf3d_libs Sample.hunyuan3d_libs
                  Sample.plain_job) Sample.triposr_start).
  - vm_compute. reflexivity.
  - vm_compute. reflexivity.
Defined.

(** ** Large files *)

(** C5.  What the TripoSR handler does, against its docstring: it returns
    for every event, and its response never has a ['model_url'] field; a
    response whose ['file_size'] is 5 MiB or more carries the file in
    ['model_base64'], with a ['warning'], and a response with a ['warning']
    is one of a file of 5 MiB or more, sent whole in ['model_base64']. *)
Theorem large_file_returned_as_base64 `{Interp} `{TripoSR.Libs} (event : value)
    (p : process TripoSR.globals_t) :
  exists response,
    fst (TripoSR.handler event p) = Ok response
    /\ field response "model_url" = None
    /\ (forall n, field response "file_size" = Some (VInt n) ->
        5 * 1024 * 1024 <= n ->
        exists s, field response "model_base64" = Some (VStr s)
                  /\ field response "warning" = Some (VStr TripoSR.large_file_warning))
    /\ (forall w, field response "warning" = Some w ->
        exists data,
          5 * 1024 * 1024 <= Z.of_nat (length data)
          /\ field response "file_size" = Some (VInt (Z.of_nat (length data)))
          /\ field response "model_base64" = Some (VStr (b64encode data))).
Proof.
  destruct (triposr_handler_total event p) as [response Hr].
  exists response. split; [exact Hr|].
  destruct (triposr_response_fields event p response Hr) as (Hurl & Hw & Hn).
  split_all; assumption.
Qed.

(** ** The model singleton *)



(** * More of the handlers *)

(** ** Requests that are turned down *)

(** X1.  An event with no ['input'] key, or with an empty ['input'], is a
    request with no image and with every option at its default: each of the
    three handlers returns the error for a missing image, and changes
    nothing (no call, no file, no model loaded). *)
Theorem request_without_input `{Interp} `{Platform} {T : TripoSR.Libs} {S : SF3D.Libs}
    {Y : Hunyuan3D.Libs} (ev : list (string * value)) :
  get_or ev "input" (VDict []) = VDict [] ->
  (forall p : process TripoSR.globals_t,
     fst (TripoSR.handler (VDict ev) p) = Ok (error_response no_image_msg)
     /\ untouched p (snd (TripoSR.handler (VDict ev) p)))
  /\ (forall p : process SF3D.globals_t,
     fst (SF3D.handler (VDict ev) p) = Ok (error_response no_image_msg)
     /\ untouched p (snd (SF3D.handler (VDict ev) p)))
  /\ (forall p : process Hunyuan3D.globals_t,
     fst (Hunyuan3D.handler (VDict ev) p) = Ok (error_response no_image_msg)
     /\ untouched p (snd (Hunyuan3D.handler (VDict ev) p))).
Proof.
  intros Hev.
  assert (Hin : py_get (VDict ev) "input" (VDict []) = Ok (VDict []))
    by (cbn; now rewrite Hev).
  split_all; intros p; split.
  - exact (triposr_no_image (VDict ev) [] f0_85 256 "glb" p Hin eq_refl eq_refl eq_refl
             eq_refl).
  - apply (triposr_no_image_untouched (VDict ev) [] p Hin); [|reflexivity].
    exists f0_85, 256, "glb". split_all; reflexivity.
  - exact (sf3d_no_image (VDict ev) [] f0_85 1024 "none" p Hin eq_refl eq_refl eq_refl
             eq_refl).
  - apply (sf3d_no_image_untouched (VDict ev) [] p Hin); [|reflexivity].
    exists f0_85, 1024, "none". split_all; reflexivity.
  - exact (hunyuan3d_no_image (VDict ev) [] 3 p Hin eq_refl eq_refl).
  - apply (hunyuan3d_no_image_untouched (VDict ev) [] p Hin); [|reflexivity].
    exists 3. reflexivity.
Qed.

Lemma request_without_input_witness :
  fst (Sample.sf3d Sample.empty_event) = Ok (error_response no_image_msg).
Proof.
  apply (proj1 (proj2 (@request_without_input Sample.sample_interp Sample.sample_platform
                         Sample.triposr_libs Sample.sf3d_libs Sample.hunyuan3d_libs
                         [] eq_refl))).
Defined.

(** X2.  An event whose ['input'] is no dict ([null], a list, a string, a
    number): [input_data.get] raises [AttributeError], and each of the three
    handlers returns the generic error
    ["Generation failed: '<type>' object has no attribute 'get'"], with
    nothing changed. *)
Theorem input_not_a_dict `{Interp} `{Platform} {T : TripoSR.Libs} {S : SF3D.Libs}
    {Y : Hunyuan3D.Libs} (ev : list (string * value)) (v : value) :
  dict_lookup ev "input" = Some v ->
  (forall d, v <> VDict d) ->
  let response :=
    error_response ("Generation failed: '" ++ type_name v
                      ++ "' object has no attribute 'get'") in
  (forall p : process TripoSR.globals_t,
     fst (TripoSR.handler (VDict ev) p) = Ok response
     /\ untouched p (snd (TripoSR.handler (VDict ev) p)))
  /\ (forall p : process SF3D.globals_t,
     fst (SF3D.handler (VDict ev) p) = Ok response
     /\ untouched p (snd (SF3D.handler (VDict ev) p)))
  /\ (forall p : process Hunyuan3D.globals_t,
     fst (Hunyuan3D.handler (VDict ev) p) = Ok response
     /\ untouched p (snd (Hunyuan3D.handler (VDict ev) p))).
Proof.
  intros Hev Hv response.
  assert (Hin : py_get (VDict ev) "input" (VDict []) = Ok v)
    by (cbn; unfold get_or; now rewrite Hev).
  set (e := mk_exn AttributeError
              ("'" ++ type_name v ++ "' object has no attribute 'get'")).
  assert (He : py_get v "image" VNone = Raise e)
    by (destruct v as [ | b | n | x | s | l | d0 ]; try reflexivity;
        now destruct (Hv d0)).
  assert (Hr : forall oom, except_response oom e = response).
  { intros oom. unfold except_response, says_out_of_memory, response.
    destruct v; reflexivity. }
  split_all; intros p.
  - exact (triposr_input_not_dict (VDict ev) v e p Hin He eq_refl).
  - rewrite <- (Hr SF3D.oom_msg). exact (sf3d_input_not_dict (VDict ev) v e p Hin He).
  - rewrite <- (Hr Hunyuan3D.oom_msg).
    exact (hunyuan3d_input_not_dict (VDict ev) v e p Hin He).
Qed.

Lemma input_not_a_dict_witness :
  fst (Sample.hunyuan3d Sample.null_input_event)
  = Ok (error_response "Generation failed: 'NoneType' object has no attribute 'get'").
Proof.
  apply (proj2 (proj2 (@input_not_a_dict Sample.sample_interp Sample.sample_platform
                         Sample.triposr_libs Sample.sf3d_libs Sample.hunyuan3d_libs
                         [("input", VNone)] VNone eq_refl
                         ltac:(intros d; discriminate)))).
Defined.

(** X3.  In every handler the options are converted before the image is
    looked at, and the first one that does not convert ends the run: with
    [e] raised by [float()], [int()] or [.lower()] (a [output_format] or
    [remesh_option] that is no string), whatever the image is, the TripoSR
    handler returns ["Generation failed: " + str(e)], the SF3D and
    Hunyuan3D-2 handlers return what their [except] clause makes of [e],
    and nothing is changed. *)
Theorem options_convert_first `{Interp} `{Platform} {T : TripoSR.Libs} {S : SF3D.Libs}
    {Y : Hunyuan3D.Libs} (event : value) d (e : exn) :
  py_get event "input" (VDict []) = Ok (VDict d) ->
  (triposr_options_fail d e -> forall p : process TripoSR.globals_t,
     fst (TripoSR.handler event p)
     = Ok (error_response ("Generation failed: " ++ exn_str e))
     /\ untouched p (snd (TripoSR.handler event p)))
  /\ (sf3d_options_fail d e -> forall p : process SF3D.globals_t,
     fst (SF3D.handler event p) = Ok (except_response SF3D.oom_msg e)
     /\ untouched p (snd (SF3D.handler event p)))
  /\ (hunyuan3d_options_fail d e -> forall p : process Hunyuan3D.globals_t,
     fst (Hunyuan3D.handler event p) = Ok (except_response Hunyuan3D.oom_msg e)
     /\ untouched p (snd (Hunyuan3D.handler event p))).
Proof.
  intros Hin. split_all; intros He p.
  - exact (triposr_options_fail_run event d e p Hin He).
  - exact (sf3d_options_fail_run event d e p Hin He).
  - exact (hunyuan3d_options_fail_run event d e p Hin He).
Qed.

Lemma options_convert_first_witness :
  fst (Sample.triposr Sample.list_format_job)
  = Ok (error_response "Generation failed: 'list' object has no attribute 'lower'").
Proof.
  refine (proj1 (proj1 (@options_convert_first Sample.sample_interp Sample.sample_platform
                          Sample.triposr_libs Sample.sf3d_libs Sample.hunyuan3d_libs
                          Sample.list_format_job
                          [("image", VStr Sample.png_b64); ("output_format", VList [])]
                          (mk_exn AttributeError "'list' object has no attribute 'lower'")
                          eq_refl) _ Sample.triposr_start)).
  right. right. exists f0_85, 256. split_all; reflexivity.
Defined.

(** X4.  A request that is turned down for its image costs nothing: with
    options that convert, a missing or falsy image leaves the state as it
    was, and an image that does not decode or open leaves the globals (no
    model is loaded), the files and the environment as they were, with no
    call but, at most, the [Image.open] that raised. *)
Theorem rejected_request_loads_nothing `{Interp} `{Platform} {T : TripoSR.Libs}
    {S : SF3D.Libs} {Y : Hunyuan3D.Libs} (event : value) d :
  py_get event "input" (VDict []) = Ok (VDict d) ->
  (triposr_options_convert d -> forall p : process TripoSR.globals_t,
     (truthy (get_or d "image" VNone) = false ->
      untouched p (snd (TripoSR.handler event p)))
     /\ (truthy (get_or d "image" VNone) = true -> forall e,
         decode_fails (get_or d "image" VNone) (snd (time_time (outside p))) e ->
         let q := snd (TripoSR.handler event p) in
         globals q = globals p /\ files q = files p /\ environ q = environ p
         /\ (actions q = actions p \/ actions q = Call "Image.open" [] :: actions p)))
  /\ (sf3d_options_convert d -> forall p : process SF3D.globals_t,
     (truthy (get_or d "image" VNone) = false ->
      untouched p (snd (SF3D.handler event p)))
     /\ (truthy (get_or d "image" VNone) = true -> forall e,
         decode_fails (get_or d "image" VNone) (snd (time_time (outside p))) e ->
         let q := snd (SF3D.handler event p) in
         globals q = globals p /\ files q = files p /\ environ q = environ p
         /\ (actions q = actions p \/ actions q = Call "Image.open" [] :: actions p)))
  /\ (hunyuan3d_options_convert d -> forall p : process Hunyuan3D.globals_t,
     (truthy (get_or d "image" VNone) = false ->
      untouched p (snd (Hunyuan3D.handler event p)))
     /\ (truthy (get_or d "image" VNone) = true -> forall e,
         decode_fails (get_or d "image" VNone) (snd (time_time (outside p))) e ->
         let q := snd (Hunyuan3D.handler event p) in
         globals q = globals p /\ files q = files p /\ environ q = environ p
         /\ (actions q = actions p \/ actions q = Call "Image.open" [] :: actions p))).
Proof.
  intros Hin. split_all; intros Hconv p; split.
  - exact (triposr_no_image_untouched event d p Hin Hconv).
  - intros Himg e He. exact (triposr_bad_image_state event d e p Hin Hconv Himg He).
  - exact (sf3d_no_image_untouched event d p Hin Hconv).
  - intros Himg e He. exact (sf3d_bad_image_state event d e p Hin Hconv Himg He).
  - exact (hunyuan3d_no_image_untouched event d p Hin Hconv).
  - intros Himg e He. exact (hunyuan3d_bad_image_state event d e p Hin Hconv Himg He).
Qed.

Lemma rejected_request_loads_nothing_witness :
  globals (snd (Sample.triposr Sample.bad_base64_job)) = globals Sample.triposr_start
  /\ files (snd (Sample.triposr Sample.bad_base64_job)) = files Sample.triposr_start
  /\ environ (snd (Sample.triposr Sample.bad_base64_job)) = environ Sample.triposr_start
  /\ (actions (snd (Sample.triposr Sample.bad_base64_job)) = actions Sample.triposr_start
      \/ actions (snd (Sample.triposr Sample.bad_base64_job))
         = Call "Image.open" [] :: actions Sample.triposr_start).
Proof.
  refine (proj2 (proj1 (@rejected_request_loads_nothing Sample.sample_interp
                          Sample.sample_platform Sample.triposr_libs Sample.sf3d_libs
                          Sample.hunyuan3d_libs Sample.bad_base64_job
                          [("image", VStr "ab")] eq_refl) _ Sample.triposr_start)
            eq_refl (mk_exn (OtherException "binascii.Error") "Incorrect padding") _).
  - exists f0_85, 256, "glb". split_all; reflexivity.
  - left. reflexivity.
Defined.

(** ** The options that are validated *)

(** X5.  For a request to the TripoSR or SF3D handler whose
    [foreground_ratio] converts to the float [x], the ratio [r] that the
    [if] leaves is never below 0.5, never above 1.0 and never zero (so the
    division in the SF3D [resize_foreground] is never one by zero); for [x]
    a number, [r] is [x] when [0.5 <= x <= 1.0] and 0.85 otherwise.  Every
    call of [resize_foreground] in the run gets [r], and a response that
    carries a model comes after such a call. *)
Theorem foreground_ratio_validated `{Interp} `{Platform} {T : TripoSR.Libs}
    {S : SF3D.Libs} (event : value) d (x : float) :
  py_get event "input" (VDict []) = Ok (VDict d) ->
  py_float (get_or d "foreground_ratio" (VFloat f0_85)) = Ok x ->
  exists r,
    r = TripoSR.valid_foreground_ratio x
    /\ r = SF3D.valid_foreground_ratio x
    /\ PrimFloat.ltb r f0_5 = false
    /\ PrimFloat.ltb f1_0 r = false
    /\ PrimFloat.eqb r 0%float = false
    /\ (Prim2SF x <> S754_nan ->
        (PrimFloat.leb f0_5 x && PrimFloat.leb x f1_0 = true -> r = x)
        /\ (PrimFloat.leb f0_5 x && PrimFloat.leb x f1_0 = false -> r = f0_85))
    /\ (forall p : process TripoSR.globals_t, exists new,
          actions (snd (TripoSR.handler event p)) = (new ++ actions p)%list
          /\ (forall args, In (Call "resize_foreground" args) new -> args = [VFloat r])
          /\ (forall response s,
                fst (TripoSR.handler event p) = Ok response ->
                field response "model_base64" = Some (VStr s) ->
                In (Call "resize_foreground" [VFloat r]) new))
    /\ (forall p : process SF3D.globals_t, exists new,
          actions (snd (SF3D.handler event p)) = (new ++ actions p)%list
          /\ (forall args, In (Call "resize_foreground" args) new -> args = [VFloat r])
          /\ (forall response s,
                fst (SF3D.handler event p) = Ok response ->
                field response "model_base64" = Some (VStr s) ->
                In (Call "resize_foreground" [VFloat r]) new)).
Proof.
  intros Hin Hx. exists (TripoSR.valid_foreground_ratio x).
  destruct (triposr_valid_ratio_bounds x) as (Hlo & Hhi & Hz).
  destruct (foreground_ratio_passed_on event d x Hin Hx) as [HT HS].
  split_all; try reflexivity; try assumption.
  - intros Hnan. destruct (foreground_ratio_reset_unless_nan x Hnan) as [Hin_range Hout].
    split; intros Hr; [apply (Hin_range Hr) | apply (Hout Hr)].
  - intros p. destruct (HT p) as (new & Hnew & Hargs). exists new.
    split_all; [exact Hnew | exact Hargs |]. intros response s Hr Hs.
    destruct (triposr_success event (actions p) p (recorded_start p) response s Hr Hs)
      as (new' & input' & fr' & x' & _ & _ & _ & _ & Hnew' & Hin' & Hfr' & Hx' & _ & _
          & Hcall & _).
    rewrite Hin in Hin'. injection Hin' as <-. cbn in Hfr'. injection Hfr' as <-.
    rewrite Hx in Hx'. injection Hx' as <-.
    rewrite Hnew in Hnew'. apply app_inv_tail in Hnew'. subst new'. exact Hcall.
  - intros p. destruct (HS p) as (new & Hnew & Hargs). exists new.
    split_all; [exact Hnew | exact Hargs |]. intros response s Hr Hs.
    destruct (sf3d_success event (actions p) p (recorded_start p) response s Hr Hs)
      as (new' & input' & fr' & x' & _ & _ & _ & _ & _ & Hnew' & Hin' & Hfr' & Hx' & _ & _
          & Hcall & _).
    rewrite Hin in Hin'. injection Hin' as <-. cbn in Hfr'. injection Hfr' as <-.
    rewrite Hx in Hx'. injection Hx' as <-.
    rewrite Hnew in Hnew'. apply app_inv_tail in Hnew'. subst new'. exact Hcall.
Qed.

Lemma foreground_ratio_validated_witness :
  exists new,
    actions (snd (Sample.triposr Sample.low_ratio_job))
    = (new ++ actions Sample.triposr_start)%list
    /\ (forall args, In (Call "resize_foreground" args) new -> args = [VFloat f0_85])
    /\ (forall response s,
          fst (Sample.triposr Sample.low_ratio_job) = Ok response ->
          field response "model_base64" = Some (VStr s) ->
          In (Call "resize_foreground" [VFloat f0_85]) new).
Proof.
  destruct (@foreground_ratio_validated Sample.sample_interp Sample.sample_platform
              Sample.triposr_libs Sample.sf3d_libs Sample.low_ratio_job
              [("image", VStr Sample.png_b64);
               ("foreground_ratio", VFloat 0x1p-2%float)]
              0x1p-2%float eq_refl eq_refl)
    as (r & Hr & _ & _ & _ & _ & _ & HT & _).
  assert (E : r = f0_85) by (rewrite Hr; vm_compute; reflexivity).
  rewrite E in HT. exact (HT Sample.triposr_start).
Defined.

(** X6.  For a request to the TripoSR handler whose [output_format]
    lowercases to [fmt], the format [ft] used is [fmt] when it is ['glb'] or
    ['obj'] and ['glb'] otherwise: every [mesh.export] of the run has
    [file_type = ft], the ['format'] field of a response is [ft], and a
    response that carries a model comes after an export with that file
    type. *)
Theorem output_format_validated `{Interp} `{TripoSR.Libs} (event : value) d
    (fmt : string) (p : process TripoSR.globals_t) :
  py_get event "input" (VDict []) = Ok (VDict d) ->
  py_lower (get_or d "output_format" (VStr "glb")) = Ok fmt ->
  exists new ft,
    actions (snd (TripoSR.handler event p)) = (new ++ actions p)%list
    /\ ft = TripoSR.valid_output_format fmt
    /\ (ft = "glb" \/ ft = "obj")
    /\ (fmt = "glb" \/ fmt = "obj" -> ft = fmt)
    /\ (fmt <> "glb" -> fmt <> "obj" -> ft = "glb")
    /\ (forall args, In (Call "mesh.export" args) new ->
        exists path, args = [VStr path; VStr ft])
    /\ (forall response v,
          fst (TripoSR.handler event p) = Ok response ->
          field response "format" = Some v -> v = VStr ft)
    /\ (forall response s,
          fst (TripoSR.handler event p) = Ok response ->
          field response "model_base64" = Some (VStr s) ->
          field response "format" = Some (VStr ft)
          /\ exists path data,
               In (Call "mesh.export" [VStr path; VStr ft]) new
               /\ In (Wrote "mesh.export" path data) new).
Proof.
  intros Hin Hfmt.
  destruct (triposr_exports_as event (VDict d) _ fmt (actions p) Hin eq_refl Hfmt p
              (logged_start _ p)) as (new & Hnew & HQ).
  rewrite List.Forall_forall in HQ.
  exists new, (TripoSR.valid_output_format fmt).
  split_all; try reflexivity; try assumption.
  - apply valid_output_format_cases.
  - intros [-> | ->]; reflexivity.
  - intros Hg Ho. unfold TripoSR.valid_output_format, str_in. cbn.
    destruct (String.eqb_spec fmt "glb"); [contradiction|].
    destruct (String.eqb_spec fmt "obj"); [contradiction|]. reflexivity.
  - intros args Hargs. exact (HQ _ Hargs args eq_refl).
  - intros response v Hr Hv.
    exact (triposr_format_echo event (VDict d) _ fmt Hin eq_refl Hfmt p response Hr v Hv).
  - intros response s Hr Hs.
    destruct (triposr_success_files event (actions p) p (recorded_start p) response s
                Hr Hs) as (new' & path & data & ft & Hnew' & Hcall & Hw & _ & _ & Hf).
    rewrite Hnew in Hnew'. apply app_inv_tail in Hnew'. subst new'.
    destruct (HQ _ Hcall _ eq_refl) as (path' & [= _ ->]).
    split; [exact Hf|]. exists path, data. split; assumption.
Qed.

Lemma output_format_validated_witness :
  exists new ft,
    actions (snd (Sample.triposr Sample.upper_obj_job))
    = (new ++ actions Sample.triposr_start)%list
    /\ ft = "obj"
    /\ (forall args, In (Call "mesh.export" args) new ->
        exists path, args = [VStr path; VStr ft]).
Proof.
  destruct (@output_format_validated Sample.sample_interp Sample.sample_platform
              Sample.triposr_libs Sample.upper_obj_job
              [("image", VStr Sample.png_b64); ("output_format", VStr "OBJ")]
              "obj" Sample.triposr_start eq_refl eq_refl)
    as (new & ft & Hnew & Hft & _ & _ & _ & Hargs & _).
  exists new, ft. split_all; [exact Hnew | exact Hft | exact Hargs].
Defined.

(** X7.  For a request to the SF3D handler whose [remesh_option] lowercases
    to [ro], the [remesh] argument of every call of the model is [ro] itself
    when [ro] is ['triangle'] or ['quad'], and [None] otherwise (for
    ['none'] and for every unknown option); a response that carries a model
    comes after a call of the model with that argument. *)
Theorem remesh_option_validated `{Interp} `{SF3D.Libs} (event : value) d (ro : string)
    (p : process SF3D.globals_t) :
  py_get event "input" (VDict []) = Ok (VDict d) ->
  py_lower (get_or d "remesh_option" (VStr "none")) = Ok ro ->
  exists new remesh,
    actions (snd (SF3D.handler event p)) = (new ++ actions p)%list
    /\ remesh = remesh_argument ro
    /\ (ro = "triangle" \/ ro = "quad" -> remesh = VStr ro)
    /\ (ro <> "triangle" -> ro <> "quad" -> remesh = VNone)
    /\ (forall args, In (Call "sf3d.run_image" args) new ->
        exists tr, args = [VInt tr; remesh])
    /\ (forall response s,
          fst (SF3D.handler event p) = Ok response ->
          field response "model_base64" = Some (VStr s) ->
          exists tr, In (Call "sf3d.run_image" [VInt tr; remesh]) new).
Proof.
  intros Hin Hro.
  destruct (sf3d_remeshes_with event (VDict d) _ ro (actions p) Hin eq_refl Hro p
              (logged_start _ p)) as (new & Hnew & HQ).
  rewrite List.Forall_forall in HQ.
  destruct (remesh_argument_cases ro) as [Hkept Hnone].
  exists new, (remesh_argument ro).
  split_all; try reflexivity; try assumption.
  - intros args Hargs. exact (HQ _ Hargs args eq_refl).
  - intros response s Hr Hs.
    destruct (sf3d_success event (actions p) p (recorded_start p) response s Hr Hs)
      as (new' & _ & _ & _ & _ & n & remesh & _ & _ & Hnew' & _ & _ & _ & _ & _ & _
          & Hcall & _).
    rewrite Hnew in Hnew'. apply app_inv_tail in Hnew'. subst new'.
    destruct (HQ _ Hcall _ eq_refl) as (tr & [= _ ->]).
    eexists. exact Hcall.
Qed.

Lemma remesh_option_validated_witness :
  exists new,
    actions (snd (Sample.sf3d Sample.quad_job)) = (new ++ actions Sample.sf3d_start)%list
    /\ (forall args, In (Call "sf3d.run_image" args) new ->
        exists tr, args = [VInt tr; VStr "quad"]).
Proof.
  destruct (@remesh_option_validated Sample.sample_interp Sample.sample_platform
              Sample.sf3d_libs Sample.quad_job
              [("image", VStr Sample.png_b64); ("remesh_option", VStr "Quad")]
              "quad" Sample.sf3d_start eq_refl eq_refl)
    as (new & remesh & Hnew & Hre & _ & _ & Hargs & _).
  assert (E : remesh = VStr "quad") by (rewrite Hre; reflexivity).
  rewrite E in Hargs. exists new. split; [exact Hnew | exact Hargs].
Defined.

(** ** Responses *)

(** X8.  Each of the three handlers answers every event, from every state,
    with a response of one of two shapes: an error, which is the dict
    [{"error": msg}] and nothing else, or a model, which has a
    ['model_base64'] string, a ['file_size'] that is no negative int, a
    ['format'], an ['execution_time'] and no ['error'] field. *)
Theorem response_is_error_or_model `{Interp} `{Platform} {T : TripoSR.Libs}
    {S : SF3D.Libs} {Y : Hunyuan3D.Libs} (event : value) :
  (forall p : process TripoSR.globals_t, exists response,
     fst (TripoSR.handler event p) = Ok response
     /\ (is_error response \/ is_model response))
  /\ (forall p : process SF3D.globals_t, exists response,
     fst (SF3D.handler event p) = Ok response
     /\ (is_error response \/ is_model response))
  /\ (forall p : process Hunyuan3D.globals_t, exists response,
     fst (Hunyuan3D.handler event p) = Ok response
     /\ (is_error response \/ is_model response)).
Proof.
  split_all; intros p.
  - destruct (triposr_handler_total event p) as [response Hr]. exists response.
    split; [exact Hr | exact (triposr_response_shape event p response Hr)].
  - destruct (sf3d_handler_total event p) as [response Hr]. exists response.
    split; [exact Hr | exact (sf3d_response_shape event p response Hr)].
  - destruct (hunyuan3d_handler_total event p) as [response Hr]. exists response.
    split; [exact Hr | exact (hunyuan3d_response_shape event p response Hr)].
Qed.

(** X9.  A response that carries a model leaves no temporary file behind:
    the file the mesh was exported to (and, in the Hunyuan3D-2 handler, the
    file the image was saved to) has been removed, and is no longer there
    when the handler returns. *)
Theorem success_removes_temp_files `{Interp} `{Platform} {T : TripoSR.Libs}
    {S : SF3D.Libs} {Y : Hunyuan3D.Libs} (event : value) :
  (forall (p : process TripoSR.globals_t) response s,
     fst (TripoSR.handler event p) = Ok response ->
     field response "model_base64" = Some (VStr s) ->
     exists new path data,
       actions (snd (TripoSR.handler event p)) = (new ++ actions p)%list
       /\ In (Wrote "mesh.export" path data) new
       /\ In (Removed path) new
       /\ files (snd (TripoSR.handler event p)) !! path = None)
  /\ (forall (p : process SF3D.globals_t) response s,
     fst (SF3D.handler event p) = Ok response ->
     field response "model_base64" = Some (VStr s) ->
     exists new path data,
       actions (snd (SF3D.handler event p)) = (new ++ actions p)%list
       /\ In (Wrote "mesh.export" path data) new
       /\ In (Removed path) new
       /\ files (snd (SF3D.handler event p)) !! path = None)
  /\ (forall (p : process Hunyuan3D.globals_t) response s,
     fst (Hunyuan3D.handler event p) = Ok response ->
     field response "model_base64" = Some (VStr s) ->
     exists new png_path png path data,
       actions (snd (Hunyuan3D.handler event p)) = (new ++ actions p)%list
       /\ In (Wrote "image.save" png_path png) new
       /\ In (Wrote "mesh.export" path data) new
       /\ In (Removed png_path) new
       /\ In (Removed path) new
       /\ files (snd (Hunyuan3D.handler event p)) !! png_path = None
       /\ files (snd (Hunyuan3D.handler event p)) !! path = None).
Proof.
  split_all; intros p response s Hr Hs.
  - destruct (triposr_success_files event (actions p) p (recorded_start p) response s
                Hr Hs) as (new & path & data & _ & Hnew & _ & Hw & Hrm & Hgone & _).
    exists new, path, data. auto.
  - destruct (sf3d_success_files event (actions p) p (recorded_start p) response s
                Hr Hs) as (new & path & data & Hnew & Hw & Hrm & Hgone).
    exists new, path, data. auto.
  - destruct (hunyuan3d_success_files event (actions p) p (recorded_start p) response s
                Hr Hs)
      as (new & _ & _ & png_path & png & path & data & Hnew & _ & _ & Hpng & Hw & Hrm1
          & Hrm2 & Hgone1 & Hgone2 & _).
    exists new, png_path, png, path, data. split_all; assumption.
Qed.

Lemma success_removes_temp_files_witness :
  exists new png_path png path data,
    actions (snd (Sample.hunyuan3d Sample.plain_job))
    = (new ++ actions Sample.hunyuan3d_start)%list
    /\ In (Wrote "image.save" png_path png) new
    /\ In (Wrote "mesh.export" path data) new
    /\ In (Removed png_path) new
    /\ In (Removed path) new
    /\ files (snd (Sample.hunyuan3d Sample.plain_job)) !! png_path = None
    /\ files (snd (Sample.hunyuan3d Sample.plain_job)) !! path = None.
Proof.
  apply (proj2 (proj2 (@success_removes_temp_files Sample.sample_interp
                         Sample.sample_platform Sample.triposr_libs Sample.sf3d_libs
                         Sample.hunyuan3d_libs Sample.plain_job))
           Sample.hunyuan3d_start
           (Sample.response (Sample.hunyuan3d Sample.plain_job)) "Z2xURgI=").
  - vm_compute. reflexivity.
  - vm_compute. reflexivity.
Defined.

(** X10.  The ['textured'] field of a Hunyuan3D-2 response is the
    [generate_texture] of the request as it was given ([True] when absent),
    and it tells what was done by Python's truth of that value: when it is
    truthy (so also for the string ["false"]), a response that carries a
    model comes after a call of the paint pipeline on the saved image. *)
Theorem textured_reports_texturing `{Interp} `{Hunyuan3D.Libs} (event : value) d
    (p : process Hunyuan3D.globals_t) (response : value) (s : string) :
  py_get event "input" (VDict []) = Ok (VDict d) ->
  fst (Hunyuan3D.handler event p) = Ok response ->
  field response "model_base64" = Some (VStr s) ->
  exists new png_path png,
    actions (snd (Hunyuan3D.handler event p)) = (new ++ actions p)%list
    /\ field response "textured" = Some (get_or d "generate_texture" (VBool true))
    /\ In (Wrote "image.save" png_path png) new
    /\ (truthy (get_or d "generate_texture" (VBool true)) = true ->
        In (Call "paint_pipe" [VStr png_path]) new).
Proof.
  intros Hin Hr Hs.
  destruct (hunyuan3d_success_files event (actions p) p (recorded_start p) response s
              Hr Hs)
    as (new & input' & gt & png_path & png & _ & _ & Hnew & Hin' & Hgt & Hpng & _ & _
        & _ & _ & _ & Htex & Hpaint).
  rewrite Hin in Hin'. injection Hin' as <-. cbn in Hgt. injection Hgt as <-.
  exists new, png_path, png. split_all; assumption.
Qed.

Lemma textured_reports_texturing_witness :
  exists new png_path png,
    actions (snd (Sample.hunyuan3d Sample.text_texture_job))
    = (new ++ actions Sample.hunyuan3d_start)%list
    /\ field (Sample.response (Sample.hunyuan3d Sample.text_texture_job)) "textured"
       = Some (VStr "false")
    /\ In (Wrote "image.save" png_path png) new
    /\ (truthy (VStr "false") = true -> In (Call "paint_pipe" [VStr png_path]) new).
Proof.
  apply (@textured_reports_texturing Sample.sample_interp Sample.sample_platform
           Sample.hunyuan3d_libs Sample.text_texture_job
           [("image", VStr Sample.png_b64); ("generate_texture", VStr "false")]
           Sample.hunyuan3d_start
           (Sample.response (Sample.hunyuan3d Sample.text_texture_job)) "Z2xURgI=").
  - reflexivity.
  - vm_compute. reflexivity.
  - vm_compute. reflexivity.
Defined.

(** X11.  The two switches of a Hunyuan3D-2 request are obeyed, by Python's
    truth of their values: with a falsy [generate_texture] the run neither
    imports, loads, moves nor calls the paint pipeline, and with a falsy
    [remove_background] it neither imports [rembg], nor creates a session,
    nor calls [remove]. *)
Theorem switches_are_obeyed `{Interp} `{Hunyuan3D.Libs} (event : value) d
    (p : process Hunyuan3D.globals_t) :
  py_get event "input" (VDict []) = Ok (VDict d) ->
  exists new,
    actions (snd (Hunyuan3D.handler event p)) = (new ++ actions p)%list
    /\ (truthy (get_or d "generate_texture" (VBool true)) = false ->
        Forall (not_calling paint_calls) new
        /\ forall args, ~ In (Call "paint_pipe" args) new)
    /\ (truthy (get_or d "remove_background" (VBool true)) = false ->
        Forall (not_calling rembg_calls) new
        /\ forall args, ~ In (Call "remove" args) new).
Proof.
  intros Hin.
  assert (Hnew : exists new,
             actions (snd (Hunyuan3D.handler event p)) = (new ++ actions p)%list).
  { destruct (hunyuan3d_actions_grow event (actions p) p (logged_start _ p))
      as (new & Hnew & _). now exists new. }
  destruct Hnew as [new Hnew]. exists new. split; [exact Hnew|]. split.
  - intros Hf.
    destruct (hunyuan3d_no_texture event (VDict d) _ (actions p) Hin eq_refl Hf p
                (logged_start _ p)) as (new' & Hnew' & HQ).
    rewrite Hnew in Hnew'. apply app_inv_tail in Hnew'. subst new'.
    split; [exact HQ|]. intros args Hargs. rewrite List.Forall_forall in HQ.
    specialize (HQ _ Hargs). discriminate HQ.
  - intros Hf.
    destruct (hunyuan3d_no_rembg event (VDict d) _ (actions p) Hin eq_refl Hf p
                (logged_start _ p)) as (new' & Hnew' & HQ).
    rewrite Hnew in Hnew'. apply app_inv_tail in Hnew'. subst new'.
    split; [exact HQ|]. intros args Hargs. rewrite List.Forall_forall in HQ.
    specialize (HQ _ Hargs). discriminate HQ.
Qed.

Lemma switches_are_obeyed_witness :
  exists new,
    actions (snd (Sample.hunyuan3d Sample.no_texture_job))
    = (new ++ actions Sample.hunyuan3d_start)%list
    /\ (truthy (VBool false) = false ->
        Forall (not_calling paint_calls) new
        /\ forall args, ~ In (Call "paint_pipe" args) new)
    /\ (truthy (VBool true) = false ->
        Forall (not_calling rembg_calls) new
        /\ forall args, ~ In (Call "remove" args) new).
Proof.
  apply (@switches_are_obeyed Sample.sample_interp Sample.sample_platform
           Sample.hunyuan3d_libs Sample.no_texture_job
           [("image", VStr Sample.png_b64); ("generate_texture", VBool false)]
           Sample.hunyuan3d_start eq_refl).
Defined.

(** X12.  The pipelines of the Hunyuan3D-2 handler are loaded once.  With
    the shape pipeline loaded, [load_models] returns the two handles held
    and changes nothing when the paint pipeline is loaded too or textures
    are not asked for; and a run of the handler keeps the shape pipeline,
    with the same handle, and sets no environment variable: the [profile]
    of a request is used by the run that loads the shape pipeline, and by
    no later one. *)
Theorem pipelines_loaded_once `{Interp} `{Hunyuan3D.Libs}
    (p : process Hunyuan3D.globals_t) (s : obj) :
  Hunyuan3D.shape_pipeline (globals p) = Some s ->
  (forall generate_texture n,
     truthy generate_texture = false
     \/ (exists t, Hunyuan3D.paint_pipeline (globals p) = Some t) ->
     Hunyuan3D.load_models generate_texture n p
     = (Ok (Some s, Hunyuan3D.paint_pipeline (globals p)), p))
  /\ (forall event, exists new,
        actions (snd (Hunyuan3D.handler event p)) = (new ++ actions p)%list
        /\ Forall no_setenv new
        /\ Hunyuan3D.shape_pipeline (globals (snd (Hunyuan3D.handler event p)))
           = Some s).
Proof.
  intros Hs. split.
  - intros gt n Hp. exact (hunyuan3d_load_models_cached gt n p s Hs Hp).
  - intros event.
    destruct (hunyuan3d_handler_warm event s (actions p) p
                (conj Hs (logged_start _ p))) as (Hs' & new & Hnew & Hno).
    exists new. auto.
Qed.

Lemma pipelines_loaded_once_witness :
  exists new,
    actions (snd (Sample.hunyuan3d_again Sample.high_profile_job))
    = (new ++ actions Sample.hunyuan3d_warm)%list
    /\ Forall no_setenv new
    /\ Hunyuan3D.shape_pipeline (globals (snd (Sample.hunyuan3d_again
                                                 Sample.high_profile_job)))
       = Hunyuan3D.shape_pipeline (globals Sample.hunyuan3d_warm).
Proof.
  assert (Hs : exists s, Hunyuan3D.shape_pipeline (globals Sample.hunyuan3d_warm)
                         = Some s) by (eexists; vm_compute; reflexivity).
  destruct Hs as [s Hs].
  destruct (proj2 (@pipelines_loaded_once Sample.sample_interp Sample.sample_platform
                     Sample.hunyuan3d_libs Sample.hunyuan3d_warm s Hs)
              Sample.high_profile_job) as (new & Hnew & Hno & Hkeep).
  exists new. split; [exact Hnew|]. split; [exact Hno|].
  rewrite Hs. exact Hkeep.
Defined.

(** ** Loads that fail *)





(** A run of the handler on a worker without [rembg]: a model comes back,
    and [remove] was not called. *)
Example hunyuan3d_without_rembg_run :
  (exists s, field (Sample.response (Sample.hunyuan3d_no_rembg Sample.plain_job))
               "model_base64" = Some (VStr s))
  /\ existsb (fun a => match a with
                       | Call "remove" _ => true
                       | _ => false
                       end)
       (actions (snd (Sample.hunyuan3d_no_rembg Sample.plain_job))) = false.
Proof. split; [eexists|]; vm_compute; reflexivity. Qed.
